(** * EMAV: the reconstructed-UNV parser, the pyuff fallback filter, grid
    alignment and the validation metrics of [emav_app.py]

    A shallow embedding of the computational core of [EMAVApp]:

    - text is a list of lines, a line is a [string] of characters with code
      points below 256; [strip], [split] and [rstrip] follow Python's [str]
      methods on that range;
    - Python floats are idealised as rationals ([Q]); the square root, the
      conversions [float()] and [int()] and scipy's [find_peaks] are
      parameters of the sections that use them, so every theorem holds for
      any implementation of them;
    - a Python [dict] holding a record is a [gmap string pyval];
    - exceptions are the [inr] side of [result]. *)

From Stdlib Require Import ZArith QArith Qabs Lia Lqa Ascii String List Bool.
From stdpp Require Import base list strings pretty gmap sorting.

Local Open Scope string_scope.
Local Open Scope nat_scope.
Local Open Scope list_scope.

(** ** Exceptions *)

Inductive exn :=
| ValueError (msg : string)
| IndexError
| KeyError (key : string).

Definition result (A : Type) : Type := A + exn.

Definition ret {A} (a : A) : result A := inl a.
Definition raise {A} (e : exn) : result A := inr e.
Definition bind {A B} (m : result A) (k : A -> result B) : result B :=
  match m with
  | inl a => k a
  | inr e => inr e
  end.

Notation "x <- m ;; k" := (bind m (fun x => k))
  (at level 100, m at next level, right associativity).

(** ** Python string methods *)

Module PyStr.

(** [str.isspace] on one character (code points below 256). *)
Definition is_space (c : ascii) : bool :=
  let n := nat_of_ascii c in
  ((9 <=? n) && (n <=? 13)) || ((28 <=? n) && (n <=? 32))
  || (n =? 133) || (n =? 160).

Fixpoint lstrip (s : string) : string :=
  match s with
  | EmptyString => EmptyString
  | String c s' => if is_space c then lstrip s' else s
  end.

Fixpoint rstrip (s : string) : string :=
  match s with
  | EmptyString => EmptyString
  | String c s' =>
      match rstrip s' with
      | EmptyString => if is_space c then EmptyString else String c EmptyString
      | r => String c r
      end
  end.

(** [s.strip()] *)
Definition strip (s : string) : string := rstrip (lstrip s).

(** [s.rstrip('\r\n')] *)
Definition is_crlf (c : ascii) : bool :=
  let n := nat_of_ascii c in (n =? 10) || (n =? 13).

Fixpoint rstrip_crlf (s : string) : string :=
  match s with
  | EmptyString => EmptyString
  | String c s' =>
      match rstrip_crlf s' with
      | EmptyString => if is_crlf c then EmptyString else String c EmptyString
      | r => String c r
      end
  end.

Definition starts_token (s : string) : bool :=
  match s with
  | EmptyString => false
  | String c _ => negb (is_space c)
  end.

(** [s.split()]: the maximal runs of non-space characters, in order. *)
Fixpoint split (s : string) : list string :=
  match s with
  | EmptyString => []
  | String c s' =>
      if is_space c then split s'
      else if starts_token s' then
        match split s' with
        | t :: ts => String c t :: ts
        | [] => [String c EmptyString]
        end
      else String c EmptyString :: split s'
  end.

(** ['E' in s or 'e' in s] *)
Fixpoint has_e (s : string) : bool :=
  match s with
  | EmptyString => false
  | String c s' =>
      (Ascii.eqb c "E"%char) || (Ascii.eqb c "e"%char) || has_e s'
  end.

Definition nl : string := String (ascii_of_nat 10) EmptyString.

End PyStr.

(** ** The pyuff fallback filter of [load_reconstructed_files]

    The loop that runs after the custom parser has failed: [lines] is what
    [f.readlines()] returned, the result is [output_lines]. *)

Module Fallback.
Import PyStr.

Definition is_sentinel (l : string) : bool := String.eqb (strip l) "-1".
Definition is_marker (l : string) : bool := String.eqb (strip l) "151".

(** The inner [while]: from [i], stop at the first index holding a
    sentinel line or at [len(lines)]. *)
Fixpoint skip_to_sentinel (fuel : nat) (lines : list string) (i : nat) : nat :=
  match fuel with
  | O => i
  | S fuel' =>
      match lines !! i with
      | None => i
      | Some l => if is_sentinel l then i else skip_to_sentinel fuel' lines (i + 1)
      end
  end.

(** [lines[i-1].strip() == '-1'] guarded by [i > 0]. *)
Definition prev_is_sentinel (lines : list string) (i : nat) : bool :=
  match i with
  | O => false
  | S j => match lines !! j with Some p => is_sentinel p | None => false end
  end.

(** The outer [while i < len(lines)]. *)
Fixpoint filter_loop (fuel : nat) (lines : list string) (i : nat)
    (output_lines : list string) : list string :=
  match fuel with
  | O => output_lines
  | S fuel' =>
      match lines !! i with
      | None => output_lines
      | Some l =>
          if is_marker l && prev_is_sentinel lines i then
            let i1 := skip_to_sentinel (length lines) lines (i + 1) in
            filter_loop fuel' lines (i1 + 1) output_lines
          else
            filter_loop fuel' lines (i + 1) (output_lines ++ [l])
      end
  end.

Definition filter_lines (lines : list string) : list string :=
  filter_loop (length lines) lines 0 [].

(** The same filter as a two-state machine over the remaining lines.
    In [Copy prev] lines are copied, [prev] telling whether the line just
    before is a sentinel; in [Skip] lines are dropped up to the next
    sentinel.  [keep_closing] decides whether that closing sentinel is
    copied to the output. *)
Inductive mode := Copy (prev : bool) | Skip.

Fixpoint block_filter (keep_closing : bool) (m : mode) (ls : list string)
    : list string :=
  match ls with
  | [] => []
  | l :: rest =>
      match m with
      | Skip =>
          if is_sentinel l then
            (if keep_closing then [l] else []) ++ block_filter keep_closing (Copy true) rest
          else block_filter keep_closing Skip rest
      | Copy prev =>
          if is_marker l && prev then block_filter keep_closing Skip rest
          else l :: block_filter keep_closing (Copy (is_sentinel l)) rest
      end
  end.

(** The filter in the words of the specification: a block runs from the
    marker line up to, and not including, the next sentinel line. *)
Definition spec_filter (lines : list string) : list string :=
  block_filter true (Copy false) lines.

(** The filter as the loop computes it: the closing sentinel line goes
    with the block. *)
Definition strip_blocks (lines : list string) : list string :=
  block_filter false (Copy false) lines.

End Fallback.

(** ** Python values held in a record dictionary *)

(** A complex number [re + im*j]. *)
Definition complex : Type := (Q * Q)%type.

Inductive pyval :=
| VInt (z : Z)
| VStr (s : string)
| VVec (v : list Q)                           (* real ndarray, ndim 1 *)
| VCVec (v : list complex)                    (* complex ndarray, ndim 1 *)
| VMat (ncols : nat) (rows : list (list Q)).  (* real ndarray, ndim 2, shape (len rows, ncols) *)

(** [d[key]] *)
Definition getitem (d : gmap string pyval) (key : string) : result pyval :=
  match d !! key with
  | Some v => ret v
  | None => raise (KeyError key)
  end.

(** [l[i]] for a non-negative index. *)
Definition index {A} (l : list A) (i : nat) : result A :=
  match l !! i with
  | Some a => ret a
  | None => raise IndexError
  end.

(** [a[:, k]] of a two-dimensional array given by its rows. *)
Definition column (k : nat) (rows : list (list Q)) : list Q :=
  map (fun row => nth k row 0%Q) rows.

(** ** numpy's [arange] and [linspace] *)

Module Numpy.

Definition of_nat (k : nat) : Q := inject_Z (Z.of_nat k).

(** [np.arange(n)] as floats: empty when [n <= 0]. *)
Definition arange (n : Z) : list Q := map of_nat (seq 0 (Z.to_nat n)).

(** [np.linspace(start, stop, num)] with the default [endpoint=True]. *)
Definition linspace (start stop : Q) (num : Z) : result (list Q) :=
  if (num <? 0)%Z then
    raise (ValueError "Number of samples must be non-negative.")
  else
    let div := (num - 1)%Z in
    let delta := (stop - start)%Q in
    let y := arange num in
    let y1 :=
      if (0 <? div)%Z then
        let step := (delta / inject_Z div)%Q in
        if Qeq_bool step 0 then map (fun v => v / inject_Z div * delta)%Q y
        else map (fun v => v * step)%Q y
      else map (fun v => v * delta)%Q y in
    let y2 := map (fun v => v + start)%Q y1 in
    ret (if (1 <? num)%Z then <[Z.to_nat num - 1 := stop]> y2 else y2).

(** [a[:k]] on a list, also for a negative [k]. *)
Definition slice_to {A} (l : list A) (k : Z) : list A :=
  if (0 <=? k)%Z then take (Z.to_nat k) l
  else take (length l - Z.to_nat (- k)) l.

Fixpoint pairs (flat : list Q) : list (list Q) :=
  match flat with
  | a :: b :: rest => [a; b] :: pairs rest
  | _ => []
  end.

(** [np.array(flat).reshape(rows, 2)]; a negative [rows] asks numpy to
    infer the row count. *)
Definition reshape2 (flat : list Q) (rows : Z) : result (list (list Q)) :=
  if ((0 <=? rows)%Z && (Z.of_nat (length flat) =? rows * 2)%Z)
     || ((rows <? 0)%Z && Nat.even (length flat))
  then ret (pairs flat)
  else raise (ValueError "cannot reshape array").

End Numpy.

(** ** [_parse_reconstructed_unv] *)

Module Parser.
Import PyStr Numpy.

Record header := {
  data_type : Z;
  num_points : Z;
  spacing_type : Z;
  x_min : Q;
  x_increment_or_max : Q
}.

(** The dictionary returned by the parser. *)
Definition record_of (h : header) (x_data : list Q) (data_array : list (list Q))
    : gmap string pyval :=
  <["type" := VInt 58]> (<["x" := VVec x_data]> (<["data" := VMat 2 data_array]>
  (<["data_type" := VInt (data_type h)]> (<["num_points" := VInt (num_points h)]> ∅)))).

(** The value sequence [dv] padded with zeros to [np * 2] values and cut
    to that length. *)
Definition flat_values (np : Z) (dv : list Q) : list Q :=
  take (Z.to_nat (np * 2)) (dv ++ replicate (Z.to_nat (np * 2) - length dv) 0%Q).

Section WithConversions.

(** [float(s)] and [int(s)]: [None] stands for the [ValueError] they
    raise on a string they do not accept. *)
Variable py_float : string -> option Q.
Variable py_int : string -> option Z.

Definition to_float (s : string) : result Q :=
  match py_float s with
  | Some q => ret q
  | None => raise (ValueError "could not convert string to float")
  end.

Definition to_int (s : string) : result Z :=
  match py_int s with
  | Some z => ret z
  | None => raise (ValueError "invalid literal for int()")
  end.

Definition stripped_is (l : string) (s : string) : bool := String.eqb (strip l) s.

Definition marker_at (lines : list string) (i : nat) : bool :=
  match lines !! i, lines !! (i + 1) with
  | Some l, Some l' => stripped_is l "-1" && stripped_is l' "58"
  | _, _ => false
  end.

(** The first [while]: the index just after the first [-1] / [58] pair. *)
Fixpoint find_dataset (fuel : nat) (lines : list string) (i : nat) : option nat :=
  match fuel with
  | O => None
  | S fuel' =>
      if i <? length lines then
        if marker_at lines i then Some (i + 2)
        else find_dataset fuel' lines (i + 1)
      else None
  end.

(** From the marker to the end of the header: the characteristic line is
    decoded and the four axis lines are skipped.  Returns the header and
    the index where the scan for the payload starts. *)
Definition parse_header (lines : list string) : result (header * nat) :=
  match find_dataset (length lines) lines 0 with
  | None => raise (ValueError "No Dataset 58 found in file")
  | Some i =>
      _ <- index lines i ;;
      l <- index lines (i + 1) ;;
      let data_char_line := split l in
      if 3 <=? length data_char_line then
        dt <- to_int (nth 0 data_char_line "") ;;
        np <- to_int (nth 1 data_char_line "") ;;
        sp <- to_int (nth 2 data_char_line "") ;;
        xs <- (if 6 <=? length data_char_line then
                 a <- to_float (nth 3 data_char_line "") ;;
                 b <- to_float (nth 4 data_char_line "") ;;
                 ret (a, b)
               else ret (0%Q, 1%Q)) ;;
        ret ({| data_type := dt; num_points := np; spacing_type := sp;
                x_min := fst xs; x_increment_or_max := snd xs |},
             i + 2 + 4)
      else raise (ValueError "Invalid data characteristic line")
  end.

(** The test made on each line by the scan for the payload. *)
Definition is_data_start (l : string) : bool :=
  let line := strip l in
  has_e line &&
  match split line with
  | p0 :: p1 :: _ => bool_decide (is_Some (py_float p0)) && bool_decide (is_Some (py_float p1))
  | _ => false
  end.

(** The second [while]: the index of the first payload line. *)
Fixpoint scan_data_start (fuel : nat) (lines : list string) (i : nat) : result nat :=
  match fuel with
  | O => raise (ValueError "Could not locate data section")
  | S fuel' =>
      match lines !! i with
      | None => raise (ValueError "Could not locate data section")
      | Some l =>
          if is_data_start l then ret i
          else if 100 <? i + 1 then
            raise (ValueError "Could not find data section in first 100 lines")
          else scan_data_start fuel' lines (i + 1)
      end
  end.

(** The tokens of a line that [float()] accepts, converted. *)
Definition floats_of (parts : list string) : list Q := omap py_float parts.

(** The third [while]: the values collected from index [i] on. *)
Fixpoint accumulate (fuel : nat) (lines : list string) (num_points : Z)
    (i : nat) (data_values : list Q) (lines_parsed : Z) : list Q :=
  match fuel with
  | O => data_values
  | S fuel' =>
      match lines !! i with
      | None => data_values
      | Some l =>
          if (Z.of_nat (length data_values) <? num_points * 2)%Z then
            let line := strip l in
            if String.eqb line "-1" then data_values
            else if String.eqb line "" then
              accumulate fuel' lines num_points (i + 1) data_values lines_parsed
            else
              let data_values' := data_values ++ floats_of (split line) in
              let lines_parsed' := (lines_parsed + 1)%Z in
              if (num_points * 3 <? lines_parsed')%Z then data_values'
              else accumulate fuel' lines num_points (i + 1) data_values' lines_parsed'
          else data_values
      end
  end.

(** The padding [while]: append [0.0] until [num_points * 2] values. *)
Fixpoint pad (fuel : nat) (num_points : Z) (data_values : list Q) : list Q :=
  match fuel with
  | O => data_values
  | S fuel' =>
      if (Z.of_nat (length data_values) <? num_points * 2)%Z
      then pad fuel' num_points (data_values ++ [0%Q])
      else data_values
  end.

(** The frequency axis built from the header. *)
Definition build_axis (h : header) : result (list Q) :=
  let step_axis :=
    map (fun k => k * x_increment_or_max h + x_min h)%Q (arange (num_points h)) in
  if (spacing_type h =? 1)%Z then
    if Qlt_le_dec (x_min h + 1) (x_increment_or_max h)
    then linspace (x_min h) (x_increment_or_max h) (num_points h)
    else ret step_axis
  else ret step_axis.

(** The payload values collected for header [h] from line [start] on,
    before padding. *)
Definition collect (lines : list string) (h : header) (start : nat) : list Q :=
  accumulate (length lines) lines (num_points h) start [] 0.

(** The response table: pad, cut to [num_points * 2] values, reshape. *)
Definition build_table (h : header) (data_values : list Q) : result (list (list Q)) :=
  let padded := pad (Z.to_nat (num_points h * 2)) (num_points h) data_values in
  reshape2 (slice_to padded (num_points h * 2)) (num_points h).

(** The whole parser on the lines returned by [f.readlines()]. *)
Definition parse_reconstructed_unv (raw : list string) : result (gmap string pyval) :=
  let lines := map rstrip_crlf raw in
  hi <- parse_header lines ;;
  let h := fst hi in
  start <- scan_data_start (length lines) lines (snd hi) ;;
  data_array <- build_table h (collect lines h start) ;;
  x_data <- build_axis h ;;
  (* the closing report reads x_data[0], x_data[-1] and np.min(data_array) *)
  _ <- index x_data 0 ;;
  _ <- (if bool_decide (data_array = []) then
          raise (ValueError "zero-size array to reduction operation")
        else ret tt) ;;
  ret (record_of h x_data data_array).

End WithConversions.
End Parser.

(** ** scipy's [interp1d] and [_interpolate_to_common_grid] *)

Module Align.

(** Order of the samples by abscissa, as [np.argsort(x, kind="mergesort")]
    uses it. *)
Definition le_x (p q : Q * Q) : Prop := (fst p <= fst q)%Q.

#[export] Instance le_x_dec : RelDecision le_x.
Proof.
  intros p q. unfold le_x.
  destruct (Qlt_le_dec (fst q) (fst p)) as [H|H].
  - right. apply Qlt_not_le, H.
  - left. exact H.
Defined.

Definition lt_x (p q : Q * Q) : Prop := (fst p < fst q)%Q.

Definition sort_samples (x y : list Q) : list (Q * Q) :=
  merge_sort le_x (zip x y).

(** [a[i]] with Python's negative indices; [0] stands for an index out of
    range, which the callers below never produce on a non-empty array. *)
Definition item (a : list Q) (i : Z) : Q :=
  nth (Z.to_nat (if (i <? 0)%Z then Z.of_nat (length a) + i else i)%Z) a 0%Q.

(** The loop [for (i = 1; i < len && key >= arr[i]; ++i)] of numpy's
    [binary_search_with_guess], on the entries from index [i] on: the
    index at which it stops. *)
Fixpoint linear_search (key : Q) (arr : list Q) (i : nat) : nat :=
  match arr with
  | [] => i
  | a :: arr' => if Qlt_le_dec key a then i else linear_search key arr' (S i)
  end.

(** numpy's [binary_search_with_guess(key, arr, len, guess)]: [len] for a
    key above the last entry, [-1] for a key below the first one,
    otherwise the index where the search from the front stops, minus
    one. For arrays of more than eight entries numpy bisects instead,
    which finds the same index on a sorted array. *)
Definition binary_search_with_guess (key : Q) (arr : list Q) : Z :=
  if Qlt_le_dec (item arr (-1)) key then Z.of_nat (length arr)
  else if Qlt_le_dec key (item arr 0) then (-1)%Z
  else (Z.of_nat (linear_search key (tail arr) 1) - 1)%Z.

(** [np.interp(x, xp, fp)] at one point [x], with the default [left] and
    [right] values [fp[0]] and [fp[-1]]. *)
Definition interp (x : Q) (xp fp : list Q) : Q :=
  let lval := item fp 0 in
  let rval := item fp (-1) in
  if length xp =? 1 then
    if Qlt_le_dec x (item xp 0) then lval
    else if Qlt_le_dec (item xp 0) x then rval
    else item fp 0
  else
    let j := binary_search_with_guess x xp in
    if (j =? -1)%Z then lval
    else if (j =? Z.of_nat (length xp))%Z then rval
    else if (j =? Z.of_nat (length xp) - 1)%Z then item fp j
    else if Qeq_bool (item xp j) x then item fp j
    else
      let slope := ((item fp (j + 1) - item fp j) / (item xp (j + 1) - item xp j))%Q in
      (slope * (x - item xp j) + item fp j)%Q.

(** [interp1d._call_linear_np], to which scipy hands real
    one-dimensional data when it does not extrapolate. *)
Definition call_linear_np (x y : list Q) (x_new : Q) : Q := interp x_new x y.

(** [interp1d(x, y, kind='linear', bounds_error=False, fill_value=0)]:
    the constructor checks and sorts, the returned function evaluates and
    fills outside the range of [x]. *)
Definition interp1d (x y : list Q) : result (Q -> Q) :=
  if negb (length x =? length y) then
    raise (ValueError "x and y arrays must be equal in length along interpolation axis.")
  else if length x =? 0 then
    raise (ValueError "x and y arrays must have at least 1 entries")
  else
    let s := sort_samples x y in
    let xs := map fst s in
    let ys := map snd s in
    ret (fun x_new =>
           let y_new := call_linear_np xs ys x_new in
           if Qlt_le_dec x_new (item xs 0) then 0%Q
           else if Qlt_le_dec (item xs (-1)) x_new then 0%Q
           else y_new).

(** [_interpolate_to_common_grid] *)
Definition interpolate_to_common_grid (x_source : list Q)
    (y_source_complex : list complex) (x_target : list Q) : result (list complex) :=
  real_interp <- interp1d x_source (map fst y_source_complex) ;;
  imag_interp <- interp1d x_source (map snd y_source_complex) ;;
  ret (map (fun t => (real_interp t, imag_interp t)) x_target).

End Align.

(** ** [_compute_all_metrics] *)

Module Metrics.

(** A metric of the report: a number, NaN, or Python's [None]. *)
Inductive metric := Number (q : Q) | NotANumber | Unavailable.

Record peak_cmp := {
  freq_original : Q;
  freq_reconstructed : Q;
  freq_error : Q;
  freq_error_pct : Q;
  mag_original : Q;
  mag_reconstructed : Q;
  mag_error : Q;
  mag_error_pct : Q
}.

Record results := {
  RMSE : Q;
  R2 : metric;
  MAE : Q;
  FRAC : metric;
  peak_analysis : list peak_cmp;
  n_peaks_original : nat;
  n_peaks_reconstructed : nat;
  n_peaks_matched : nat
}.

Definition sum (l : list Q) : Q := foldr Qplus 0%Q l.
Definition mean (l : list Q) : Q := (sum l / Numpy.of_nat (length l))%Q.
Definition sq (q : Q) : Q := (q * q)%Q.
Definition Qmaxb (a b : Q) : Q := if Qlt_le_dec a b then b else a.

(** [np.max] of a non-empty array. *)
Definition maximum (l : list Q) : Q :=
  match l with
  | [] => 0%Q
  | x :: l' => foldl Qmaxb x l'
  end.

Fixpoint argmin_from (l : list Q) (i best_i : nat) (best : Q) : nat :=
  match l with
  | [] => best_i
  | x :: l' =>
      if Qlt_le_dec x best then argmin_from l' (S i) i x
      else argmin_from l' (S i) best_i best
  end.

(** [np.argmin]: the first index of the least element. *)
Definition argmin (l : list Q) : nat :=
  match l with
  | [] => 0
  | x :: l' => argmin_from l' 1 0 x
  end.

(** [np.vdot(a, b)]: the sum of [conj(a_i) * b_i]. *)
Definition vdot (a b : list complex) : complex :=
  foldr (fun p acc =>
           let '((ar, ai), (br, bi)) := p in
           (ar * br + ai * bi + fst acc, ar * bi - ai * br + snd acc)%Q)
        (0%Q, 0%Q) (zip a b).

(** [sklearn.metrics.r2_score(y_true, y_pred)] *)
Definition r2_score (y_true y_pred : list Q) : result metric :=
  if negb (length y_true =? length y_pred) then
    raise (ValueError "Found input variables with inconsistent numbers of samples")
  else if length y_true =? 0 then
    raise (ValueError "Found array with 0 sample(s)")
  else if length y_true <? 2 then ret NotANumber
  else
    let numerator := sum (zip_with (fun t p => sq (t - p)) y_true y_pred) in
    let m := mean y_true in
    let denominator := sum (map (fun t => sq (t - m)) y_true) in
    if Qeq_bool numerator 0 then ret (Number 1)
    else if Qeq_bool denominator 0 then ret (Number 0)
    else ret (Number (1 - numerator / denominator)).

Fixpoint traverse {A B} (f : A -> result B) (l : list A) : result (list B) :=
  match l with
  | [] => ret []
  | a :: l' => b <- f a ;; bs <- traverse f l' ;; ret (b :: bs)
  end.

Section WithLibraries.

(** [np.sqrt] and [scipy.signal.find_peaks(x, prominence=p)[0]]. *)
Variable sqrt : Q -> Q.
Variable find_peaks : list Q -> Q -> list nat.

(** [np.abs] of a complex number. *)
Definition Cabs (z : complex) : Q := sqrt (sq (fst z) + sq (snd z)).

(** One turn of the loop over [peaks_orig]: the pair recorded for
    [pk_idx], if any. *)
Definition match_peak (freq mag_orig mag_recon : list Q) (peaks_recon : list nat)
    (freq_tolerance : Q) (pk_idx : nat) : result (option peak_cmp) :=
  f_orig <- index freq pk_idx ;;
  mag_orig_pk <- index mag_orig pk_idx ;;
  if 0 <? length peaks_recon then
    fs <- traverse (index freq) peaks_recon ;;
    let freq_diffs := map (fun f => Qabs (f - f_orig)) fs in
    let nearest_idx := argmin freq_diffs in
    d <- index freq_diffs nearest_idx ;;
    if Qlt_le_dec d freq_tolerance then
      pk_recon_idx <- index peaks_recon nearest_idx ;;
      f_recon <- index freq pk_recon_idx ;;
      mag_recon_pk <- index mag_recon pk_recon_idx ;;
      ret (Some {|
        freq_original := f_orig;
        freq_reconstructed := f_recon;
        freq_error := f_recon - f_orig;
        freq_error_pct :=
          if Qeq_bool f_orig 0 then 0 else 100 * (f_recon - f_orig) / f_orig;
        mag_original := mag_orig_pk;
        mag_reconstructed := mag_recon_pk;
        mag_error := mag_recon_pk - mag_orig_pk;
        mag_error_pct :=
          if Qeq_bool mag_orig_pk 0 then 0
          else 100 * (mag_recon_pk - mag_orig_pk) / mag_orig_pk
      |}%Q)
    else ret None
  else ret None.

(** [freq[-1] - freq[0]] scaled by 0.05. *)
Definition tolerance_of (freq : list Q) : result Q :=
  last_f <- index freq (length freq - 1) ;;
  first_f <- index freq 0 ;;
  ret ((5 # 100) * (last_f - first_f))%Q.

Definition compute_all_metrics (freq : list Q)
    (y_original y_reconstructed : list complex) : result results :=
  let mag_orig := map Cabs y_original in
  let mag_recon := map Cabs y_reconstructed in
  let error := zip_with Qminus mag_orig mag_recon in
  let rmse := sqrt (mean (map sq error)) in
  r2 <- r2_score mag_orig mag_recon ;;
  let mae := mean (map Qabs error) in
  let numerator := sq (Cabs (vdot y_original y_reconstructed)) in
  let denom_a := fst (vdot y_original y_original) in
  let denom_b := fst (vdot y_reconstructed y_reconstructed) in
  let frac :=
    if Qlt_le_dec 0 denom_a then
      if Qlt_le_dec 0 denom_b then Number (numerator / (denom_a * denom_b))
      else Unavailable
    else Unavailable in
  let prominence_threshold := ((1 # 10) * maximum mag_orig)%Q in
  let peaks_orig := find_peaks mag_orig prominence_threshold in
  let peaks_recon := find_peaks mag_recon prominence_threshold in
  freq_tolerance <- tolerance_of freq ;;
  found <- traverse (match_peak freq mag_orig mag_recon peaks_recon freq_tolerance)
             peaks_orig ;;
  let peak_comparisons := omap id found in
  ret {| RMSE := rmse; R2 := r2; MAE := mae; FRAC := frac;
         peak_analysis := peak_comparisons;
         n_peaks_original := length peaks_orig;
         n_peaks_reconstructed := length peaks_recon;
         n_peaks_matched := length peak_comparisons |}.

(** ** [calculate_validation_metrics]

    [x_testlab] and [y_testlab_raw] are the axis and the response read
    from the selected Testlab record, [recon_record] is the dictionary of
    the selected reconstructed file. *)

(** The Testlab response as a complex signal. *)
Definition testlab_complex (y_testlab_raw : pyval) : result (list complex) :=
  match y_testlab_raw with
  | VCVec v => ret v
  | VMat ncols rows =>
      if 2 <=? ncols then ret (zip (column 0 rows) (column 1 rows))
      else raise (ValueError "Selected testlab record is not a complex FRF.")
  | _ => raise (ValueError "Selected testlab record is not a complex FRF.")
  end.

Definition as_axis (v : pyval) : result (list Q) :=
  match v with
  | VVec xs => ret xs
  | _ => raise (ValueError "not a real one-dimensional array")
  end.

(** [y_recon_amplitude + 0j] *)
Definition recon_complex (y_recon_raw : pyval) : result (list complex) :=
  match y_recon_raw with
  | VMat ncols rows =>
      if 1 <=? ncols then ret (map (fun a => (a, 0%Q)) (column 0 rows))
      else raise IndexError
  | VVec v => ret (map (fun a => (a, 0%Q)) v)
  | VCVec v => ret v
  | _ => raise (ValueError "not an array")
  end.

(** The report handed to [_display_validation_results]; an exception is
    what the enclosing [try] turns into an error box. *)
Definition calculate_validation_metrics (x_testlab : list Q) (y_testlab_raw : pyval)
    (recon_record : gmap string pyval) : result results :=
  y_testlab_complex <- testlab_complex y_testlab_raw ;;
  xv <- getitem recon_record "x" ;;
  y_recon_raw <- getitem recon_record "data" ;;
  x_recon <- as_axis xv ;;
  y_recon_complex <- recon_complex y_recon_raw ;;
  y_testlab_interp <-
    Align.interpolate_to_common_grid x_testlab y_testlab_complex x_recon ;;
  compute_all_metrics x_recon y_recon_complex y_testlab_interp.

(** [original_record.get('type') == 58] *)
Definition is_type_58 (d : gmap string pyval) : bool :=
  match d !! "type" with
  | Some (VInt z) => (z =? 58)%Z
  | _ => false
  end.

(** ** The record written by [save_selected_record]

    [Some r] is the record handed to [write_sets], [None] means that
    nothing is written. *)
Definition save_selected_record (testlab_file_type : string)
    (original_record : gmap string pyval) : result (option (gmap string pyval)) :=
  if String.eqb testlab_file_type "unv" && is_type_58 original_record then
    y_data_raw <- getitem original_record "data" ;;
    match y_data_raw with
    | VMat ncols rows =>
        if 2 <=? ncols then
          let complex_y := zip (column 0 rows) (column 1 rows) in
          let linear_magnitude := map Cabs complex_y in
          let save_data := map (fun m => [m; 0%Q]) linear_magnitude in
          ret (Some (<["ylabel" := VStr "AMPLITUDE"]>
                    (<["num_values_per_point" := VInt 2]>
                    (<["z_def_type" := VInt 0]>
                    (<["data_type" := VInt 2]>
                    (<["data" := VMat 2 save_data]> original_record))))))
        else ret (Some original_record)
    | VVec _ | VCVec _ => ret (Some original_record)
    | _ => raise (ValueError "not an array")
    end
  else ret None.

(** The row written by [save_selected_record] for one row of a
    two-column response: its magnitude and a zero. *)
Definition magnitude_row (row : list Q) : list Q :=
  [Cabs (nth 0 row 0%Q, nth 1 row 0%Q); 0%Q].

End WithLibraries.
End Metrics.

(** ** The record map of a Testlab [.unv] file: [populate_testlab_tree_unv]

    The function fills [self.testlab_record_map], the dictionary from
    which the selection, the plots, the export and the validation take
    the selected record. The tree widget receives an item under the same
    identifier for every entry of the map; it is not part of the model. *)

Module RecordMap.
Import Metrics.

(** What [pyuff.UFF.read_sets] returns: one data set, or a list of them. *)
Inductive read_sets :=
  | OneSet (d : gmap string pyval)
  | ManySets (l : list (gmap string pyval)).

(** [data_to_process]: a lone dictionary is wrapped into a list. *)
Definition data_to_process (testlab_data : read_sets) : list (gmap string pyval) :=
  match testlab_data with
  | OneSet d => [d]
  | ManySets l => l
  end.

(** [f"testlab_{i}"] *)
Definition iid_of (i : nat) : string := String.append "testlab_" (pretty i).

(** The loop over [enumerate(data_to_process)], from position [i] on. *)
Fixpoint populate (i : nat) (data : list (gmap string pyval))
    (testlab_record_map : gmap string (gmap string pyval))
    : gmap string (gmap string pyval) :=
  match data with
  | [] => testlab_record_map
  | dataset :: data' =>
      populate (S i) data'
        (if is_type_58 dataset
         then <[iid_of i := dataset]> testlab_record_map
         else testlab_record_map)
  end.

Definition populate_testlab_tree_unv (testlab_data : read_sets)
    (testlab_record_map : gmap string (gmap string pyval))
    : gmap string (gmap string pyval) :=
  populate 0 (data_to_process testlab_data) testlab_record_map.

(** [load_testlab_file] on a [.unv] file: [reset_ui_testlab] clears the
    map, then the data sets read by pyuff are entered. *)
Definition load_testlab_unv (testlab_data : read_sets)
    : gmap string (gmap string pyval) :=
  populate_testlab_tree_unv testlab_data ∅.

(** [save_selected_record] from the file dialog on, for the record that
    [testlab_record_map.get] returned for a selected identifier: an empty
    [save_path] (the dialog was cancelled) ends the export before
    anything is tried. [None] stands for an export that ends without a
    write and without an error. *)
Definition export_from_dialog (sqrt : Q -> Q) (save_path testlab_file_type : string)
    (original_record : gmap string pyval) : result (option (gmap string pyval)) :=
  if String.eqb save_path "" then ret None
  else save_selected_record sqrt testlab_file_type original_record.

End RecordMap.

(** ** Concrete library functions for the worked examples

    The theorems below hold for every [py_float], [py_int], [sqrt] and
    [find_peaks]; the closed examples run on these. *)

Module Concrete.

Definition digit (c : ascii) : option Z :=
  let n := nat_of_ascii c in
  if (48 <=? n) && (n <=? 57) then Some (Z.of_nat (n - 48)) else None.

(** Reads a run of decimal digits: its value, its length and the rest. *)
Fixpoint digits (s : string) (acc : Z) (count : nat) : Z * nat * string :=
  match s with
  | EmptyString => (acc, count, s)
  | String c s' =>
      match digit c with
      | Some d => digits s' (acc * 10 + d)%Z (S count)
      | None => (acc, count, s)
      end
  end.

Definition sign (s : string) : bool * string :=
  match s with
  | String c s' =>
      if Ascii.eqb c "-"%char then (true, s')
      else if Ascii.eqb c "+"%char then (false, s')
      else (false, s)
  | EmptyString => (false, s)
  end.

Definition signed (neg : bool) (z : Z) : Z := if neg then (- z)%Z else z.

(** [int(s)] on an optionally signed run of decimal digits. *)
Definition int_of_string (s : string) : option Z :=
  let (neg, s1) := sign s in
  let '(v, n, rest) := digits s1 0 0 in
  if (0 <? n) && String.eqb rest "" then Some (signed neg v) else None.

Definition pow10 (e : Z) : Q :=
  if (0 <=? e)%Z then inject_Z (10 ^ e) else (1 # Z.to_pos (10 ^ (- e))).

(** The exponent part: empty, or [e]/[E] followed by a signed integer. *)
Definition exponent (s : string) : option Z :=
  match s with
  | EmptyString => Some 0%Z
  | String c s' =>
      if Ascii.eqb c "e"%char || Ascii.eqb c "E"%char then int_of_string s'
      else None
  end.

(** [float(s)] on plain decimal and scientific notation. *)
Definition float_of_string (s : string) : option Q :=
  let (neg, s1) := sign s in
  let '(ip, ni, s2) := digits s1 0 0 in
  let '(fp, nf, s3) :=
    match s2 with
    | String c r => if Ascii.eqb c "."%char then digits r 0 0 else (0%Z, 0, s2)
    | EmptyString => (0%Z, 0, s2)
    end in
  if ni + nf =? 0 then None
  else
    match exponent s3 with
    | Some e =>
        let scale := (10 ^ Z.of_nat nf)%Z in
        Some (Qred (inject_Z (signed neg (ip * scale + fp)) * pow10 (e - Z.of_nat nf)))
    | None => None
    end.

(** A square root that is exact on squares of rationals. *)
Definition sqrt_q (q : Q) : Q :=
  let r := Qred q in Z.sqrt (Qnum r) # Pos.sqrt (Qden r).

Fixpoint take_while {A} (p : A -> bool) (l : list A) : list A :=
  match l with
  | [] => []
  | a :: l' => if p a then a :: take_while p l' else []
  end.

Definition Qleb (a b : Q) : bool := if Qlt_le_dec b a then false else true.
Definition Qltb (a b : Q) : bool := if Qlt_le_dec a b then true else false.
Definition Qminb (a b : Q) : Q := if Qlt_le_dec b a then b else a.

(** The inner loop of [_local_maxima_1d]: the end of the plateau that
    starts at [i]. *)
Fixpoint plateau_end (fuel : nat) (x : list Q) (xi : Q) (i_ahead i_max : nat) : nat :=
  match fuel with
  | O => i_ahead
  | S fuel' =>
      if (i_ahead <? i_max) && Qeq_bool (nth i_ahead x 0%Q) xi
      then plateau_end fuel' x xi (S i_ahead) i_max
      else i_ahead
  end.

(** scipy's [_local_maxima_1d]: the midpoints of the strict local maxima
    and of the flat tops, the two ends of the signal excluded. *)
Fixpoint local_maxima (fuel : nat) (x : list Q) (i i_max : nat) : list nat :=
  match fuel with
  | O => []
  | S fuel' =>
      if i <? i_max then
        let xi := nth i x 0%Q in
        if Qltb (nth (i - 1) x 0%Q) xi then
          let i_ahead := plateau_end (length x) x xi (i + 1) i_max in
          if Qltb (nth i_ahead x 0%Q) xi then
            ((i + (i_ahead - 1)) / 2) :: local_maxima fuel' x (i_ahead + 1) i_max
          else local_maxima fuel' x (i + 1) i_max
        else local_maxima fuel' x (i + 1) i_max
      else []
  end.

(** scipy's [peak_prominences] for one peak, without a window. *)
Definition prominence (x : list Q) (peak : nat) : Q :=
  let xp := nth peak x 0%Q in
  let below := fun v => Qleb v xp in
  let left_min := foldr Qminb xp (take_while below (rev (take (S peak) x))) in
  let right_min := foldr Qminb xp (take_while below (drop peak x)) in
  (xp - Metrics.Qmaxb left_min right_min)%Q.

(** [find_peaks(x, prominence=pmin)[0]] *)
Definition find_peaks (x : list Q) (pmin : Q) : list nat :=
  filter (fun p => Qleb pmin (prominence x p) = true)
         (local_maxima (length x) x 1 (length x - 1)).

End Concrete.

(** ** Specification-side predicates *)

Module Spec.
Import Numpy.

(** [n] samples evenly spaced from [a] to [b], both ends included. *)
Definition evenly_spaced (a b : Q) (n : nat) (axis : list Q) : Prop :=
  length axis = n /\
  (forall k x, axis !! k = Some x ->
     (x == a + of_nat k * ((b - a) / of_nat (n - 1)))%Q) /\
  (1 < n -> axis !! (n - 1) = Some b).

(** [a + k * step] for [k] in [0 .. n-1]. *)
Definition arithmetic_progression (a step : Q) (n : nat) (axis : list Q) : Prop :=
  length axis = n /\
  (forall k x, axis !! k = Some x -> (x == a + of_nat k * step)%Q).

Definition fails {A} (r : result A) : Prop := exists e, r = inr e.

Section PayloadScan.
Variable py_float : string -> option Q.

(** [j] is the first index from [start] on that holds a payload line. *)
Definition first_data_line (lines : list string) (start j : nat) : Prop :=
  start <= j /\
  (exists l, lines !! j = Some l /\ Parser.is_data_start py_float l = true) /\
  (forall k l, start <= k < j -> lines !! k = Some l ->
     Parser.is_data_start py_float l = false).

(** Some payload line lies in the 100 lines that begin at [start]. *)
Definition window_hit (lines : list string) (start : nat) : Prop :=
  exists j l, start <= j < start + 100 /\ lines !! j = Some l /\
    Parser.is_data_start py_float l = true.

(** The scan in the words of the specification: it fails exactly when
    the 100 lines that begin at the scan start hold no payload line. *)
Definition scan_fails_iff_window_exhausted (lines : list string) (start : nat) : Prop :=
  fails (Parser.scan_data_start py_float (length lines) lines start)
  <-> ~ window_hit lines start.

End PayloadScan.

End Spec.

(** ** Specification-side notions for the alignment *)

Module AlignSpec.

(** No two source frequencies are equal as numbers. *)
Definition distinct (xs : list Q) : Prop := NoDup (map Qred xs).

(** [t] lies strictly outside the range of the source frequencies. *)
Definition outside (xs : list Q) (t : Q) : Prop :=
  (forall x, x ∈ xs -> (t < x)%Q) \/ (forall x, x ∈ xs -> (x < t)%Q).

Definition Ceq (z w : complex) : Prop := (fst z == fst w)%Q /\ (snd z == snd w)%Q.

(** The value [z] returned at the target [t] is the value of every source
    sample whose frequency is [t]. *)
Definition exact_at_samples (xs : list Q) (ys : list complex) (t : Q) (z : complex)
    : Prop :=
  forall j xj yj, xs !! j = Some xj -> ys !! j = Some yj -> (t == xj)%Q -> Ceq z yj.

End AlignSpec.

(** ** Specification-side notions for the metrics and the export *)

Module MetricsSpec.
Import Metrics.

(** All values of the signal are equal. *)
Definition constant (l : list Q) : Prop :=
  forall a b, a ∈ l -> b ∈ l -> (a == b)%Q.

Definition ss_res (y_true y_pred : list Q) : Q :=
  sum (zip_with (fun t p => sq (t - p)) y_true y_pred).

Definition ss_tot (y_true : list Q) : Q :=
  sum (map (fun t => sq (t - mean y_true)) y_true).

(** The standard sum-of-squares coefficient of determination. *)
Definition coefficient_of_determination (y_true y_pred : list Q) : Q :=
  (1 - ss_res y_true y_pred / ss_tot y_true)%Q.

Definition is_array (v : pyval) : bool :=
  match v with
  | VVec _ | VCVec _ | VMat _ _ => true
  | _ => false
  end.

(** A two-dimensional response with the real and the imaginary column. *)
Definition has_two_columns (v : pyval) : bool :=
  match v with
  | VMat ncols _ => 2 <=? ncols
  | _ => false
  end.

(** The derived record in the words of the specification: a
    single-column response and a column count of one. *)
Definition single_column_record (r : gmap string pyval) : Prop :=
  (exists rows, r !! "data" = Some (VMat 1 rows)) /\
  r !! "num_values_per_point" = Some (VInt 1).

(** The span of the axis in the words of the specification. *)
Definition minimum (l : list Q) : Q :=
  match l with
  | [] => 0%Q
  | x :: l' => foldl (fun a b => if Qlt_le_dec b a then b else a) x l'
  end.

Definition span (freq : list Q) : Q := (maximum freq - minimum freq)%Q.

(** What one reference peak [p] contributes, given the reconstructed peaks
    [peaks_recon] and the tolerance [tol]: a pair with the nearest
    reconstructed peak when that one lies closer than [tol], nothing when
    no reconstructed peak does. *)
Definition peak_outcome (freq : list Q) (peaks_recon : list nat) (tol : Q)
    (p : nat) (o : option peak_cmp) : Prop :=
  exists f, freq !! p = Some f /\
    match o with
    | Some c =>
        freq_original c = f /\
        exists q fq,
          q ∈ peaks_recon /\ freq !! q = Some fq /\
          freq_reconstructed c = fq /\
          freq_error c = (fq - f)%Q /\
          (forall q' fq', q' ∈ peaks_recon -> freq !! q' = Some fq' ->
             (Qabs (fq - f) <= Qabs (fq' - f))%Q) /\
          (Qabs (fq - f) < tol)%Q
    | None =>
        forall q fq, q ∈ peaks_recon -> freq !! q = Some fq ->
          ~ (Qabs (fq - f) < tol)%Q
    end.

(** The matching rule in the words of the specification, with the
    tolerance taken from the span of the axis. *)
Definition matches_within_span (freq : list Q) (peaks_orig peaks_recon : list nat)
    (pairs : list peak_cmp) : Prop :=
  exists found,
    Forall2 (peak_outcome freq peaks_recon ((5 # 100) * span freq)) peaks_orig found /\
    pairs = omap id found.

End MetricsSpec.

(** ** Notions used to describe the fallback filter *)

Module FallbackSpec.
Import Fallback.

(** Line [i] opens a block that the filter removes: it is a [151] line
    and the line before it is a [-1] line. *)
Definition opener_at (lines : list string) (i : nat) : Prop :=
  exists l, lines !! i = Some l /\ is_marker l = true /\
    prev_is_sentinel lines i = true.

Definition has_opener (lines : list string) : Prop := exists i, opener_at lines i.

(** Whether the line before index [i] is a sentinel, for a list whose
    own predecessor is described by [p]. *)
Definition prev_flag (p : bool) (ls : list string) (i : nat) : bool :=
  match i with
  | O => p
  | S j => match ls !! j with Some q => is_sentinel q | None => false end
  end.

(** The same, decided along the list; [prev] tells whether the line
    before the head is a sentinel. *)
Fixpoint no_opener (prev : bool) (ls : list string) : bool :=
  match ls with
  | [] => true
  | l :: rest => negb (is_marker l && prev) && no_opener (is_sentinel l) rest
  end.

End FallbackSpec.

(** ** Notions used to describe the report *)

Module ReportSpec.

(** The complex signal is zero at every sample. *)
Definition all_zero (y : list complex) : Prop :=
  forall z, z ∈ y -> (fst z == 0)%Q /\ (snd z == 0)%Q.

End ReportSpec.

(** ** Notions used to describe the parser on whole files *)

Module ParserSpec.
Import PyStr.

(** [j] is the first index of a [-1] line directly followed by a [58]
    line. *)
Definition first_marker (lines : list string) (j : nat) : Prop :=
  Parser.marker_at lines j = true /\
  forall j', j' < j -> Parser.marker_at lines j' = false.

(** A line is the sentinel that ends a dataset. *)
Definition is_end (l : string) : bool := String.eqb (strip l) "-1".

Section Payload.
Variable py_float : string -> option Q.

(** A payload line that holds exactly the two values of [row]. *)
Definition payload_line (l : string) (row : Q * Q) : Prop :=
  is_end l = false /\
  String.eqb (strip l) "" = false /\
  Parser.floats_of py_float (split (strip l)) = [fst row; snd row].

End Payload.

Definition row_values (row : Q * Q) : list Q := [fst row; snd row].

End ParserSpec.

(** ** Worked inputs *)

Module Examples.
Import PyStr.

Definition with_newlines (ls : list string) : list string :=
  map (fun s => (s ++ nl)%string) ls.

(** Three points announced, three values given before the sentinel. *)
Definition short_payload_file : list string :=
  with_newlines
    ["-1"; "58"; "reconstructed FRF"; "2 3 0 0 0.5 0";
     "axis 1"; "axis 2"; "axis 3"; "axis 4";
     "1.0e0 2.0e0"; "3.0"; "-1"].

Definition short_payload_header : Parser.header :=
  {| Parser.data_type := 2; Parser.num_points := 3; Parser.spacing_type := 0;
     Parser.x_min := 0; Parser.x_increment_or_max := 1 # 2 |}.

Definition endpoints_header : Parser.header :=
  {| Parser.data_type := 2; Parser.num_points := 3; Parser.spacing_type := 1;
     Parser.x_min := 0; Parser.x_increment_or_max := 100 |}.

(** Spacing type 1 with the header reals 0 and 100, and eight payload
    values for three points. *)
Definition endpoints_file : list string :=
  with_newlines
    ["-1"; "58"; "reconstructed FRF"; "2 3 1 0 100 0";
     "axis 1"; "axis 2"; "axis 3"; "axis 4";
     "1.0e0 2.0e0 3.0e0 4.0e0"; "5.0e0 6.0e0 7.0e0 8.0e0"; "-1"].

(** The dataset marker on lines 95 and 96, so that the scan for the
    payload starts on line 103; the payload starts on line 104. *)
Definition late_marker_lines : list string :=
  replicate 95 "comment"
  ++ ["-1"; "58"; "reconstructed FRF"; "2 3 0 0 0.5 0";
      "axis 1"; "axis 2"; "axis 3"; "axis 4";
      "payload"; "1.0e0 2.0e0 3.0e0 4.0e0"; "5.0e0 6.0e0"; "-1"].

(** A header block, a block of interest and the sentinels around them. *)
Definition two_block_lines : list string :=
  with_newlines ["-1"; "151"; "header text"; "-1"; "-1"; "58"; "payload"; "-1"].

(** A type-58 record whose response holds the real and the imaginary
    part in two columns. *)
Definition complex_record : gmap string pyval :=
  <["type" := VInt 58]> (<["x" := VVec [0; 1]%Q]>
  (<["data" := VMat 2 [[3; 4]; [5; 12]]%Q]>
  (<["data_type" := VInt 5]> (<["num_values_per_point" := VInt 2]>
  (<["ylabel" := VStr "FRF"]> ∅))))).

(** Two reconstructed records that differ in the second column only. *)
Definition recon_a : gmap string pyval :=
  <["x" := VVec [0; 1; 2]%Q]> (<["data" := VMat 2 [[1; 0]; [3; 0]; [1; 0]]%Q]> ∅).

Definition recon_b : gmap string pyval :=
  <["x" := VVec [0; 1; 2]%Q]> (<["data" := VMat 2 [[1; 7]; [3; 8]; [1; 9]]%Q]> ∅).

(** A header with the start 2 and the step -1. *)
Definition descending_file : list string :=
  with_newlines
    ["-1"; "58"; "reconstructed FRF"; "2 3 0 2 -1 0";
     "axis 1"; "axis 2"; "axis 3"; "axis 4";
     "0.0e0 0.0e0"; "1.0e0 0.0e0"; "0.0e0 0.0e0"; "-1"].

(** Texts for the edge cases of the header. *)
Definition no_marker_file : list string :=
  with_newlines ["-1"; "151"; "header"; "-1"].

Definition truncated_file : list string :=
  with_newlines ["-1"; "58"; "reconstructed FRF"].

Definition short_characteristic_file : list string :=
  with_newlines ["-1"; "58"; "reconstructed FRF"; "2 3"; "axis 1"].

Definition five_token_lines : list string :=
  ["-1"; "58"; "reconstructed FRF"; "2 3 1 7 9"; "axis 1"].

(** Three points, one row of two values per payload line. *)
Definition well_formed_file : list string :=
  with_newlines
    ["-1"; "58"; "reconstructed FRF"; "2 3 0 0 0.5 0";
     "axis 1"; "axis 2"; "axis 3"; "axis 4";
     "1.0e0 2.0e0"; "3.0e0 4.0e0"; "5.0e0 6.0e0"; "-1"].

(** A type-58 record without a response, and a reconstructed record
    without an axis. *)
Definition record_without_data : gmap string pyval :=
  <["type" := VInt 58]> (<["x" := VVec [0; 1]%Q]> ∅).

Definition record_without_axis : gmap string pyval :=
  <["data" := VMat 2 [[1; 0]; [3; 0]]%Q]> ∅.

(** Three data sets as pyuff returns them: a type-58 function, a
    type-15 node list and a second type-58 function. *)
Definition testlab_sets : list (gmap string pyval) :=
  [ <["type" := VInt 58]> (<["data" := VMat 2 [[3; 4]; [0; 1]]%Q]> ∅);
    <["type" := VInt 15]> ∅;
    <["type" := VInt 58]> (<["data" := VVec [1; 2]%Q]> ∅) ].

End Examples.

(** * Properties *)

Module FallbackFacts.
Import PyStr Fallback.

Lemma skip_to_sentinel_spec fuel lines i :
  length lines - i <= fuel ->
  let i1 := skip_to_sentinel fuel lines i in
  i <= i1 /\
  block_filter false Skip (drop i lines)
  = block_filter false (Copy true) (drop (i1 + 1) lines) /\
  (i1 < length lines -> prev_is_sentinel lines (i1 + 1) = true).
Proof.
  revert i. induction fuel as [|fuel IH]; intros i Hfuel; simpl.
  - rewrite !drop_ge by lia. repeat split; try lia.
  - destruct (lines !! i) as [l|] eqn:Hl.
    + destruct (is_sentinel l) eqn:Hs.
      * repeat split; try lia.
        -- rewrite (drop_S _ _ _ Hl). simpl. rewrite Hs. simpl.
           by replace (i + 1) with (S i) by lia.
        -- intros _. replace (i + 1) with (S i) by lia. simpl. by rewrite Hl, Hs.
      * apply lookup_lt_Some in Hl as Hlt.
        destruct (IH (i + 1)) as (H1 & H2 & H3); [lia|].
        repeat split; try lia; [|done].
        rewrite (drop_S _ _ _ Hl). simpl. rewrite Hs.
        replace (S i) with (i + 1) by lia. done.
    + apply lookup_ge_None in Hl.
      rewrite !drop_ge by lia. repeat split; try lia.
Qed.

Lemma filter_loop_spec fuel lines i out :
  length lines - i <= fuel ->
  filter_loop fuel lines i out
  = out ++ block_filter false (Copy (prev_is_sentinel lines i)) (drop i lines).
Proof.
  revert i out. induction fuel as [|fuel IH]; intros i out Hfuel; simpl.
  - rewrite drop_ge by lia. by rewrite app_nil_r.
  - destruct (lines !! i) as [l|] eqn:Hl.
    + apply lookup_lt_Some in Hl as Hlt.
      rewrite (drop_S _ _ _ Hl). simpl.
      destruct (is_marker l && prev_is_sentinel lines i) eqn:Hm.
      * pose proof (skip_to_sentinel_spec (length lines) lines (i + 1)) as Hsk.
        simpl in Hsk. destruct Hsk as (H1 & H2 & H3); [lia|].
        rewrite IH by lia.
        replace (S i) with (i + 1) by lia. rewrite H2.
        set (i1 := skip_to_sentinel (length lines) lines (i + 1)) in *.
        destruct (decide (i1 < length lines)) as [Hin|Hout].
        -- by rewrite H3.
        -- rewrite !drop_ge by lia. done.
      * rewrite IH by lia. rewrite <- app_assoc. simpl.
        replace (i + 1) with (S i) by lia. simpl. by rewrite Hl.
    + apply lookup_ge_None in Hl. rewrite drop_ge by lia. by rewrite app_nil_r.
Qed.

Lemma block_filter_sublist k m ls : sublist (block_filter k m ls) ls.
Proof.
  revert m. induction ls as [|l rest IH]; intros m; simpl; [constructor|].
  destruct m as [prev|].
  - destruct (is_marker l && prev).
    + by apply sublist_cons.
    + by apply sublist_skip.
  - destruct (is_sentinel l).
    + destruct k; simpl; [by apply sublist_skip | by apply sublist_cons].
    + by apply sublist_cons.
Qed.

(** C1, as the loop computes it: for every text the filter removes
    exactly the blocks that start at a [151] line directly after a [-1]
    line and run through the next [-1] line (that closing line included,
    or through the end of the text when there is none); every other line
    is kept, in order. *)
Theorem filter_lines_strip_blocks (lines : list string) :
  filter_lines lines = strip_blocks lines /\ sublist (filter_lines lines) lines.
Proof.
  assert (H : filter_lines lines = strip_blocks lines).
  { unfold filter_lines, strip_blocks.
    rewrite filter_loop_spec by lia. reflexivity. }
  split; [exact H|]. rewrite H. apply block_filter_sublist.
Qed.

(** C1, as stated: the closing sentinel of a removed block would be kept.
    On a text with a [151] block followed by a [58] block the loop drops
    that line. *)
Lemma filter_lines_drops_closing_sentinel :
  filter_lines Examples.two_block_lines
    = Examples.with_newlines ["-1"; "-1"; "58"; "payload"; "-1"] /\
  spec_filter Examples.two_block_lines
    = Examples.with_newlines ["-1"; "-1"; "-1"; "58"; "payload"; "-1"] /\
  filter_lines Examples.two_block_lines <> spec_filter Examples.two_block_lines.
Proof. split_and!; [vm_compute; reflexivity ..|]. vm_compute. discriminate. Qed.

(** A block opened by any other dataset number is kept as it is. *)
Example other_marker_is_kept :
  filter_lines ["-1"; "158"; "text"; "-1"] = ["-1"; "158"; "text"; "-1"].
Proof. vm_compute. reflexivity. Qed.

(** The closing sentinel of a removed block still opens the next one. *)
Example adjacent_blocks :
  filter_lines ["-1"; "151"; "a"; "-1"; "151"; "b"; "-1"; "58"] = ["-1"; "58"].
Proof. vm_compute. reflexivity. Qed.

End FallbackFacts.


(** ** Lists, [result] and numpy helpers *)

Module NumpyFacts.
Import Numpy.

Lemma bind_inl {A B} (m : result A) (k : A -> result B) b :
  bind m k = inl b -> exists a, m = inl a /\ k a = inl b.
Proof. destruct m as [a|e]; simpl; [eauto | discriminate]. Qed.

Lemma index_inl {A} (l : list A) i a : index l i = inl a -> l !! i = Some a.
Proof. unfold index, ret, raise. destruct (l !! i); congruence. Qed.

Lemma lookup_map_Some {A B} (f : A -> B) (l : list A) i a :
  l !! i = Some a -> map f l !! i = Some (f a).
Proof. intros H. change (map f l) with (f <$> l). by rewrite list_lookup_fmap, H. Qed.

Lemma strongly_sorted_lookup {A} (R : relation A) l i j a b :
  StronglySorted R l -> l !! i = Some a -> l !! j = Some b -> (i < j)%nat -> R a b.
Proof.
  intros Hs. revert i j. induction Hs as [|x l Hs IH Hall]; intros i j Hi Hj Hlt.
  - by rewrite lookup_nil in Hi.
  - destruct j as [|j]; [lia|]. simpl in Hj. destruct i as [|i].
    + simpl in Hi. injection Hi as <-. rewrite Forall_forall in Hall.
      apply Hall. apply list_elem_of_lookup. eauto.
    + simpl in Hi. apply (IH i j); [done | done | lia].
Qed.

Lemma length_arange n : length (arange n) = Z.to_nat n.
Proof. unfold arange. by rewrite length_map, length_seq. Qed.

Lemma lookup_arange n k : k < Z.to_nat n -> arange n !! k = Some (of_nat k).
Proof.
  intros Hk. unfold arange. rewrite list_lookup_fmap.
  rewrite lookup_seq_lt by done. reflexivity.
Qed.

Lemma of_nat_pred n : (1 <= n)%Z -> of_nat (Z.to_nat n - 1) = inject_Z (n - 1).
Proof. intros H. unfold of_nat. f_equal. lia. Qed.

Lemma length_pairs flat n :
  length flat = 2 * n ->
  length (pairs flat) = n /\ Forall (fun row => length row = 2) (pairs flat)
  /\ concat (pairs flat) = flat.
Proof.
  revert flat. induction n as [|n IH]; intros flat Hlen.
  - destruct flat; [|simpl in Hlen; lia]. simpl. auto.
  - destruct flat as [|a [|b rest]]; simpl in Hlen; try lia.
    destruct (IH rest) as (H1 & H2 & H3); [lia|].
    simpl. repeat split; [by rewrite H1 | by constructor | by rewrite H3].
Qed.

End NumpyFacts.

Module AxisFacts.
Import Numpy NumpyFacts Spec.

Lemma of_nat_nonzero k : 0 < k -> ~ (of_nat k == 0)%Q.
Proof.
  intros Hk Heq. unfold of_nat, Qeq in Heq. simpl in Heq. lia.
Qed.

Lemma linspace_spec a b n l :
  linspace a b n = inl l -> (0 <= n)%Z /\ evenly_spaced a b (Z.to_nat n) l.
Proof.
  unfold linspace. destruct (n <? 0)%Z eqn:Hneg; [discriminate|].
  apply Z.ltb_ge in Hneg. intros Hl. injection Hl as <-. split; [done|].
  set (m := Z.to_nat n).
  destruct (1 <? n)%Z eqn:Hone.
  - apply Z.ltb_lt in Hone.
    assert (Hdiv : (0 <? n - 1)%Z = true) by (apply Z.ltb_lt; lia).
    rewrite Hdiv. rewrite <- (of_nat_pred n) by lia. fold m.
    assert (Hnz : ~ (of_nat (m - 1) == 0)%Q) by (apply of_nat_nonzero; lia).
    set (y1 := if Qeq_bool _ _ then _ else _).
    assert (Hy1 : length y1 = m).
    { unfold y1. destruct (Qeq_bool _ _); by rewrite length_map, length_arange. }
    assert (Hk : forall k, k < m ->
              exists v, y1 !! k = Some v /\
                (v == of_nat k * ((b - a) / of_nat (m - 1)))%Q).
    { intros k Hlt. unfold y1. destruct (Qeq_bool _ _);
        rewrite list_lookup_fmap, lookup_arange by done; simpl;
        eexists; (split; [reflexivity|]); field; exact Hnz. }
    repeat split.
    + by rewrite length_insert, length_map.
    + intros k x Hx. destruct (decide (k = m - 1)) as [->|Hne].
      * rewrite list_lookup_insert_eq in Hx by (rewrite length_map; lia).
        injection Hx as <-. field. exact Hnz.
      * rewrite list_lookup_insert_ne in Hx by done.
        apply lookup_lt_Some in Hx as Hlt. rewrite length_map, Hy1 in Hlt.
        rewrite list_lookup_fmap in Hx.
        destruct (Hk k Hlt) as (v & Hv & Heq). rewrite Hv in Hx. simpl in Hx.
        injection Hx as <-. rewrite Heq. ring.
    + intros _. apply list_lookup_insert_eq. rewrite length_map. lia.
  - apply Z.ltb_ge in Hone.
    assert (Hdiv : (0 <? n - 1)%Z = false) by (apply Z.ltb_ge; lia).
    rewrite Hdiv. repeat split.
    + by rewrite !length_map, length_arange.
    + intros k x Hx. apply lookup_lt_Some in Hx as Hlt.
      rewrite !length_map, length_arange in Hlt.
      rewrite !list_lookup_fmap, lookup_arange in Hx by done. simpl in Hx.
      injection Hx as <-. assert (k = 0) as -> by lia.
      unfold of_nat. simpl. ring.
    + fold m. lia.
Qed.

Lemma linspace_ok a b n : (0 <= n)%Z -> exists l, linspace a b n = inl l.
Proof.
  intros H. unfold linspace.
  assert ((n <? 0)%Z = false) as -> by (apply Z.ltb_ge; lia). eauto.
Qed.

Lemma step_axis_spec a step n :
  arithmetic_progression a step (Z.to_nat n)
    (map (fun k => k * step + a)%Q (arange n)).
Proof.
  split.
  - by rewrite length_map, length_arange.
  - intros k x Hx. apply lookup_lt_Some in Hx as Hlt.
    rewrite length_map, length_arange in Hlt.
    rewrite list_lookup_fmap, lookup_arange in Hx by done. simpl in Hx.
    injection Hx as <-. ring.
Qed.

End AxisFacts.

(** ** The parser, stage by stage *)

Module ParserFacts.
Import PyStr Numpy NumpyFacts Spec AxisFacts Parser.

Section WithConversions.
Variable py_float : string -> option Q.
Variable py_int : string -> option Z.

Local Abbreviation parse_reconstructed_unv := (parse_reconstructed_unv py_float py_int).
Local Abbreviation parse_header := (parse_header py_float py_int).
Local Abbreviation scan_data_start := (scan_data_start py_float).
Local Abbreviation collect := (collect py_float).

Lemma record_of_lookup h x t :
  record_of h x t !! "x" = Some (VVec x) /\
  record_of h x t !! "data" = Some (VMat 2 t) /\
  record_of h x t !! "num_points" = Some (VInt (num_points h)) /\
  record_of h x t !! "data_type" = Some (VInt (data_type h)) /\
  record_of h x t !! "type" = Some (VInt 58).
Proof. unfold record_of. split_and!; by simplify_map_eq. Qed.

(** The parser succeeds exactly when each stage does and the axis and
    the table are not empty. *)
Lemma parse_inl raw d :
  parse_reconstructed_unv raw = inl d <->
  exists h start s table axis,
    parse_header (map rstrip_crlf raw) = inl (h, start) /\
    scan_data_start (length (map rstrip_crlf raw)) (map rstrip_crlf raw) start = inl s /\
    build_table h (collect (map rstrip_crlf raw) h s) = inl table /\
    build_axis h = inl axis /\
    axis <> [] /\ table <> [] /\
    d = record_of h axis table.
Proof.
  unfold Parser.parse_reconstructed_unv. set (lines := map rstrip_crlf raw). split.
  - intros H.
    apply bind_inl in H as ([h start] & Hh & H). simpl in H.
    apply bind_inl in H as (s & Hs & H).
    apply bind_inl in H as (table & Ht & H).
    apply bind_inl in H as (axis & Ha & H).
    apply bind_inl in H as (x0 & Hx0 & H).
    apply bind_inl in H as ([] & Hne & H).
    exists h, start, s, table, axis. split_and!; try done.
    + intros ->. discriminate.
    + intros ->. rewrite bool_decide_eq_true_2 in Hne by done. discriminate.
    + unfold ret in H. by injection H.
  - intros (h & start & s & table & axis & Hh & Hs & Ht & Ha & Hne & Hnt & ->).
    rewrite Hh. simpl. rewrite Hs. simpl. rewrite Ht. simpl. rewrite Ha. simpl.
    destruct axis as [|x0 axis]; [done|]. simpl.
    rewrite bool_decide_eq_false_2 by done. reflexivity.
Qed.

Lemma pad_spec fuel np dv :
  Z.to_nat (np * 2) - length dv <= fuel ->
  pad fuel np dv = dv ++ replicate (Z.to_nat (np * 2) - length dv) 0%Q.
Proof.
  revert dv. induction fuel as [|fuel IH]; intros dv Hfuel; simpl.
  - replace (Z.to_nat (np * 2) - length dv) with 0 by lia. by rewrite app_nil_r.
  - destruct (Z.of_nat (length dv) <? np * 2)%Z eqn:Hlt.
    + apply Z.ltb_lt in Hlt. rewrite IH by (rewrite length_app; simpl; lia).
      rewrite length_app. simpl. rewrite <- app_assoc. simpl.
      replace (Z.to_nat (np * 2) - length dv)
        with (S (Z.to_nat (np * 2) - (length dv + 1))) by lia.
      reflexivity.
    + apply Z.ltb_ge in Hlt.
      replace (Z.to_nat (np * 2) - length dv) with 0 by lia. by rewrite app_nil_r.
Qed.

Lemma length_flat_values np dv : length (flat_values np dv) = Z.to_nat (np * 2).
Proof.
  unfold flat_values. rewrite length_take, length_app, length_replicate. lia.
Qed.

Lemma build_table_spec h dv :
  (0 <= num_points h)%Z ->
  build_table h dv = inl (pairs (flat_values (num_points h) dv)).
Proof.
  intros Hnp. unfold build_table. rewrite pad_spec by lia.
  unfold slice_to. assert ((0 <=? num_points h * 2)%Z = true) as ->
    by (apply Z.leb_le; lia).
  fold (flat_values (num_points h) dv).
  unfold reshape2. rewrite length_flat_values.
  assert ((0 <=? num_points h)%Z = true) as -> by (by apply Z.leb_le).
  assert ((Z.of_nat (Z.to_nat (num_points h * 2)) =? num_points h * 2)%Z = true) as ->
    by (apply Z.eqb_eq; lia).
  reflexivity.
Qed.

Lemma build_axis_length h axis :
  build_axis h = inl axis -> length axis = Z.to_nat (num_points h).
Proof.
  unfold build_axis. intros H.
  destruct (spacing_type h =? 1)%Z; [destruct (Qlt_le_dec _ _)|].
  - apply linspace_spec in H as (_ & Hlen & _). exact Hlen.
  - injection H as <-. by rewrite length_map, length_arange.
  - injection H as <-. by rewrite length_map, length_arange.
Qed.

Lemma build_axis_ok h : (0 <= num_points h)%Z -> exists axis, build_axis h = inl axis.
Proof.
  intros Hnp. unfold build_axis.
  destruct (spacing_type h =? 1)%Z; [destruct (Qlt_le_dec _ _)|]; eauto.
  by apply linspace_ok.
Qed.

Lemma pairs_concat (table : list (list Q)) :
  Forall (fun row => length row = 2) table -> pairs (concat table) = table.
Proof.
  induction 1 as [|row table Hrow _ IH]; [reflexivity|].
  destruct row as [|a [|b [|c row]]]; try discriminate.
  simpl. by rewrite IH.
Qed.

(** C9: the parser succeeds exactly when the header is decoded, the
    payload start is found and [num_points >= 1], whatever the number of
    values collected; the record then has an axis of exactly [num_points]
    entries and a response table of exactly [num_points] rows of two
    columns, whose values in row order are the collected payload values
    padded with zeros to [num_points * 2] values and cut to that length:
    the first [num_points * 2] collected values when there are more. *)
Theorem parse_shape_invariant raw d :
  parse_reconstructed_unv raw = inl d <->
  exists h start s axis table,
    parse_header (map rstrip_crlf raw) = inl (h, start) /\
    scan_data_start (length (map rstrip_crlf raw)) (map rstrip_crlf raw) start = inl s /\
    (1 <= num_points h)%Z /\
    build_axis h = inl axis /\
    d = record_of h axis table /\
    d !! "num_points" = Some (VInt (num_points h)) /\
    d !! "x" = Some (VVec axis) /\
    Z.of_nat (length axis) = num_points h /\
    d !! "data" = Some (VMat 2 table) /\
    Z.of_nat (length table) = num_points h /\
    Forall (fun row => length row = 2) table /\
    concat table = flat_values (num_points h) (collect (map rstrip_crlf raw) h s) /\
    ((num_points h * 2 <= Z.of_nat (length (collect (map rstrip_crlf raw) h s)))%Z ->
     concat table
     = take (Z.to_nat (num_points h * 2)) (collect (map rstrip_crlf raw) h s)).
Proof.
  split.
  - intros H. apply parse_inl in H
      as (h & start & s & table & axis & Hh & Hs & Ht & Ha & Hne & Hnt & ->).
    pose proof (build_axis_length _ _ Ha) as Hlen.
    assert (Hnp : (1 <= num_points h)%Z).
    { destruct axis; [done|]. simpl in Hlen. lia. }
    rewrite build_table_spec in Ht by lia. injection Ht as <-.
    set (dv := collect (map rstrip_crlf raw) h s) in *.
    destruct (length_pairs (flat_values (num_points h) dv) (Z.to_nat (num_points h)))
      as (H1 & H2 & H3); [rewrite length_flat_values; lia|].
    destruct (record_of_lookup h axis (pairs (flat_values (num_points h) dv)))
      as (Lx & Ld & Ln & _).
    exists h, start, s, axis, (pairs (flat_values (num_points h) dv)).
    split_and!; try done; try lia.
    intros Hmany. fold dv in Hmany |- *. rewrite H3. unfold flat_values.
    rewrite take_app_le by lia. reflexivity.
  - intros (h & start & s & axis & table & Hh & Hs & Hnp & Ha & -> & _ & _ & Hlen
            & _ & Htl & Hrows & Hflat & _).
    apply parse_inl. exists h, start, s, table, axis.
    split_and!; try done.
    + rewrite build_table_spec by lia. rewrite <- Hflat.
      by rewrite (pairs_concat table Hrows).
    + intros ->. simpl in Hlen. lia.
    + intros ->. simpl in Htl. lia.
Qed.

(** C8: when the header is decoded, the payload start is found and fewer
    than [num_points * 2] values are collected, the parser returns a record
    whose response table holds, in row order, the collected values
    followed by zeros up to exactly [num_points * 2] values. *)
Theorem parse_pads_short_payload raw h start s :
  parse_header (map rstrip_crlf raw) = inl (h, start) ->
  scan_data_start (length (map rstrip_crlf raw)) (map rstrip_crlf raw) start = inl s ->
  (Z.of_nat (length (collect (map rstrip_crlf raw) h s)) < num_points h * 2)%Z ->
  exists d table,
    parse_reconstructed_unv raw = inl d /\
    d !! "data" = Some (VMat 2 table) /\
    Z.of_nat (length table) = num_points h /\
    Forall (fun row => length row = 2) table /\
    concat table =
      collect (map rstrip_crlf raw) h s
      ++ replicate (Z.to_nat (num_points h * 2)
                    - length (collect (map rstrip_crlf raw) h s)) 0%Q.
Proof.
  intros Hh Hs Hshort. set (dv := collect (map rstrip_crlf raw) h s) in *.
  assert (Hnp : (1 <= num_points h)%Z) by lia.
  destruct (build_axis_ok h) as (axis & Ha); [lia|].
  pose proof (build_axis_length _ _ Ha) as Hlen.
  destruct (length_pairs (flat_values (num_points h) dv) (Z.to_nat (num_points h)))
    as (H1 & H2 & H3); [rewrite length_flat_values; lia|].
  exists (record_of h axis (pairs (flat_values (num_points h) dv))),
         (pairs (flat_values (num_points h) dv)).
  split_and!.
  - apply parse_inl. exists h, start, s, (pairs (flat_values (num_points h) dv)), axis.
    split_and!; try done.
    + by apply build_table_spec; lia.
    + intros ->. simpl in Hlen. lia.
    + intros Hnil. rewrite Hnil in H1. simpl in H1. lia.
  - by destruct (record_of_lookup h axis (pairs (flat_values (num_points h) dv)))
      as (_ & ? & _).
  - lia.
  - exact H2.
  - rewrite H3. unfold flat_values. apply take_ge.
    rewrite length_app, length_replicate. lia.
Qed.

(** C2: when the parser succeeds the axis is decided by the header alone: if
    [spacing_type = 1] and [x_min + 1 < x_increment_or_max] it is numpy's
    [linspace] from [x_min] to [x_increment_or_max], that is [num_points]
    evenly spaced samples with both ends included; in every other case it
    is [x_min + k * x_increment_or_max] for [k] from 0 to [num_points - 1]. *)
Theorem parse_frequency_axis raw d :
  parse_reconstructed_unv raw = inl d ->
  exists h start axis,
    parse_header (map rstrip_crlf raw) = inl (h, start) /\
    d !! "x" = Some (VVec axis) /\
    (((spacing_type h = 1)%Z /\ (x_min h + 1 < x_increment_or_max h)%Q) ->
       linspace (x_min h) (x_increment_or_max h) (num_points h) = inl axis /\
       evenly_spaced (x_min h) (x_increment_or_max h) (Z.to_nat (num_points h)) axis) /\
    (~ ((spacing_type h = 1)%Z /\ (x_min h + 1 < x_increment_or_max h)%Q) ->
       arithmetic_progression (x_min h) (x_increment_or_max h)
         (Z.to_nat (num_points h)) axis).
Proof.
  intros H. apply parse_inl in H
    as (h & start & s & table & axis & Hh & Hs & Ht & Ha & Hne & Hnt & ->).
  exists h, start, axis. split; [done|].
  split; [by destruct (record_of_lookup h axis table) as (? & _)|].
  unfold build_axis in Ha.
  destruct (spacing_type h =? 1)%Z eqn:Hsp;
    [apply Z.eqb_eq in Hsp; destruct (Qlt_le_dec _ _) as [Hlt|Hle]
    |apply Z.eqb_neq in Hsp].
  - split; [|tauto]. intros _. split; [done|]. by apply linspace_spec in Ha as [_ ?].
  - split.
    + intros [_ Hlt]. exfalso. by apply (Qlt_not_le _ _ Hlt).
    + intros _. injection Ha as <-. apply step_axis_spec.
  - split; [tauto|]. intros _. injection Ha as <-. apply step_axis_spec.
Qed.

Lemma scan_data_start_inl fuel lines i j :
  length lines - i <= fuel ->
  scan_data_start fuel lines i = inl j <->
  first_data_line py_float lines i j /\ (j = i \/ j <= 100).
Proof.
  revert i. induction fuel as [|fuel IH]; intros i Hfuel; simpl.
  - split; [discriminate|]. intros [(Hle & (l & Hl & _) & _) _].
    apply lookup_lt_Some in Hl. lia.
  - destruct (lines !! i) as [l|] eqn:Hl.
    2:{ apply lookup_ge_None in Hl. split; [discriminate|].
        intros [(Hle & (l & Hl' & _) & _) _]. apply lookup_lt_Some in Hl'. lia. }
    destruct (is_data_start py_float l) eqn:Hd.
    + split.
      * intros H. injection H as <-. split; [|by left].
        split_and!; [lia | eauto | intros; lia].
      * intros [(Hle & _ & Hfirst) _].
        destruct (decide (j = i)) as [->|Hne]; [done|].
        rewrite (Hfirst i l) in Hd; [done | lia | done].
    + assert (Hstep : forall j, first_data_line py_float lines i j <->
                i + 1 <= j /\ first_data_line py_float lines (i + 1) j).
      { intros j'. split.
        - intros (Hle & (l' & Hl' & Hd') & Hfirst).
          assert (j' <> i) by (intros ->; congruence).
          split; [lia|]. split_and!; [lia | eauto |].
          intros k l0 Hk. apply Hfirst. lia.
        - intros (Hle & _ & Hex & Hfirst). split_and!; [lia | done |].
          intros k l0 Hk Hl0. destruct (decide (k = i)) as [->|Hne].
          + congruence.
          + apply (Hfirst k l0); [lia | done]. }
      destruct (100 <? i + 1) eqn:Hwin.
      * apply Nat.ltb_lt in Hwin. split; [discriminate|].
        intros [Hf Hj]. apply Hstep in Hf as [Hle _]. lia.
      * apply Nat.ltb_ge in Hwin. rewrite IH by lia. rewrite Hstep.
        split.
        -- intros [Hf Hj]. split; [|right; lia]. split; [|done].
           destruct Hf as (? & _). lia.
        -- intros [[Hle Hf] Hj]. split; [done|]. right. lia.
Qed.

(** C3, as the loop computes it: from the scan start [start] the parser
    returns the first line that contains [e] or [E] and whose first two
    tokens are reals, provided that line is the scan start itself or has
    an (absolute, zero-based) index of at most 100; the scan fails exactly
    when there is no such line, and then the parser fails with its error. *)
Theorem scan_data_start_spec (lines : list string) (start : nat) :
  (forall j, scan_data_start (length lines) lines start = inl j <->
     first_data_line py_float lines start j /\ (j = start \/ j <= 100)) /\
  (fails (scan_data_start (length lines) lines start) <->
     ~ exists j, first_data_line py_float lines start j /\ (j = start \/ j <= 100)) /\
  (forall raw h e,
     lines = map rstrip_crlf raw ->
     parse_header lines = inl (h, start) ->
     scan_data_start (length lines) lines start = inr e ->
     parse_reconstructed_unv raw = inr e).
Proof.
  assert (H1 : forall j, scan_data_start (length lines) lines start = inl j <->
     first_data_line py_float lines start j /\ (j = start \/ j <= 100))
    by (intros j; apply scan_data_start_inl; lia).
  split_and!.
  - exact H1.
  - split.
    + intros [e He] [j Hj]. apply H1 in Hj. congruence.
    + intros Hno. destruct (scan_data_start (length lines) lines start) as [j|e] eqn:Hs.
      * exfalso. apply Hno. exists j. by apply H1.
      * by exists e.
  - intros raw h e -> Hh Hs. unfold Parser.parse_reconstructed_unv. rewrite Hh. simpl.
    rewrite Hs. reflexivity.
Qed.

End WithConversions.

Import Examples Concrete.

(** C3, as stated, with the window counted from the scan start: here the
    scan starts on line 103 and the payload starts on line 104, the
    second line of that window, yet the scan and the parser fail. *)
Lemma scan_window_is_absolute :
  parse_header float_of_string int_of_string (map rstrip_crlf late_marker_lines)
    = inl (short_payload_header, 103) /\
  parse_reconstructed_unv float_of_string int_of_string late_marker_lines
    = inr (ValueError "Could not find data section in first 100 lines") /\
  ~ scan_fails_iff_window_exhausted float_of_string late_marker_lines 103.
Proof.
  split_and!; [vm_compute; reflexivity ..|].
  intros [Hfail _]. apply Hfail.
  - eexists. vm_compute. reflexivity.
  - exists 104. eexists. split_and!; [lia | lia | vm_compute; reflexivity |].
    vm_compute. reflexivity.
Qed.

Lemma parse_shape_invariant_witness :
  collect float_of_string (map rstrip_crlf endpoints_file) endpoints_header 8
    = [1; 2; 3; 4; 5; 6; 7; 8]%Q /\
  exists d,
    parse_reconstructed_unv float_of_string int_of_string endpoints_file = inl d /\
    d !! "data" = Some (VMat 2 [[1; 2]; [3; 4]; [5; 6]]%Q).
Proof.
  split; [vm_compute; reflexivity|].
  eexists. split.
  - apply (parse_shape_invariant float_of_string int_of_string endpoints_file).
    exists endpoints_header, 8, 8. eexists.
    exists [[1; 2]; [3; 4]; [5; 6]]%Q.
    split; [vm_compute; reflexivity|].
    split; [vm_compute; reflexivity|].
    split; [vm_compute; discriminate|].
    split; [vm_compute; reflexivity|].
    split; [reflexivity|].
    split; [reflexivity|].
    split; [reflexivity|].
    split; [reflexivity|].
    split; [reflexivity|].
    split; [reflexivity|].
    split; [repeat constructor|].
    split; [vm_compute; reflexivity|].
    intros _. vm_compute. reflexivity.
  - reflexivity.
Defined.

Lemma parse_pads_short_payload_witness :
  parse_header float_of_string int_of_string (map rstrip_crlf short_payload_file)
    = inl (short_payload_header, 8) /\
  scan_data_start float_of_string (length (map rstrip_crlf short_payload_file))
    (map rstrip_crlf short_payload_file) 8 = inl 8 /\
  collect float_of_string (map rstrip_crlf short_payload_file)
    short_payload_header 8 = [1; 2; 3]%Q /\
  exists d table,
    parse_reconstructed_unv float_of_string int_of_string short_payload_file = inl d /\
    d !! "data" = Some (VMat 2 table) /\
    Z.of_nat (length table) = num_points short_payload_header /\
    Forall (fun row => length row = 2) table /\
    concat table =
      collect float_of_string (map rstrip_crlf short_payload_file)
        short_payload_header 8
      ++ replicate (Z.to_nat (num_points short_payload_header * 2)
                    - length (collect float_of_string
                                (map rstrip_crlf short_payload_file)
                                short_payload_header 8)) 0%Q.
Proof.
  split_and!; [vm_compute; reflexivity ..|].
  apply (parse_pads_short_payload float_of_string int_of_string
           short_payload_file short_payload_header 8 8);
    vm_compute; reflexivity.
Defined.

Lemma parse_frequency_axis_witness :
  exists d, parse_reconstructed_unv float_of_string int_of_string endpoints_file = inl d /\
    exists h start axis,
      parse_header float_of_string int_of_string (map rstrip_crlf endpoints_file)
        = inl (h, start) /\
      d !! "x" = Some (VVec axis) /\
      (((spacing_type h = 1)%Z /\ (x_min h + 1 < x_increment_or_max h)%Q) ->
         linspace (x_min h) (x_increment_or_max h) (num_points h) = inl axis /\
         evenly_spaced (x_min h) (x_increment_or_max h) (Z.to_nat (num_points h)) axis) /\
      (~ ((spacing_type h = 1)%Z /\ (x_min h + 1 < x_increment_or_max h)%Q) ->
         arithmetic_progression (x_min h) (x_increment_or_max h)
           (Z.to_nat (num_points h)) axis).
Proof.
  eexists. split.
  - vm_compute. reflexivity.
  - apply (parse_frequency_axis float_of_string int_of_string endpoints_file).
    vm_compute. reflexivity.
Defined.

(** The two worked axes of the specification: the header reals 0 and 100
    with spacing type 1 give [linspace(0, 100, 3)]; 0 and 0.5 give the
    steps 0, 0.5, 1. *)
Example endpoints_axis :
  exists d axis, parse_reconstructed_unv float_of_string int_of_string endpoints_file = inl d /\
    d !! "x" = Some (VVec axis) /\ Forall2 Qeq axis [0; 50; 100]%Q.
Proof.
  eexists. eexists. split_and!; [vm_compute; reflexivity ..|].
  repeat constructor.
Qed.

Example step_axis :
  exists d axis, parse_reconstructed_unv float_of_string int_of_string short_payload_file = inl d /\
    d !! "x" = Some (VVec axis) /\ Forall2 Qeq axis [0; 1 # 2; 1]%Q.
Proof.
  eexists. eexists. split_and!; [vm_compute; reflexivity ..|].
  repeat constructor.
Qed.

(** A negative step in the header gives a descending frequency axis. *)
Example descending_axis :
  exists d axis, parse_reconstructed_unv float_of_string int_of_string descending_file = inl d /\
    d !! "x" = Some (VVec axis) /\ Forall2 Qeq axis [2; 1; 0]%Q.
Proof.
  eexists. eexists. split_and!; [vm_compute; reflexivity ..|].
  repeat constructor.
Qed.

End ParserFacts.

(** ** The export and the validation front end *)

Module ExportFacts.
Import NumpyFacts Metrics MetricsSpec.

Section WithLibraries.
Variable sqrt : Q -> Q.
Variable find_peaks : list Q -> Q -> list nat.

Local Abbreviation Cabs := (Cabs sqrt).
Local Abbreviation save_selected_record := (save_selected_record sqrt).
Local Abbreviation calculate_validation_metrics :=
  (calculate_validation_metrics sqrt find_peaks).

Local Abbreviation magnitude_row := (magnitude_row sqrt).

Lemma magnitude_rows rows :
  map (fun m => [m; 0%Q]) (map Cabs (zip (column 0 rows) (column 1 rows)))
  = map magnitude_row rows.
Proof.
  unfold column. induction rows as [|row rows IH]; simpl; [done|].
  by rewrite IH.
Qed.

(** C5, as the code does it: for a type-58 record of a .unv file whose
    response has two (or more) columns the record written is a copy in
    which the response is a two-column table with the linear magnitude in
    the first column and zeros in the second, [num_values_per_point] is 2,
    [data_type] is 2, [z_def_type] is 0 and [ylabel] is AMPLITUDE; the
    frequency axis and every other key are unchanged.  For an array
    response with fewer than two columns the original record is written
    unchanged. *)
Theorem save_selected_record_spec (original_record : gmap string pyval) :
  is_type_58 original_record = true ->
  (forall ncols rows,
     original_record !! "data" = Some (VMat ncols rows) -> 2 <= ncols ->
     exists r,
       save_selected_record "unv" original_record = inl (Some r) /\
       r !! "data" = Some (VMat 2 (map magnitude_row rows)) /\
       r !! "num_values_per_point" = Some (VInt 2) /\
       r !! "data_type" = Some (VInt 2) /\
       r !! "z_def_type" = Some (VInt 0) /\
       r !! "ylabel" = Some (VStr "AMPLITUDE") /\
       r !! "x" = original_record !! "x" /\
       (forall k, k ∉ ["data"; "num_values_per_point"; "data_type";
                       "z_def_type"; "ylabel"] ->
                  r !! k = original_record !! k)) /\
  (forall y,
     original_record !! "data" = Some y ->
     is_array y = true -> has_two_columns y = false ->
     save_selected_record "unv" original_record = inl (Some original_record)).
Proof.
  intros Htype. split.
  - intros ncols rows Hdata Hcols.
    destruct ncols as [|[|ncols]]; [lia | lia |].
    eexists. split.
    + unfold Metrics.save_selected_record. rewrite Htype. simpl.
      unfold getitem. rewrite Hdata. simpl.
      rewrite magnitude_rows. reflexivity.
    + split_and!; try (by simplify_map_eq).
      intros k Hk. rewrite !not_elem_of_cons in Hk.
      destruct Hk as (? & ? & ? & ? & ? & _).
      by rewrite !lookup_insert_ne.
  - intros y Hdata Harr Htwo.
    unfold Metrics.save_selected_record. rewrite Htype. simpl.
    unfold getitem. rewrite Hdata. simpl.
    destruct y as [| | | |[|[|ncols]] rows]; try discriminate; reflexivity.
Qed.

(** C10: two reconstructed records with the same axis and the same first
    response column give the same report, whatever their second columns
    hold; the reconstructed complex signal is the first column with
    imaginary part zero. *)
Theorem second_column_ignored (x_testlab : list Q) (y_testlab_raw : pyval)
    (r1 r2 : gmap string pyval) (rows1 rows2 : list (list Q)) :
  r1 !! "x" = r2 !! "x" ->
  r1 !! "data" = Some (VMat 2 rows1) ->
  r2 !! "data" = Some (VMat 2 rows2) ->
  column 0 rows1 = column 0 rows2 ->
  calculate_validation_metrics x_testlab y_testlab_raw r1
  = calculate_validation_metrics x_testlab y_testlab_raw r2 /\
  recon_complex (VMat 2 rows1) = inl (map (fun a => (a, 0%Q)) (column 0 rows1)) /\
  recon_complex (VMat 2 rows2) = inl (map (fun a => (a, 0%Q)) (column 0 rows1)).
Proof.
  intros Hx H1 H2 Hcol. split_and!.
  - unfold Metrics.calculate_validation_metrics, getitem.
    rewrite Hx, H1, H2. simpl. rewrite Hcol. reflexivity.
  - reflexivity.
  - simpl. by rewrite Hcol.
Qed.

End WithLibraries.

Import Examples Concrete.

Lemma save_selected_record_spec_witness :
  is_type_58 complex_record = true /\
  exists r,
    save_selected_record sqrt_q "unv" complex_record = inl (Some r) /\
    r !! "data" = Some (VMat 2 (map (magnitude_row sqrt_q) [[3; 4]; [5; 12]]%Q)) /\
    r !! "num_values_per_point" = Some (VInt 2) /\
    r !! "data_type" = Some (VInt 2) /\
    r !! "z_def_type" = Some (VInt 0) /\
    r !! "ylabel" = Some (VStr "AMPLITUDE") /\
    r !! "x" = complex_record !! "x" /\
    (forall k, k ∉ ["data"; "num_values_per_point"; "data_type";
                    "z_def_type"; "ylabel"] ->
               r !! k = complex_record !! k).
Proof.
  split; [reflexivity|].
  apply (proj1 (save_selected_record_spec sqrt_q complex_record eq_refl) 2
           [[3; 4]; [5; 12]]%Q); [vm_compute; reflexivity | lia].
Defined.

(** C5, as stated: the derived record would have a single-column response
    and a column count of one.  For the two-row complex record the record
    written has the two-column table [[5, 0], [13, 0]] and a column count
    of two. *)
Lemma derived_record_keeps_two_columns :
  exists r,
    save_selected_record sqrt_q "unv" complex_record = inl (Some r) /\
    r !! "data" = Some (VMat 2 [[5; 0]; [13; 0]]%Q) /\
    r !! "num_values_per_point" = Some (VInt 2) /\
    ~ single_column_record r.
Proof.
  eexists. split_and!; [vm_compute; reflexivity ..|].
  intros [_ Hn]. vm_compute in Hn. discriminate.
Qed.

Lemma second_column_ignored_witness :
  recon_a !! "x" = recon_b !! "x" /\
  column 0 [[1; 0]; [3; 0]; [1; 0]]%Q = column 0 [[1; 7]; [3; 8]; [1; 9]]%Q /\
  calculate_validation_metrics sqrt_q find_peaks [0; 1; 2]%Q
    (VMat 2 [[1; 0]; [4; 0]; [1; 0]]%Q) recon_a
  = calculate_validation_metrics sqrt_q find_peaks [0; 1; 2]%Q
    (VMat 2 [[1; 0]; [4; 0]; [1; 0]]%Q) recon_b.
Proof.
  split_and!; [reflexivity | reflexivity |].
  apply (second_column_ignored sqrt_q find_peaks [0; 1; 2]%Q
           (VMat 2 [[1; 0]; [4; 0]; [1; 0]]%Q) recon_a recon_b
           [[1; 0]; [3; 0]; [1; 0]]%Q [[1; 7]; [3; 8]; [1; 9]]%Q);
    reflexivity.
Defined.

End ExportFacts.

(** ** The metrics *)

Module MetricsFacts.
Import NumpyFacts Metrics MetricsSpec.

Local Open Scope Q_scope.

Lemma sq_nonneg x : 0 <= sq x.
Proof. unfold sq. nra. Qed.

Lemma sq_zero x : sq x == 0 -> x == 0.
Proof.
  unfold sq. intros H. destruct (Qmult_integral _ _ H); assumption.
Qed.

Lemma sum_nonneg l : Forall (fun x => 0 <= x) l -> 0 <= sum l.
Proof.
  induction 1 as [|x l Hx _ IH]; [apply Qle_refl|].
  change (sum (x :: l)) with (x + sum l). lra.
Qed.

Lemma sum_zero_inv l :
  Forall (fun x => 0 <= x) l -> sum l == 0 -> Forall (fun x => x == 0) l.
Proof.
  induction 1 as [|x l Hx Hl IH]; intros Hsum; [constructor|].
  pose proof (sum_nonneg l Hl) as Hs.
  change (sum (x :: l)) with (x + sum l) in Hsum.
  constructor; [lra | apply IH; lra].
Qed.

Lemma sum_all_zero {A} (f : A -> Q) l :
  (forall a, a ∈ l -> f a == 0) -> sum (map f l) == 0.
Proof.
  induction l as [|a l IH]; intros H; [reflexivity|].
  change (sum (map f (a :: l))) with (f a + sum (map f l)).
  rewrite (H a) by left. rewrite IH; [ring|].
  intros b Hb. apply H. by right.
Qed.

Lemma of_nat_S n : Numpy.of_nat (S n) == Numpy.of_nat n + 1.
Proof.
  unfold Numpy.of_nat. rewrite Nat2Z.inj_succ. unfold Z.succ.
  rewrite inject_Z_plus. reflexivity.
Qed.

Lemma sum_constant l c :
  (forall a, a ∈ l -> a == c) -> sum l == Numpy.of_nat (length l) * c.
Proof.
  induction l as [|a l IH]; intros H.
  - simpl. unfold Numpy.of_nat. simpl. ring.
  - change (sum (a :: l)) with (a + sum l). change (length (a :: l)) with (S (length l)).
    rewrite of_nat_S, IH, (H a) by (try left; intros; apply H; by right). ring.
Qed.

Lemma mean_constant l c :
  l <> [] -> (forall a, a ∈ l -> a == c) -> mean l == c.
Proof.
  intros Hne H. unfold mean. rewrite (sum_constant l c H).
  field. apply AxisFacts.of_nat_nonzero. destruct l; [done | simpl; lia].
Qed.

(** The reference is constant exactly when its total sum of squares is 0. *)
Lemma constant_ss_tot l : l <> [] -> constant l <-> ss_tot l == 0.
Proof.
  intros Hne. unfold ss_tot. split.
  - intros Hc. destruct l as [|c l]; [done|].
    apply sum_all_zero. intros a Ha.
    assert (Hm : mean (c :: l) == c).
    { apply mean_constant; [done|]. intros b Hb. apply Hc; [done | left]. }
    assert (Hac : a == c) by (apply Hc; [done | left]).
    unfold sq. rewrite Hm, Hac. ring.
  - intros Hz a b Ha Hb.
    apply sum_zero_inv in Hz.
    2:{ apply Forall_forall. intros x Hx. apply list_elem_of_fmap in Hx as (t & -> & _).
        apply sq_nonneg. }
    rewrite Forall_forall in Hz.
    assert (Heq : forall t, t ∈ l -> t == mean l).
    { intros t Ht. assert (H0 : sq (t - mean l) == 0).
      { apply Hz. apply list_elem_of_fmap. eauto. }
      apply sq_zero in H0. lra. }
    rewrite (Heq a Ha), (Heq b Hb). reflexivity.
Qed.

Lemma r2_score_inl y_true y_pred m :
  r2_score y_true y_pred = inl m ->
  length y_true = length y_pred /\ (1 <= length y_true)%nat /\
  m <> Unavailable /\
  ((2 <= length y_true)%nat ->
     (~ ss_tot y_true == 0 ->
        exists q, m = Number q /\ q == coefficient_of_determination y_true y_pred) /\
     (ss_tot y_true == 0 ->
        m = Number (if Qeq_bool (ss_res y_true y_pred) 0 then 1 else 0))).
Proof.
  unfold r2_score.
  destruct (length y_true =? length y_pred)%nat eqn:Hlen; [|discriminate].
  apply Nat.eqb_eq in Hlen. simpl.
  destruct (length y_true =? 0)%nat eqn:Hz; [discriminate|].
  apply Nat.eqb_neq in Hz.
  destruct (length y_true <? 2)%nat eqn:Hn.
  { apply Nat.ltb_lt in Hn. intros H. injection H as <-.
    split_and!; [done | lia | done | lia]. }
  fold (ss_res y_true y_pred). fold (ss_tot y_true).
  intros H. split_and!; [done | lia | |].
  - destruct (Qeq_bool (ss_res y_true y_pred) 0);
      [|destruct (Qeq_bool (ss_tot y_true) 0)]; injection H as <-; done.
  - intros _. split.
    + intros Hnc. destruct (Qeq_bool (ss_res y_true y_pred) 0) eqn:Hres.
      * injection H as <-. eexists. split; [reflexivity|].
        apply Qeq_bool_iff in Hres. unfold coefficient_of_determination.
        rewrite Hres. field. exact Hnc.
      * destruct (Qeq_bool (ss_tot y_true) 0) eqn:Htot.
        -- apply Qeq_bool_iff in Htot. contradiction.
        -- injection H as <-. eexists. split; reflexivity.
    + intros Hc. unfold ret in H.
      destruct (Qeq_bool (ss_res y_true y_pred) 0); [congruence|].
      apply Qeq_bool_iff in Hc. rewrite Hc in H. congruence.
Qed.

Lemma traverse_inl {A B} (f : A -> result B) l bs :
  traverse f l = inl bs -> Forall2 (fun a b => f a = inl b) l bs.
Proof.
  revert bs. induction l as [|a l IH]; intros bs H; simpl in H.
  - unfold ret in H. injection H as <-. constructor.
  - apply bind_inl in H as (b & Hb & H). apply bind_inl in H as (bs' & Hbs & H).
    unfold ret in H. injection H as <-. constructor; auto.
Qed.

Lemma argmin_from_spec l pre best_i best :
  pre !! best_i = Some best ->
  (forall x, x ∈ pre -> best <= x) ->
  exists d, (pre ++ l) !! argmin_from l (length pre) best_i best = Some d /\
    forall x, x ∈ pre ++ l -> d <= x.
Proof.
  revert pre best_i best. induction l as [|x l IH]; intros pre best_i best Hb Hmin.
  - simpl. rewrite app_nil_r. eauto.
  - simpl. replace (pre ++ x :: l) with ((pre ++ [x]) ++ l)
      by (by rewrite <- app_assoc).
    replace (S (length pre)) with (length (pre ++ [x]))
      by (rewrite length_app; simpl; lia).
    destruct (Qlt_le_dec x best) as [Hlt|Hle].
    + apply IH.
      * rewrite lookup_app_r by lia. by rewrite Nat.sub_diag.
      * intros y Hy. apply elem_of_app in Hy as [Hy|Hy].
        -- specialize (Hmin y Hy). lra.
        -- apply list_elem_of_singleton in Hy as ->. apply Qle_refl.
    + apply IH.
      * rewrite lookup_app_l; [done|]. by apply lookup_lt_Some in Hb.
      * intros y Hy. apply elem_of_app in Hy as [Hy|Hy]; [by apply Hmin|].
        by apply list_elem_of_singleton in Hy as ->.
Qed.

(** [argmin] points at a least element. *)
Lemma argmin_spec l :
  l <> [] ->
  exists d, l !! argmin l = Some d /\ forall x, x ∈ l -> d <= x.
Proof.
  destruct l as [|x l]; [done|]. intros _.
  apply (argmin_from_spec l [x] 0%nat x); [done|].
  intros y Hy. apply list_elem_of_singleton in Hy as ->. apply Qle_refl.
Qed.

Lemma length_omap_id {A} (l : list (option A)) : (length (omap id l) <= length l)%nat.
Proof.
  induction l as [|[a|] l IH]; csimpl; lia.
Qed.

Lemma foldl_max_spec l a :
  a <= foldl Qmaxb a l /\
  (forall x, x ∈ l -> x <= foldl Qmaxb a l) /\
  (foldl Qmaxb a l = a \/ foldl Qmaxb a l ∈ l).
Proof.
  revert a. induction l as [|b l IH]; intros a; simpl.
  - split_and!; [apply Qle_refl | by intros x Hx%not_elem_of_nil | by left].
  - destruct (IH (Qmaxb a b)) as (H1 & H2 & H3).
    assert (Hab : a <= Qmaxb a b /\ b <= Qmaxb a b /\ (Qmaxb a b = a \/ Qmaxb a b = b)).
    { unfold Qmaxb. destruct (Qlt_le_dec a b); split_and!; auto; lra. }
    destruct Hab as (Ha & Hb & Hc). split_and!.
    + lra.
    + intros x Hx. apply elem_of_cons in Hx as [->|Hx]; [lra | by apply H2].
    + destruct H3 as [->|H3]; [|by right; right].
      destruct Hc as [->| ->]; [by left | right; left].
Qed.

Lemma foldl_min_spec l a :
  foldl (fun a b => if Qlt_le_dec b a then b else a) a l <= a /\
  (forall x, x ∈ l -> foldl (fun a b => if Qlt_le_dec b a then b else a) a l <= x) /\
  (foldl (fun a b => if Qlt_le_dec b a then b else a) a l = a \/
   foldl (fun a b => if Qlt_le_dec b a then b else a) a l ∈ l).
Proof.
  revert a. induction l as [|b l IH]; intros a; simpl.
  - split_and!; [apply Qle_refl | by intros x Hx%not_elem_of_nil | by left].
  - set (m := if Qlt_le_dec b a then b else a).
    destruct (IH m) as (H1 & H2 & H3).
    assert (Hab : m <= a /\ m <= b /\ (m = a \/ m = b)).
    { unfold m. destruct (Qlt_le_dec b a); split_and!; auto; lra. }
    destruct Hab as (Ha & Hb & Hc). split_and!.
    + lra.
    + intros x Hx. apply elem_of_cons in Hx as [->|Hx]; [lra | by apply H2].
    + destruct H3 as [->|H3]; [|by right; right].
      destruct Hc as [->| ->]; [by left | right; left].
Qed.

(** On a non-decreasing axis the last entry minus the first is the
    largest entry minus the smallest. *)
Lemma sorted_axis_span freq first_f last_f :
  StronglySorted Qle freq ->
  freq !! 0%nat = Some first_f ->
  freq !! (length freq - 1)%nat = Some last_f ->
  last_f - first_f == span freq.
Proof.
  intros Hs Hfirst Hlast. destruct freq as [|x l]; [done|].
  simpl in Hfirst. injection Hfirst as ->.
  assert (Hle : forall y, y ∈ first_f :: l -> first_f <= y /\ y <= last_f).
  { intros y Hy. apply list_elem_of_lookup in Hy as (k & Hk).
    apply lookup_lt_Some in Hk as Hklt. split.
    - destruct k as [|k]; [simpl in Hk; injection Hk as <-; apply Qle_refl|].
      apply (strongly_sorted_lookup Qle (first_f :: l) 0 (S k)); auto. lia.
    - destruct (decide (k = length (first_f :: l) - 1)%nat) as [->|Hne].
      + rewrite Hlast in Hk. injection Hk as <-. apply Qle_refl.
      + apply (strongly_sorted_lookup Qle (first_f :: l) k
                 (length (first_f :: l) - 1)); auto. lia. }
  assert (Hlast_in : last_f ∈ first_f :: l) by (apply list_elem_of_lookup; eauto).
  unfold span, maximum, minimum.
  destruct (foldl_max_spec l first_f) as (M1 & M2 & M3).
  destruct (foldl_min_spec l first_f) as (N1 & N2 & N3).
  set (M := foldl Qmaxb first_f l) in *.
  set (N := foldl (fun a b => if Qlt_le_dec b a then b else a) first_f l) in *.
  assert (HM : M ∈ first_f :: l) by (destruct M3 as [->|?]; [left | by right]).
  assert (HN : N ∈ first_f :: l) by (destruct N3 as [->|?]; [left | by right]).
  assert (last_f <= M).
  { apply elem_of_cons in Hlast_in as [->|Hin]; [done | by apply M2]. }
  pose proof (proj2 (Hle M HM)). pose proof (proj1 (Hle N HN)). lra.
Qed.

Section WithLibraries.
Variable sqrt : Q -> Q.
Variable find_peaks : list Q -> Q -> list nat.

Lemma match_peak_spec freq mag_orig mag_recon peaks_recon tol p o :
  Metrics.match_peak freq mag_orig mag_recon peaks_recon tol p = inl o ->
  peak_outcome freq peaks_recon tol p o.
Proof.
  unfold Metrics.match_peak. intros H.
  apply bind_inl in H as (f & Hf & H). apply index_inl in Hf.
  apply bind_inl in H as (mp & _ & H).
  exists f. split; [done|].
  destruct (0 <? length peaks_recon)%nat eqn:Hlen.
  2:{ apply Nat.ltb_ge in Hlen. destruct peaks_recon; [|simpl in Hlen; lia].
      unfold ret in H. injection H as <-. intros q fq Hq. by apply not_elem_of_nil in Hq. }
  apply bind_inl in H as (fs & Hfs & H). apply traverse_inl in Hfs.
  apply bind_inl in H as (d & Hd & H). apply index_inl in Hd.
  set (diffs := map (fun f0 => Qabs (f0 - f)) fs) in *.
  assert (Hmin : forall q fq, q ∈ peaks_recon -> freq !! q = Some fq ->
            d <= Qabs (fq - f)).
  { destruct (argmin_spec diffs) as (d' & Hd' & Hleast).
    { intros Hnil. rewrite Hnil in Hd. by rewrite lookup_nil in Hd. }
    rewrite Hd in Hd'. injection Hd' as <-.
    intros q fq Hq Hfq. apply Hleast.
    apply list_elem_of_lookup in Hq as (k & Hk).
    destruct (Forall2_lookup_l _ _ _ _ _ Hfs Hk) as (fk & Hfk & Hidx).
    apply index_inl in Hidx. rewrite Hfq in Hidx. injection Hidx as <-.
    apply list_elem_of_lookup. exists k. unfold diffs.
    rewrite list_lookup_fmap, Hfk. reflexivity. }
  destruct (Qlt_le_dec d tol) as [Hlt|Hle].
  - apply bind_inl in H as (q & Hq & H). apply index_inl in Hq.
    apply bind_inl in H as (fq & Hfq & H). apply index_inl in Hfq.
    apply bind_inl in H as (mq & _ & H).
    unfold ret in H. injection H as <-. simpl.
    assert (Hdq : d = Qabs (fq - f)).
    { destruct (Forall2_lookup_l _ _ _ _ _ Hfs Hq) as (fk & Hfk & Hidx).
      apply index_inl in Hidx. rewrite Hfq in Hidx. injection Hidx as <-.
      subst diffs. rewrite list_lookup_fmap, Hfk in Hd.
      simpl in Hd. by injection Hd. }
    subst d. split; [done|]. exists q, fq.
    split_and!; [apply list_elem_of_lookup; eauto | done ..].
  - unfold ret in H. injection H as <-.
    intros q fq Hq Hfq Hlt. specialize (Hmin q fq Hq Hfq). lra.
Qed.

Local Abbreviation Cabs := (Cabs sqrt).
Local Abbreviation compute_all_metrics := (compute_all_metrics sqrt find_peaks).

(** What a successful run of [_compute_all_metrics] went through. *)
Lemma compute_all_metrics_inl freq yo yr r :
  compute_all_metrics freq yo yr = inl r ->
  exists m tol found,
    r2_score (map Cabs yo) (map Cabs yr) = inl m /\
    tolerance_of freq = inl tol /\
    traverse (match_peak freq (map Cabs yo) (map Cabs yr)
                (find_peaks (map Cabs yr) ((1 # 10) * maximum (map Cabs yo))) tol)
             (find_peaks (map Cabs yo) ((1 # 10) * maximum (map Cabs yo)))
      = inl found /\
    R2 r = m /\
    peak_analysis r = omap id found /\
    n_peaks_original r
      = length (find_peaks (map Cabs yo) ((1 # 10) * maximum (map Cabs yo))) /\
    n_peaks_reconstructed r
      = length (find_peaks (map Cabs yr) ((1 # 10) * maximum (map Cabs yo))) /\
    n_peaks_matched r = length (peak_analysis r).
Proof.
  unfold Metrics.compute_all_metrics. intros H.
  apply bind_inl in H as (m & Hm & H).
  apply bind_inl in H as (tol & Htol & H).
  apply bind_inl in H as (found & Hfound & H).
  unfold ret in H. injection H as <-.
  exists m, tol, found. simpl. split_and!; done.
Qed.

(** C4, as the code does it: the R2 entry of the report is whatever
    [r2_score] returns and is never the unavailable value.  Over at least
    two samples, for a non-constant reference magnitude it is the standard
    coefficient of determination of the reconstructed magnitude against
    the reference magnitude; for a constant reference magnitude it is the
    number 1 when the two magnitudes agree everywhere and the number 0
    otherwise. *)
Theorem r2_reported_as_number freq y_original y_reconstructed r :
  compute_all_metrics freq y_original y_reconstructed = inl r ->
  R2 r <> Unavailable /\
  ((2 <= length y_original)%nat ->
     (~ constant (map Cabs y_original) ->
        exists q, R2 r = Number q /\
          q == coefficient_of_determination (map Cabs y_original)
                 (map Cabs y_reconstructed)) /\
     (constant (map Cabs y_original) ->
        R2 r = Number (if Qeq_bool (ss_res (map Cabs y_original)
                                      (map Cabs y_reconstructed)) 0
                       then 1 else 0))).
Proof.
  intros H. apply compute_all_metrics_inl in H
    as (m & tol & found & Hm & _ & _ & -> & _).
  apply r2_score_inl in Hm as (Hlen & Hpos & Hna & Hcases).
  rewrite length_map in Hpos, Hcases.
  split; [done|]. intros Hn. destruct (Hcases Hn) as [Hnc Hc].
  assert (Hne : map Cabs y_original <> []).
  { destruct y_original; [simpl in Hn; lia | done]. }
  split.
  - intros Hnot. apply Hnc. intros Hz. apply Hnot. by apply constant_ss_tot.
  - intros Hconst. apply Hc. by apply constant_ss_tot.
Qed.

(** The matching rule of the code: the tolerance is 0.05 times the last
    target frequency minus the first, which is the largest minus the
    smallest on a non-decreasing axis.  Every detected reference peak is counted; it
    contributes one pair, with its nearest detected reconstructed peak by
    absolute frequency distance, exactly when that distance is strictly
    below the tolerance, and no pair otherwise. *)
Theorem peak_matching_spec freq y_original y_reconstructed r :
  compute_all_metrics freq y_original y_reconstructed = inl r ->
  exists first_f last_f found,
    freq !! 0%nat = Some first_f /\
    freq !! (length freq - 1)%nat = Some last_f /\
    Forall2 (peak_outcome freq
               (find_peaks (map Cabs y_reconstructed)
                  ((1 # 10) * maximum (map Cabs y_original)))
               ((5 # 100) * (last_f - first_f)))
            (find_peaks (map Cabs y_original)
               ((1 # 10) * maximum (map Cabs y_original)))
            found /\
    peak_analysis r = omap id found /\
    n_peaks_original r
      = length (find_peaks (map Cabs y_original)
                  ((1 # 10) * maximum (map Cabs y_original))) /\
    n_peaks_reconstructed r
      = length (find_peaks (map Cabs y_reconstructed)
                  ((1 # 10) * maximum (map Cabs y_original))) /\
    n_peaks_matched r = length (peak_analysis r) /\
    (n_peaks_matched r <= n_peaks_original r)%nat /\
    (StronglySorted Qle freq -> last_f - first_f == span freq).
Proof.
  intros H. apply compute_all_metrics_inl in H
    as (m & tol & found & _ & Htol & Hfound & _ & Hpa & Hno & Hnr & Hnm).
  unfold tolerance_of in Htol.
  apply bind_inl in Htol as (last_f & Hlast & Htol). apply index_inl in Hlast.
  apply bind_inl in Htol as (first_f & Hfirst & Htol). apply index_inl in Hfirst.
  unfold ret in Htol. injection Htol as <-.
  apply traverse_inl in Hfound.
  exists first_f, last_f, found. split_and!; try done.
  - eapply Forall2_impl; [exact Hfound|]. intros p o Hp. by apply match_peak_spec in Hp.
  - rewrite Hnm, Hno, Hpa. rewrite (Forall2_length _ _ _ Hfound).
    apply length_omap_id.
  - intros Hs. by apply sorted_axis_span.
Qed.

End WithLibraries.

Import Concrete.

Lemma peak_matching_spec_witness :
  exists r,
    compute_all_metrics sqrt_q find_peaks [0; 1; 2]
      [(0, 0); (1, 0); (0, 0)] [(0, 0); (1, 0); (0, 0)] = inl r /\
    exists first_f last_f found,
      [0; 1; 2] !! 0%nat = Some first_f /\
      [0; 1; 2] !! (length [0; 1; 2] - 1)%nat = Some last_f /\
      Forall2 (peak_outcome [0; 1; 2]
                 (find_peaks (map (Cabs sqrt_q) [(0, 0); (1, 0); (0, 0)])
                    ((1 # 10) * maximum (map (Cabs sqrt_q) [(0, 0); (1, 0); (0, 0)])))
                 ((5 # 100) * (last_f - first_f)))
              (find_peaks (map (Cabs sqrt_q) [(0, 0); (1, 0); (0, 0)])
                 ((1 # 10) * maximum (map (Cabs sqrt_q) [(0, 0); (1, 0); (0, 0)])))
              found /\
      peak_analysis r = omap id found /\
      n_peaks_original r
        = length (find_peaks (map (Cabs sqrt_q) [(0, 0); (1, 0); (0, 0)])
                    ((1 # 10) * maximum (map (Cabs sqrt_q) [(0, 0); (1, 0); (0, 0)]))) /\
      n_peaks_reconstructed r
        = length (find_peaks (map (Cabs sqrt_q) [(0, 0); (1, 0); (0, 0)])
                    ((1 # 10) * maximum (map (Cabs sqrt_q) [(0, 0); (1, 0); (0, 0)]))) /\
      n_peaks_matched r = length (peak_analysis r) /\
      (n_peaks_matched r <= n_peaks_original r)%nat /\
      (StronglySorted Qle [0; 1; 2] -> last_f - first_f == span [0; 1; 2]).
Proof.
  eexists. split.
  - vm_compute. reflexivity.
  - apply (peak_matching_spec sqrt_q find_peaks [0; 1; 2]
             [(0, 0); (1, 0); (0, 0)] [(0, 0); (1, 0); (0, 0)]).
    vm_compute. reflexivity.
Defined.

(** C7 on a descending axis: on the axis 2, 1, 0 both signals have their
    one peak at the same sample, at distance 0, which is below the 5% of
    the span, 0.05 * (2 - 0), that the claim and the report text of the
    code name as the tolerance; the code computes the tolerance
    0.05 * (0 - 2) and records no pair. *)
Lemma descending_axis_matches_nothing :
  exists r,
    compute_all_metrics sqrt_q find_peaks [2; 1; 0]
      [(0, 0); (1, 0); (0, 0)] [(0, 0); (1, 0); (0, 0)] = inl r /\
    find_peaks (map (Cabs sqrt_q) [(0, 0); (1, 0); (0, 0)])
      ((1 # 10) * maximum (map (Cabs sqrt_q) [(0, 0); (1, 0); (0, 0)])) = [1%nat] /\
    n_peaks_original r = 1%nat /\
    n_peaks_reconstructed r = 1%nat /\
    n_peaks_matched r = 0%nat /\
    peak_analysis r = [] /\
    ~ matches_within_span [2; 1; 0] [1%nat] [1%nat] (peak_analysis r).
Proof.
  eexists. split_and!; [vm_compute; reflexivity ..|].
  intros (found & HF & Hpa). simpl in Hpa.
  inversion HF as [|p o ps os Ho Hrest]; subst.
  inversion Hrest; subst.
  destruct o as [c|]; [csimpl in Hpa; discriminate|].
  destruct Ho as (f & Hf & Hnone). simpl in Hf. injection Hf as <-.
  apply (Hnone 1%nat 1); [left | reflexivity |].
  vm_compute. reflexivity.
Qed.

Lemma r2_reported_as_number_witness :
  exists r,
    compute_all_metrics sqrt_q find_peaks [0; 1; 2]
      [(1, 0); (3, 0); (1, 0)] [(1, 0); (4, 0); (1, 0)] = inl r /\
    R2 r <> Unavailable /\
    ((2 <= 3)%nat ->
       (~ constant (map (Cabs sqrt_q) [(1, 0); (3, 0); (1, 0)]) ->
          exists q, R2 r = Number q /\
            q == coefficient_of_determination
                   (map (Cabs sqrt_q) [(1, 0); (3, 0); (1, 0)])
                   (map (Cabs sqrt_q) [(1, 0); (4, 0); (1, 0)])) /\
       (constant (map (Cabs sqrt_q) [(1, 0); (3, 0); (1, 0)]) ->
          R2 r = Number (if Qeq_bool
                              (ss_res (map (Cabs sqrt_q) [(1, 0); (3, 0); (1, 0)])
                                 (map (Cabs sqrt_q) [(1, 0); (4, 0); (1, 0)])) 0
                         then 1 else 0))).
Proof.
  eexists. split.
  - vm_compute. reflexivity.
  - apply (r2_reported_as_number sqrt_q find_peaks [0; 1; 2]
             [(1, 0); (3, 0); (1, 0)] [(1, 0); (4, 0); (1, 0)]).
    vm_compute. reflexivity.
Defined.

(** C4, as stated: a constant reference magnitude would give an
    unavailable R2.  With the reference magnitude 1, 1 and the
    reconstructed magnitude 1, 2 the report holds the number 0. *)
Lemma constant_reference_r2_is_a_number :
  constant (map (Cabs sqrt_q) [(1, 0); (1, 0)]) /\
  exists r,
    compute_all_metrics sqrt_q find_peaks [0; 1]
      [(1, 0); (1, 0)] [(1, 0); (2, 0)] = inl r /\
    R2 r = Number 0 /\ R2 r <> Unavailable.
Proof.
  split.
  - intros a b Ha Hb. vm_compute in Ha, Hb.
    assert (Hx : forall x : Q, x ∈ [1; 1] -> x = 1).
    { intros x Hx. rewrite !elem_of_cons in Hx.
      destruct Hx as [->|[->|Hx]]; [done | done | by apply not_elem_of_nil in Hx]. }
    rewrite (Hx a Ha), (Hx b Hb). reflexivity.
  - eexists. split_and!; [vm_compute; reflexivity | reflexivity | discriminate].
Qed.

End MetricsFacts.

(** ** Grid alignment *)

Module AlignFacts.
Import NumpyFacts Align AlignSpec.

Local Open Scope Q_scope.

#[local] Instance le_x_total : Total le_x.
Proof. intros p q. unfold le_x. destruct (Qlt_le_dec (fst q) (fst p)); [right|left]; lra. Qed.

#[local] Instance le_x_trans : Transitive le_x.
Proof. intros p q r. unfold le_x. lra. Qed.

Lemma sort_samples_facts xs ys :
  length xs = length ys ->
  StronglySorted le_x (sort_samples xs ys) /\
  sort_samples xs ys ≡ₚ zip xs ys /\
  map fst (sort_samples xs ys) ≡ₚ xs /\
  length (sort_samples xs ys) = length xs.
Proof.
  intros Hlen. unfold sort_samples.
  pose proof (merge_sort_Permutation le_x (zip xs ys)) as Hperm.
  split_and!.
  - apply StronglySorted_merge_sort; apply _.
  - exact Hperm.
  - rewrite Hperm. assert (map fst (zip xs ys) = xs) as ->; [|done].
    apply (fst_zip xs ys). lia.
  - rewrite Hperm. rewrite length_zip. lia.
Qed.

Lemma strictly_sorted s :
  StronglySorted le_x s -> NoDup (map Qred (map fst s)) -> StronglySorted lt_x s.
Proof.
  induction 1 as [|p l Hs IH Hall]; intros Hnd; [constructor|].
  simpl in Hnd. apply NoDup_cons in Hnd as [Hnotin Hnd].
  constructor; [by apply IH|].
  rewrite Forall_forall in Hall |- *. intros q Hq.
  specialize (Hall q Hq). unfold le_x in Hall. unfold lt_x.
  destruct (Qlt_le_dec (fst p) (fst q)) as [Hlt|Hge]; [done|].
  exfalso. apply Hnotin.
  assert (Heq : fst q == fst p) by lra.
  apply Qred_complete in Heq. rewrite <- Heq.
  apply list_elem_of_fmap_2. by apply list_elem_of_fmap_2.
Qed.

Lemma item_of_nat a (k : nat) : item a (Z.of_nat k) = nth k a 0.
Proof.
  unfold item. assert ((Z.of_nat k <? 0)%Z = false) as -> by (apply Z.ltb_ge; lia).
  by rewrite Nat2Z.id.
Qed.

Lemma item_last a : item a (-1) = nth (length a - 1) a 0.
Proof. unfold item. simpl. f_equal. lia. Qed.

Lemma item_fst (s : list (Q * Q)) k p :
  s !! k = Some p -> item (map fst s) (Z.of_nat k) = fst p.
Proof.
  intros H. rewrite item_of_nat. apply nth_lookup_Some.
  by rewrite list_lookup_fmap, H.
Qed.

Lemma item_snd (s : list (Q * Q)) k p :
  s !! k = Some p -> item (map snd s) (Z.of_nat k) = snd p.
Proof.
  intros H. rewrite item_of_nat. apply nth_lookup_Some.
  by rewrite list_lookup_fmap, H.
Qed.

Lemma sorted_lookup_le (s : list (Q * Q)) i j a b :
  StronglySorted lt_x s -> s !! i = Some a -> s !! j = Some b -> (i <= j)%nat ->
  fst a <= fst b.
Proof.
  intros Hs Ha Hb Hij. destruct (decide (i = j)) as [->|Hne].
  - rewrite Ha in Hb. injection Hb as <-. apply Qle_refl.
  - apply Qlt_le_weak.
    apply (strongly_sorted_lookup lt_x s i j a b Hs Ha Hb). lia.
Qed.

(** The search from the front stops at once when the next entry is above
    the key. *)
Lemma linear_search_stop t l i :
  (forall a, head l = Some a -> t < a) -> linear_search t l i = i.
Proof.
  destruct l as [|a l]; [done|]. intros H. simpl.
  destruct (Qlt_le_dec t a); [done|]. specialize (H a eq_refl). lra.
Qed.

(** On strictly increasing samples the search from the front passes every
    sample up to the last one that is not above the key. *)
Lemma linear_search_located (s : list (Q * Q)) t i j p :
  StronglySorted lt_x s -> s !! j = Some p -> fst p <= t ->
  (forall q, s !! S j = Some q -> t < fst q) ->
  linear_search t (map fst s) i = (i + S j)%nat.
Proof.
  intros Hs. revert i j. induction Hs as [|a l Hs IH Hall]; intros i j Hj Hle Hnext.
  - by rewrite lookup_nil in Hj.
  - simpl. destruct j as [|j].
    + simpl in Hj. injection Hj as ->.
      destruct (Qlt_le_dec t (fst p)); [lra|].
      rewrite linear_search_stop; [lia|].
      intros b Hb. destruct l as [|c l']; [done|]. simpl in Hb. injection Hb as <-.
      by apply Hnext.
    + simpl in Hj. rewrite Forall_forall in Hall.
      assert (Hap : lt_x a p) by (apply Hall, list_elem_of_lookup; eauto).
      unfold lt_x in Hap. destruct (Qlt_le_dec t (fst a)); [lra|].
      rewrite (IH (S i) j); [lia | done | done |].
      intros b Hb. by apply Hnext.
Qed.

(** numpy's search returns the index of the last sample that is not above
    the key, for a key inside the range of the samples. *)
Lemma binary_search_located (s : list (Q * Q)) t j p :
  StronglySorted lt_x s -> s !! j = Some p -> fst p <= t ->
  (forall q, s !! S j = Some q -> t < fst q) ->
  t <= item (map fst s) (-1) ->
  binary_search_with_guess t (map fst s) = Z.of_nat j.
Proof.
  intros Hs Hj Hle Hnext Hlast. unfold binary_search_with_guess.
  destruct (Qlt_le_dec (item (map fst s) (-1)) t); [lra|].
  destruct (lookup_lt_is_Some_2 s 0%nat) as [c Hc];
    [apply lookup_lt_Some in Hj; lia|].
  pose proof (sorted_lookup_le s 0 j c p Hs Hc Hj ltac:(lia)) as Hfirst.
  change 0%Z with (Z.of_nat 0). rewrite (item_fst s 0 c Hc).
  destruct (Qlt_le_dec t (fst c)); [lra|].
  destruct s as [|a l]; [done|]. simpl tail.
  apply StronglySorted_inv in Hs as [Hl _].
  destruct j as [|j].
  - rewrite linear_search_stop; [done|].
    intros b Hb. destruct l as [|c' l']; [done|]. simpl in Hb. injection Hb as <-.
    by apply Hnext.
  - simpl in Hj. rewrite (linear_search_located l t 1 j p); [lia | done | done | done |].
    intros b Hb. by apply Hnext.
Qed.

(** At the last sample, and above it, [np.interp] returns the last
    value. *)
Lemma call_linear_np_last (s : list (Q * Q)) p t :
  StronglySorted lt_x s -> s !! (length s - 1)%nat = Some p -> fst p <= t ->
  call_linear_np (map fst s) (map snd s) t = snd p.
Proof.
  intros Hs Hp Hle. unfold call_linear_np, interp. rewrite !length_map.
  apply lookup_lt_Some in Hp as Hlen.
  assert (Hfp_last : item (map snd s) (-1) = snd p).
  { rewrite item_last, length_map. apply nth_lookup_Some.
    by rewrite list_lookup_fmap, Hp. }
  assert (Hxp_last : item (map fst s) (-1) = fst p).
  { rewrite item_last, length_map. apply nth_lookup_Some.
    by rewrite list_lookup_fmap, Hp. }
  destruct (length s =? 1)%nat eqn:H1.
  - apply Nat.eqb_eq in H1. rewrite H1 in Hp. simpl in Hp.
    change 0%Z with (Z.of_nat 0).
    rewrite (item_fst s 0 p Hp), (item_snd s 0 p Hp).
    destruct (Qlt_le_dec t (fst p)); [lra|].
    destruct (Qlt_le_dec (fst p) t); [exact Hfp_last | reflexivity].
  - apply Nat.eqb_neq in H1.
    destruct (Qlt_le_dec (fst p) t) as [Habove|Hnot].
    + assert (binary_search_with_guess t (map fst s) = Z.of_nat (length s)) as ->.
      { unfold binary_search_with_guess. rewrite Hxp_last, length_map.
        destruct (Qlt_le_dec (fst p) t); [done | lra]. }
      assert ((Z.of_nat (length s) =? -1)%Z = false) as -> by (apply Z.eqb_neq; lia).
      rewrite Z.eqb_refl. exact Hfp_last.
    + rewrite (binary_search_located s t (length s - 1) p Hs Hp Hle).
      * assert ((Z.of_nat (length s - 1) =? -1)%Z = false) as ->
          by (apply Z.eqb_neq; lia).
        assert ((Z.of_nat (length s - 1) =? Z.of_nat (length s))%Z = false) as ->
          by (apply Z.eqb_neq; lia).
        assert ((Z.of_nat (length s - 1) =? Z.of_nat (length s) - 1)%Z = true) as ->
          by (apply Z.eqb_eq; lia).
        by apply item_snd.
      * intros b Hb. apply lookup_lt_Some in Hb. lia.
      * rewrite Hxp_last. exact Hnot.
Qed.

(** From a sample up to the next one [np.interp] returns the value on the
    straight line through the two. *)
Lemma call_linear_np_inner (s : list (Q * Q)) j p q t :
  StronglySorted lt_x s -> s !! j = Some p -> s !! S j = Some q ->
  fst p <= t -> t < fst q ->
  call_linear_np (map fst s) (map snd s) t
  == snd p + (snd q - snd p) * ((t - fst p) / (fst q - fst p)).
Proof.
  intros Hs Hp Hq Hle Hlt. unfold call_linear_np, interp. rewrite !length_map.
  apply lookup_lt_Some in Hq as Hlen.
  assert ((length s =? 1)%nat = false) as -> by (apply Nat.eqb_neq; lia).
  rewrite (binary_search_located s t j p Hs Hp Hle).
  - assert ((Z.of_nat j =? -1)%Z = false) as -> by (apply Z.eqb_neq; lia).
    assert ((Z.of_nat j =? Z.of_nat (length s))%Z = false) as ->
      by (apply Z.eqb_neq; lia).
    assert ((Z.of_nat j =? Z.of_nat (length s) - 1)%Z = false) as ->
      by (apply Z.eqb_neq; lia).
    replace (Z.of_nat j + 1)%Z with (Z.of_nat (S j)) by lia.
    rewrite (item_fst s _ p Hp), (item_snd s _ p Hp).
    rewrite (item_fst s _ q Hq), (item_snd s _ q Hq).
    destruct (Qeq_bool (fst p) t) eqn:Heq.
    + apply Qeq_bool_iff in Heq. rewrite <- Heq. field. lra.
    + field. lra.
  - intros q' Hq'. rewrite Hq in Hq'. by injection Hq' as <-.
  - destruct (lookup_lt_is_Some_2 s (length s - 1)%nat) as [c Hc]; [lia|].
    rewrite item_last, length_map.
    rewrite (nth_lookup_Some _ _ _ (fst c)) by (by apply lookup_map_Some).
    pose proof (sorted_lookup_le s (S j) (length s - 1) q c Hs Hq Hc ltac:(lia)).
    lra.
Qed.

(** On strictly increasing samples [np.interp] returns a sample at its
    own abscissa. *)
Lemma call_linear_np_at_sample (s : list (Q * Q)) k p t :
  StronglySorted lt_x s -> s !! k = Some p -> t == fst p ->
  call_linear_np (map fst s) (map snd s) t == snd p.
Proof.
  intros Hs Hk Ht. apply lookup_lt_Some in Hk as Hklt.
  destruct (decide (S k = length s)) as [Hlast|Hne].
  - rewrite (call_linear_np_last s p t); [reflexivity | done | | lra].
    by replace (length s - 1)%nat with k by lia.
  - destruct (lookup_lt_is_Some_2 s (S k)) as [q Hq]; [lia|].
    pose proof (strongly_sorted_lookup lt_x s k (S k) p q Hs Hk Hq ltac:(lia)) as Hlt.
    unfold lt_x in Hlt.
    rewrite (call_linear_np_inner s k p q t); [| done | done | done | lra | lra].
    rewrite Ht. field. lra.
Qed.

(** What [interp1d] returns on samples of equal, positive length. *)
Lemma interp1d_spec xs ys :
  length xs = length ys -> (1 <= length xs)%nat ->
  exists f,
    interp1d xs ys = inl f /\
    (forall t, outside xs t -> f t = 0) /\
    (distinct xs ->
     forall j xj yj t,
       xs !! j = Some xj -> ys !! j = Some yj -> t == xj -> f t == yj).
Proof.
  intros Hlen Hpos. unfold interp1d.
  assert ((length xs =? length ys)%nat = true) as -> by (by apply Nat.eqb_eq).
  assert ((length xs =? 0)%nat = false) as -> by (apply Nat.eqb_neq; lia).
  simpl. eexists. split; [reflexivity|]. cbv zeta.
  destruct (sort_samples_facts xs ys Hlen) as (Hsorted & Hperm & Hfst & Hslen).
  set (s := sort_samples xs ys) in *.
  assert (Hin : forall k x, map fst s !! k = Some x -> x ∈ xs).
  { intros k x Hk. rewrite <- Hfst. apply list_elem_of_lookup. eauto. }
  destruct (lookup_lt_is_Some_2 (map fst s) 0%nat) as [x0 Hx0];
    [rewrite length_map; lia|].
  destruct (lookup_lt_is_Some_2 (map fst s) (length (map fst s) - 1)%nat)
    as [xn Hxn]; [rewrite length_map; lia|].
  assert (Hfirst : item (map fst s) 0 = x0)
    by (change 0%Z with (Z.of_nat 0); rewrite item_of_nat; by apply nth_lookup_Some).
  assert (Hlast : item (map fst s) (-1) = xn)
    by (rewrite item_last; by apply nth_lookup_Some).
  rewrite Hfirst, Hlast. split.
  - intros t [Hbelow|Habove].
    + specialize (Hbelow x0 (Hin _ _ Hx0)).
      destruct (Qlt_le_dec t x0); [done | lra].
    + pose proof (Habove x0 (Hin _ _ Hx0)). pose proof (Habove xn (Hin _ _ Hxn)).
      destruct (Qlt_le_dec t x0); [done|].
      destruct (Qlt_le_dec xn t); [done | lra].
  - intros Hdist j xj yj t Hxj Hyj Ht.
    assert (Hstrict : StronglySorted lt_x s).
    { apply strictly_sorted; [done|]. unfold distinct in Hdist.
      by rewrite Hfst. }
    assert (Hmem : (xj, yj) ∈ s).
    { rewrite Hperm. apply list_elem_of_lookup. exists j.
      by apply lookup_zip_Some. }
    apply list_elem_of_lookup in Hmem as (k & Hk).
    apply lookup_lt_Some in Hk as Hklt.
    assert (Hge0 : x0 <= xj).
    { rewrite list_lookup_fmap in Hx0.
      destruct (s !! 0%nat) as [q|] eqn:Hq; [|done]. simpl in Hx0.
      injection Hx0 as <-.
      apply (sorted_lookup_le s 0 k q (xj, yj)); [done | done | done | lia]. }
    assert (Hlen_n : xj <= xn).
    { rewrite list_lookup_fmap, length_map in Hxn.
      destruct (s !! (length s - 1)%nat) as [q|] eqn:Hq; [|done]. simpl in Hxn.
      injection Hxn as <-.
      apply (sorted_lookup_le s k (length s - 1) (xj, yj) q); [done | done | done | lia]. }
    destruct (Qlt_le_dec t x0); [lra|].
    destruct (Qlt_le_dec xn t); [lra|].
    apply (call_linear_np_at_sample s k (xj, yj) t); done.
Qed.

(** C6, as the code does it: for a source axis and a source signal of the
    same positive length the result has one value per target frequency;
    a target strictly below every source frequency or strictly above every
    source frequency gives exactly 0 + 0j; and when the source frequencies
    are pairwise distinct, a target equal to a source frequency gives the
    real and the imaginary part of that sample. *)
Theorem interpolate_to_common_grid_spec (x_source : list Q)
    (y_source_complex : list complex) (x_target : list Q) :
  length x_source = length y_source_complex ->
  (1 <= length x_source)%nat ->
  exists r,
    interpolate_to_common_grid x_source y_source_complex x_target = inl r /\
    length r = length x_target /\
    (forall k t, x_target !! k = Some t -> outside x_source t ->
       r !! k = Some (0, 0)) /\
    (distinct x_source ->
     forall k t, x_target !! k = Some t ->
       exists z, r !! k = Some z /\
         exact_at_samples x_source y_source_complex t z).
Proof.
  intros Hlen Hpos.
  destruct (interp1d_spec x_source (map fst y_source_complex))
    as (fr & Hfr & Hr_out & Hr_at); [by rewrite length_map | done |].
  destruct (interp1d_spec x_source (map snd y_source_complex))
    as (fi & Hfi & Hi_out & Hi_at); [by rewrite length_map | done |].
  unfold interpolate_to_common_grid. rewrite Hfr, Hfi. simpl.
  eexists. split; [reflexivity|]. split_and!.
  - by rewrite length_map.
  - intros k t Hk Hout. rewrite list_lookup_fmap, Hk. simpl.
    by rewrite (Hr_out t Hout), (Hi_out t Hout).
  - intros Hdist k t Hk. eexists. split.
    + rewrite list_lookup_fmap, Hk. reflexivity.
    + intros j xj yj Hxj Hyj Ht. split; simpl.
      * apply (Hr_at Hdist j xj); [done | | done].
        by apply lookup_map_Some.
      * apply (Hi_at Hdist j xj); [done | | done].
        by apply lookup_map_Some.
Qed.

Lemma interpolate_to_common_grid_spec_witness :
  length [10; 100; 50] = length [(1, 2); (3, 4); (5, 6)] /\
  (1 <= length [10; 100; 50])%nat /\
  exists r,
    interpolate_to_common_grid [10; 100; 50] [(1, 2); (3, 4); (5, 6)]
      [5; 50; 150] = inl r /\
    length r = length [5; 50; 150] /\
    (forall k t, [5; 50; 150] !! k = Some t -> outside [10; 100; 50] t ->
       r !! k = Some (0, 0)) /\
    (distinct [10; 100; 50] ->
     forall k t, [5; 50; 150] !! k = Some t ->
       exists z, r !! k = Some z /\
         exact_at_samples [10; 100; 50] [(1, 2); (3, 4); (5, 6)] t z).
Proof.
  split_and!; [reflexivity | simpl; lia |].
  apply (interpolate_to_common_grid_spec [10; 100; 50]
           [(1, 2); (3, 4); (5, 6)] [5; 50; 150]); [reflexivity | simpl; lia].
Defined.

(** The worked case of the specification: a source on 10 .. 100 gives 0
    at the targets 5 and 150 and the sample itself at the target 50. *)
Example domain_fill :
  exists z,
    interpolate_to_common_grid [10; 100; 50] [(1, 2); (3, 4); (5, 6)]
      [5; 50; 150] = inl [(0, 0); z; (0, 0)] /\ Ceq z (5, 6).
Proof. eexists. split; [vm_compute; reflexivity|]. split; reflexivity. Qed.

(** A source of one sample is exact at that sample and 0 elsewhere. *)
Example single_sample_source :
  interpolate_to_common_grid [5] [(2, 3)] [5; 6; 4]
  = inl [(2, 3); (0, 0); (0, 0)].
Proof. vm_compute. reflexivity. Qed.

(** C6, as stated for every source axis: with the source frequency 1
    given twice, with the values 5 and 7, the value returned at the
    target 1 is 7, the later of the two samples, and so not the value of
    the sample 5 at the same frequency. *)
Lemma repeated_frequency_not_exact :
  interpolate_to_common_grid [1; 1; 2] [(5, 0); (7, 0); (9, 0)] [1]
  = inl [(7, 0)] /\
  ~ exact_at_samples [1; 1; 2] [(5, 0); (7, 0); (9, 0)] 1 (7, 0).
Proof.
  split; [vm_compute; reflexivity|].
  intros H.
  destruct (H 0%nat 1 (5, 0) eq_refl eq_refl (Qeq_refl 1)) as [H0 _].
  unfold Qeq in H0. simpl in H0. lia.
Qed.

End AlignFacts.

(** * Further properties of the parser *)

Module ParserEdge.
Import PyStr Numpy NumpyFacts Spec ParserSpec Parser ParserFacts.

Section WithConversions.
Variable py_float : string -> option Q.
Variable py_int : string -> option Z.

Local Abbreviation parse_reconstructed_unv := (parse_reconstructed_unv py_float py_int).
Local Abbreviation parse_header := (parse_header py_float py_int).
Local Abbreviation scan_data_start := (scan_data_start py_float).
Local Abbreviation collect := (collect py_float).

Lemma bind_ret {A B} (a : A) (k : A -> result B) : bind (ret a) k = k a.
Proof. reflexivity. Qed.

Lemma find_dataset_spec fuel lines i :
  length lines - i <= fuel ->
  match find_dataset fuel lines i with
  | Some k =>
      exists j, k = j + 2 /\ i <= j /\ marker_at lines j = true /\
        forall j', i <= j' < j -> marker_at lines j' = false
  | None => forall j, i <= j -> marker_at lines j = false
  end.
Proof.
  revert i. induction fuel as [|fuel IH]; intros i Hfuel; simpl.
  - intros j Hj. unfold marker_at. rewrite (lookup_ge_None_2 lines j) by lia. done.
  - destruct (i <? length lines) eqn:Hlt.
    + destruct (marker_at lines i) eqn:Hm.
      * exists i. split_and!; [done | lia | done | intros; lia].
      * specialize (IH (i + 1)). destruct (find_dataset fuel lines (i + 1)) as [k|].
        -- destruct IH as (j & -> & Hle & Hj & Hbefore); [apply Nat.ltb_lt in Hlt; lia|].
           exists j. split_and!; [done | lia | done |].
           intros j' Hj'. destruct (decide (j' = i)) as [->|Hne]; [done|].
           apply Hbefore. lia.
        -- intros j Hj. destruct (decide (j = i)) as [->|Hne]; [done|].
           apply IH; [apply Nat.ltb_lt in Hlt; lia | lia].
    + apply Nat.ltb_ge in Hlt. intros j Hj. unfold marker_at.
      rewrite (lookup_ge_None_2 lines j) by lia. done.
Qed.

Lemma find_dataset_first lines j :
  first_marker lines j -> find_dataset (length lines) lines 0 = Some (j + 2).
Proof.
  intros [Hj Hbefore].
  pose proof (find_dataset_spec (length lines) lines 0) as H.
  destruct (find_dataset (length lines) lines 0) as [k|].
  - destruct H as (j0 & -> & _ & Hj0 & Hb0); [lia|].
    destruct (Nat.lt_trichotomy j j0) as [Hlt|[->|Hgt]]; [|done|].
    + rewrite Hb0 in Hj by lia. done.
    + rewrite Hbefore in Hj0 by lia. done.
  - rewrite H in Hj by lia. done.
Qed.

(** A text without a [-1] line directly followed by a [58] line is
    refused with the error "No Dataset 58 found in file". *)
Theorem no_marker_no_dataset (raw : list string) :
  (forall j, marker_at (map rstrip_crlf raw) j = false) ->
  parse_reconstructed_unv raw = inr (ValueError "No Dataset 58 found in file").
Proof.
  intros Hno. unfold Parser.parse_reconstructed_unv, Parser.parse_header.
  pose proof (find_dataset_spec (length (map rstrip_crlf raw)) (map rstrip_crlf raw) 0) as H.
  destruct (find_dataset _ _ 0) as [k|]; [|reflexivity].
  destruct H as (j & _ & _ & Hj & _); [lia|]. rewrite Hno in Hj. done.
Qed.

(** The header is read from the first dataset marker of the file: when
    the header is decoded, the scan for the payload starts eight lines
    after the first [-1] line that a [58] line follows, and the header
    fields are the
    integers of the first three tokens of the line three lines after it. *)
Theorem header_from_first_marker (lines : list string) (h : header) (start : nat) :
  parse_header lines = inl (h, start) ->
  exists j l,
    first_marker lines j /\ start = j + 8 /\
    lines !! (j + 3) = Some l /\
    py_int (nth 0 (split l) "") = Some (data_type h) /\
    py_int (nth 1 (split l) "") = Some (num_points h) /\
    py_int (nth 2 (split l) "") = Some (spacing_type h).
Proof.
  unfold Parser.parse_header. intros H.
  pose proof (find_dataset_spec (length lines) lines 0) as Hfd.
  destruct (find_dataset (length lines) lines 0) as [k|]; [|discriminate].
  destruct Hfd as (j & -> & _ & Hj & Hbefore); [lia|].
  apply bind_inl in H as (l0 & _ & H).
  apply bind_inl in H as (l & Hl & H). apply index_inl in Hl.
  destruct (3 <=? length (split l)); [|discriminate].
  apply bind_inl in H as (dt & Hdt & H).
  apply bind_inl in H as (np & Hnp & H).
  apply bind_inl in H as (sp & Hsp & H).
  apply bind_inl in H as (xs & _ & H).
  unfold ret in H. injection H as <- <-.
  unfold to_int in Hdt, Hnp, Hsp.
  destruct (py_int (nth 0 (split l) "")) as [dt'|] eqn:E0; [|discriminate].
  destruct (py_int (nth 1 (split l) "")) as [np'|] eqn:E1; [|discriminate].
  destruct (py_int (nth 2 (split l) "")) as [sp'|] eqn:E2; [|discriminate].
  unfold ret in Hdt, Hnp, Hsp. injection Hdt as ->. injection Hnp as ->.
  injection Hsp as ->.
  exists j, l. split_and!; [| lia | | done ..].
  - split; [done|]. intros j' Hj'. apply Hbefore. lia.
  - by replace (j + 3) with (j + 2 + 1) by lia.
Qed.

(** A file that ends less than two lines after its first dataset marker
    makes the parser raise [IndexError]. *)
Theorem truncated_after_marker (raw : list string) (j : nat) :
  first_marker (map rstrip_crlf raw) j ->
  length raw <= j + 3 ->
  parse_reconstructed_unv raw = inr IndexError.
Proof.
  intros Hfirst Hlen. unfold Parser.parse_reconstructed_unv, Parser.parse_header.
  rewrite (find_dataset_first _ _ Hfirst).
  set (lines := map rstrip_crlf raw).
  assert (Hl : length lines = length raw) by apply length_map.
  unfold index. destruct (lines !! (j + 2)) as [l0|] eqn:H0; [|reflexivity].
  simpl. rewrite (lookup_ge_None_2 lines (j + 2 + 1)) by lia. reflexivity.
Qed.

(** A characteristic line with fewer than three tokens is refused with
    the error "Invalid data characteristic line". *)
Theorem short_characteristic_line (raw : list string) (j : nat) (l0 l : string) :
  first_marker (map rstrip_crlf raw) j ->
  map rstrip_crlf raw !! (j + 2) = Some l0 ->
  map rstrip_crlf raw !! (j + 3) = Some l ->
  length (split l) < 3 ->
  parse_reconstructed_unv raw = inr (ValueError "Invalid data characteristic line").
Proof.
  intros Hfirst H0 H1 Hshort. unfold Parser.parse_reconstructed_unv, Parser.parse_header.
  rewrite (find_dataset_first _ _ Hfirst). unfold index. rewrite H0, bind_ret.
  replace (j + 2 + 1) with (j + 3) by lia. rewrite H1, bind_ret.
  assert ((3 <=? length (split l)) = false) as -> by (apply Nat.leb_gt; lia).
  reflexivity.
Qed.

(** With three to five tokens on the characteristic line the two reals
    are not read at all: the header gets [x_min = 0] and the step 1,
    whatever the fourth and fifth token are. *)
Theorem default_axis_reals (lines : list string) (j : nat) (l0 l : string)
    (dt np sp : Z) :
  first_marker lines j ->
  lines !! (j + 2) = Some l0 ->
  lines !! (j + 3) = Some l ->
  3 <= length (split l) < 6 ->
  py_int (nth 0 (split l) "") = Some dt ->
  py_int (nth 1 (split l) "") = Some np ->
  py_int (nth 2 (split l) "") = Some sp ->
  parse_header lines
  = inl ({| data_type := dt; num_points := np; spacing_type := sp;
            x_min := 0; x_increment_or_max := 1 |}, j + 8).
Proof.
  intros Hfirst H0 H1 [Hge Hlt] Hdt Hnp Hsp. unfold Parser.parse_header.
  rewrite (find_dataset_first _ _ Hfirst). unfold index. rewrite H0, bind_ret.
  replace (j + 2 + 1) with (j + 3) by lia. rewrite H1, bind_ret.
  assert ((3 <=? length (split l)) = true) as -> by (by apply Nat.leb_le).
  unfold to_int. rewrite Hdt, Hnp, Hsp, !bind_ret.
  assert ((6 <=? length (split l)) = false) as -> by (apply Nat.leb_gt; lia).
  rewrite bind_ret. unfold ret. simpl. do 2 f_equal. lia.
Qed.

Lemma accumulate_prefix fuel1 fuel2 lines k l np i dv lp :
  lines !! k = Some l -> is_end l = true ->
  i <= k -> k - i <= fuel1 -> k - i <= fuel2 ->
  accumulate py_float fuel1 lines np i dv lp
  = accumulate py_float fuel2 (take k lines) np i dv lp.
Proof.
  intros Hk Hend. revert fuel2 i dv lp.
  induction fuel1 as [|fuel1 IH]; intros fuel2 i dv lp Hi H1 H2.
  - assert (i = k) as -> by lia. simpl.
    destruct fuel2; simpl; [done|].
    by rewrite (lookup_ge_None_2 (take k lines) k) by (rewrite length_take; lia).
  - simpl. destruct (decide (i = k)) as [->|Hne].
    + rewrite Hk. unfold is_end in Hend. rewrite Hend.
      destruct fuel2; simpl;
        [|rewrite (lookup_ge_None_2 (take k lines) k) by (rewrite length_take; lia)];
        by destruct (Z.of_nat (length dv) <? np * 2)%Z.
    + destruct fuel2 as [|fuel2]; [lia|]. simpl.
      rewrite lookup_take_lt by lia.
      destruct (lines !! i) as [li|]; [|done].
      destruct (Z.of_nat (length dv) <? np * 2)%Z; [|done].
      destruct (String.eqb (strip li) "-1"); [done|].
      destruct (String.eqb (strip li) "").
      * apply IH; lia.
      * destruct (np * 3 <? lp + 1)%Z; [done|]. apply IH; lia.
Qed.

(** The accumulation never reads past a sentinel: the values collected
    from [start] are those collected from the text cut just before any
    sentinel line at or after [start]. *)
Theorem collect_stops_at_sentinel (lines : list string) (h : header)
    (start k : nat) (l : string) :
  lines !! k = Some l -> is_end l = true -> start <= k ->
  collect lines h start = collect (take k lines) h start.
Proof.
  intros Hk Hend Hle. unfold Parser.collect.
  apply lookup_lt_Some in Hk as Hlt.
  apply (accumulate_prefix _ _ lines k l); [done | done | lia | lia |].
  rewrite length_take. lia.
Qed.

Lemma accumulate_rows fuel lines np (rows : list (Q * Q)) s m dv :
  np = Z.of_nat (length rows) ->
  (forall k row, rows !! k = Some row ->
     exists l, lines !! (s + k) = Some l /\ payload_line py_float l row) ->
  m <= length rows ->
  dv = concat (map row_values (take m rows)) ->
  length rows - m <= fuel ->
  accumulate py_float fuel lines np (s + m) dv (Z.of_nat m)
  = concat (map row_values rows).
Proof.
  intros Hnp Hrows. revert m dv.
  induction fuel as [|fuel IH]; intros m dv Hm Hdv Hfuel.
  - assert (m = length rows) as -> by lia. simpl. by rewrite take_ge in Hdv by lia.
  - simpl. destruct (decide (m = length rows)) as [->|Hne].
    + rewrite take_ge in Hdv by lia.
      assert (Hlen : length dv = 2 * length rows).
      { rewrite Hdv. clear. induction rows as [|r rows IH]; simpl; lia. }
      assert ((Z.of_nat (length dv) <? np * 2)%Z = false) as ->
        by (apply Z.ltb_ge; lia).
      by destruct (lines !! (s + length rows)).
    + destruct (lookup_lt_is_Some_2 rows m) as [row Hrow]; [lia|].
      destruct (Hrows m row Hrow) as (l & Hl & Hend & Hblank & Hvals).
      rewrite Hl.
      assert (Hlen : length dv = 2 * m).
      { rewrite Hdv. assert (Hm' : m <= length rows) by lia.
        clear -Hm'. revert m Hm'.
        induction rows as [|r rows IH]; intros [|m] Hm'; simpl in *; try lia.
        rewrite IH; lia. }
      assert ((Z.of_nat (length dv) <? np * 2)%Z = true) as ->
        by (apply Z.ltb_lt; lia).
      unfold is_end in Hend. rewrite Hend, Hblank, Hvals.
      assert ((np * 3 <? Z.of_nat m + 1)%Z = false) as -> by (apply Z.ltb_ge; lia).
      replace (s + m + 1) with (s + S m) by lia.
      replace (Z.of_nat m + 1)%Z with (Z.of_nat (S m)) by lia.
      apply IH; [lia | | lia].
      rewrite (take_S_r rows m row Hrow), map_app, concat_app, Hdv.
      reflexivity.
Qed.

(** Round trip on a well-formed payload: when the header announces as
    many points as there are rows and the lines from the payload start on
    hold one row each, two values per line, the parser returns exactly
    these rows as the response table, with nothing padded and nothing
    cut. *)
Theorem well_formed_payload_round_trip (raw : list string) (h : header)
    (start s : nat) (rows : list (Q * Q)) :
  parse_header (map rstrip_crlf raw) = inl (h, start) ->
  scan_data_start (length (map rstrip_crlf raw)) (map rstrip_crlf raw) start = inl s ->
  num_points h = Z.of_nat (length rows) ->
  rows <> [] ->
  (forall k row, rows !! k = Some row ->
     exists l, map rstrip_crlf raw !! (s + k) = Some l /\ payload_line py_float l row) ->
  exists d,
    parse_reconstructed_unv raw = inl d /\
    d !! "data" = Some (VMat 2 (map row_values rows)) /\
    d !! "num_points" = Some (VInt (Z.of_nat (length rows))).
Proof.
  intros Hh Hs Hnp Hne Hrows. set (lines := map rstrip_crlf raw) in *.
  assert (Hpos : 1 <= length rows) by (destruct rows; [done | simpl; lia]).
  assert (Hcollect : collect lines h s = concat (map row_values rows)).
  { unfold Parser.collect.
    replace s with (s + 0) at 1 by lia. change 0%Z with (Z.of_nat 0).
    apply accumulate_rows; [done | done | lia | done |].
    destruct (lookup_lt_is_Some_2 rows (length rows - 1)) as [row Hrow]; [lia|].
    destruct (Hrows _ _ Hrow) as (l & Hl & _). apply lookup_lt_Some in Hl. lia. }
  assert (Hflat : length (concat (map row_values rows)) = 2 * length rows).
  { clear. induction rows as [|r rows IH]; simpl; lia. }
  assert (Hvalues : flat_values (num_points h) (concat (map row_values rows))
                    = concat (map row_values rows)).
  { unfold flat_values. replace (Z.to_nat (num_points h * 2) - _) with 0 by lia.
    simpl. rewrite app_nil_r. apply take_ge. lia. }
  assert (Hpairs : pairs (concat (map row_values rows)) = map row_values rows).
  { clear. induction rows as [|r rows IH]; simpl; [done|]. by rewrite IH. }
  destruct (build_axis_ok h) as (axis & Ha); [lia|].
  pose proof (build_axis_length _ _ Ha) as Hlen.
  exists (record_of h axis (map row_values rows)). split_and!.
  - apply parse_inl. exists h, start, s, (map row_values rows), axis.
    split_and!; try done.
    + fold lines. rewrite Hcollect, build_table_spec by lia.
      by rewrite Hvalues, Hpairs.
    + intros ->. simpl in Hlen. lia.
    + destruct rows; [done | simpl; done].
  - by destruct (record_of_lookup h axis (map row_values rows)) as (_ & ? & _).
  - destruct (record_of_lookup h axis (map row_values rows)) as (_ & _ & Hn & _).
    by rewrite Hn, Hnp.
Qed.

End WithConversions.

Import Examples Concrete.

Lemma no_marker_no_dataset_witness :
  (forall j, marker_at (map rstrip_crlf no_marker_file) j = false) /\
  parse_reconstructed_unv float_of_string int_of_string no_marker_file
  = inr (ValueError "No Dataset 58 found in file").
Proof.
  assert (H : forall j, marker_at (map rstrip_crlf no_marker_file) j = false)
    by (intros j; do 4 (destruct j as [|j]; [reflexivity|]); reflexivity).
  split; [exact H|].
  exact (no_marker_no_dataset float_of_string int_of_string no_marker_file H).
Defined.

Lemma header_from_first_marker_witness :
  parse_header float_of_string int_of_string (map rstrip_crlf short_payload_file)
    = inl (short_payload_header, 8) /\
  exists j l,
    first_marker (map rstrip_crlf short_payload_file) j /\ 8 = j + 8 /\
    map rstrip_crlf short_payload_file !! (j + 3) = Some l /\
    int_of_string (nth 0 (split l) "") = Some (data_type short_payload_header) /\
    int_of_string (nth 1 (split l) "") = Some (num_points short_payload_header) /\
    int_of_string (nth 2 (split l) "") = Some (spacing_type short_payload_header).
Proof.
  split; [vm_compute; reflexivity|].
  apply (header_from_first_marker float_of_string int_of_string
           (map rstrip_crlf short_payload_file) short_payload_header 8).
  vm_compute. reflexivity.
Defined.

Lemma truncated_after_marker_witness :
  first_marker (map rstrip_crlf truncated_file) 0 /\
  length truncated_file <= 0 + 3 /\
  parse_reconstructed_unv float_of_string int_of_string truncated_file = inr IndexError.
Proof.
  assert (H : first_marker (map rstrip_crlf truncated_file) 0)
    by (split; [reflexivity | intros; lia]).
  split_and!; [exact H | simpl; lia |].
  apply (truncated_after_marker float_of_string int_of_string truncated_file 0 H).
  simpl. lia.
Defined.

Lemma short_characteristic_line_witness :
  first_marker (map rstrip_crlf short_characteristic_file) 0 /\
  length (split "2 3") < 3 /\
  parse_reconstructed_unv float_of_string int_of_string short_characteristic_file
  = inr (ValueError "Invalid data characteristic line").
Proof.
  assert (H : first_marker (map rstrip_crlf short_characteristic_file) 0)
    by (split; [reflexivity | intros; lia]).
  split_and!; [exact H | simpl; lia |].
  apply (short_characteristic_line float_of_string int_of_string
           short_characteristic_file 0 "reconstructed FRF" "2 3" H);
    [reflexivity | reflexivity | simpl; lia].
Defined.

Lemma default_axis_reals_witness :
  first_marker five_token_lines 0 /\
  3 <= length (split "2 3 1 7 9") < 6 /\
  parse_header float_of_string int_of_string five_token_lines
  = inl ({| data_type := 2; num_points := 3; spacing_type := 1;
            x_min := 0; x_increment_or_max := 1 |}, 0 + 8).
Proof.
  assert (H : first_marker five_token_lines 0)
    by (split; [reflexivity | intros; lia]).
  split_and!; [exact H | simpl; lia | simpl; lia |].
  apply (default_axis_reals float_of_string int_of_string five_token_lines 0
           "reconstructed FRF" "2 3 1 7 9" 2 3 1 H);
    [reflexivity | reflexivity | simpl; lia | reflexivity ..].
Defined.

Lemma collect_stops_at_sentinel_witness :
  map rstrip_crlf short_payload_file !! 10 = Some "-1" /\
  is_end "-1" = true /\ 8 <= 10 /\
  collect float_of_string (map rstrip_crlf short_payload_file) short_payload_header 8
  = collect float_of_string (take 10 (map rstrip_crlf short_payload_file))
      short_payload_header 8.
Proof.
  split_and!; [reflexivity | reflexivity | lia |].
  apply (collect_stops_at_sentinel float_of_string
           (map rstrip_crlf short_payload_file) short_payload_header 8 10 "-1");
    [reflexivity | reflexivity | lia].
Defined.

Lemma well_formed_payload_round_trip_witness :
  exists d,
    parse_reconstructed_unv float_of_string int_of_string well_formed_file = inl d /\
    d !! "data" = Some (VMat 2 (map row_values [(1, 2); (3, 4); (5, 6)]%Q)) /\
    d !! "num_points" = Some (VInt (Z.of_nat (length [(1, 2); (3, 4); (5, 6)]%Q))).
Proof.
  apply (well_formed_payload_round_trip float_of_string int_of_string
           well_formed_file short_payload_header 8 8 [(1, 2); (3, 4); (5, 6)]%Q);
    [vm_compute; reflexivity | vm_compute; reflexivity | reflexivity | discriminate |].
  intros k row Hk.
  destruct k as [|[|[|k]]]; simpl in Hk; [| | |discriminate];
    injection Hk as <-; eexists; (split; [reflexivity|]);
    (split_and!; vm_compute; reflexivity).
Defined.

End ParserEdge.

(** * Further properties of the fallback filter *)

Module FallbackEdge.
Import PyStr Fallback FallbackSpec FallbackFacts.

Lemma no_opener_spec p ls :
  no_opener p ls = true <->
  forall i l, ls !! i = Some l -> is_marker l = true -> prev_flag p ls i = false.
Proof.
  revert p. induction ls as [|x ls IH]; intros p; simpl.
  - split; [|done]. intros _ i l Hl. by rewrite lookup_nil in Hl.
  - rewrite andb_true_iff, IH. split.
    + intros [Hhead Htail] i l Hl Hm. destruct i as [|i]; simpl in *.
      * injection Hl as ->. rewrite Hm in Hhead. by destruct p.
      * specialize (Htail i l Hl Hm). by destruct i.
    + intros H. split.
      * destruct (is_marker x) eqn:Hm; [|done].
        specialize (H 0 x eq_refl Hm). simpl in H. by rewrite H.
      * intros i l Hl Hm. specialize (H (S i) l Hl Hm). by destruct i.
Qed.

Lemma no_opener_has_opener lines : no_opener false lines = true <-> ~ has_opener lines.
Proof.
  rewrite no_opener_spec. split.
  - intros H (i & l & Hl & Hm & Hp). specialize (H i l Hl Hm).
    destruct i; simpl in *; congruence.
  - intros H i l Hl Hm. destruct (prev_flag false lines i) eqn:Hp; [|done].
    exfalso. apply H. exists i, l. split_and!; [done | done |].
    by destruct i.
Qed.

Lemma no_opener_weaken q ls : no_opener true ls = true -> no_opener q ls = true.
Proof.
  destruct ls as [|l ls]; simpl; [done|]. rewrite !andb_true_iff.
  intros [Hh Ht]. split; [|done]. destruct (is_marker l); [done | by destruct q].
Qed.

Lemma block_filter_no_opener ls :
  (forall p, no_opener p (block_filter false (Copy p) ls) = true) /\
  no_opener true (block_filter false Skip ls) = true.
Proof.
  induction ls as [|l ls [IHc IHs]]; [by split|]. split.
  - intros p. simpl. destruct (is_marker l && p) eqn:Hm.
    + by apply no_opener_weaken.
    + simpl. by rewrite Hm, IHc.
  - simpl. destruct (is_sentinel l); [apply IHc | apply IHs].
Qed.

Lemma filter_lines_block_filter lines :
  filter_lines lines = block_filter false (Copy false) lines.
Proof. unfold filter_lines. by rewrite filter_loop_spec by lia. Qed.

(** The filtered text holds no [151] line directly after a [-1] line. *)
Theorem filtered_text_has_no_opener (lines : list string) :
  ~ has_opener (filter_lines lines).
Proof.
  apply no_opener_has_opener. rewrite filter_lines_block_filter.
  apply block_filter_no_opener.
Qed.

Lemma block_filter_id k p ls :
  no_opener p ls = true -> block_filter k (Copy p) ls = ls.
Proof.
  revert p. induction ls as [|l ls IH]; intros p; simpl; [done|].
  rewrite andb_true_iff. intros [Hh Ht].
  destruct (is_marker l && p); [done|]. by rewrite IH.
Qed.

Lemma block_filter_shorter p ls :
  no_opener p ls = false ->
  length (block_filter false (Copy p) ls) < length ls.
Proof.
  revert p. induction ls as [|l ls IH]; intros p; simpl; [done|].
  destruct (is_marker l && p) eqn:Hm; simpl.
  - intros _. pose proof (sublist_length _ _ (block_filter_sublist false Skip ls)). lia.
  - intros H. specialize (IH _ H). lia.
Qed.

(** The filter leaves a text unchanged exactly when no [151] line of it
    comes directly after a [-1] line. *)
Theorem filter_identity_iff (lines : list string) :
  filter_lines lines = lines <-> ~ has_opener lines.
Proof.
  rewrite filter_lines_block_filter, <- no_opener_has_opener. split.
  - intros Heq. destruct (no_opener false lines) eqn:Hno; [done|].
    apply block_filter_shorter in Hno. rewrite Heq in Hno. lia.
  - apply block_filter_id.
Qed.

(** Filtering a filtered text changes nothing. *)
Theorem filter_lines_idempotent (lines : list string) :
  filter_lines (filter_lines lines) = filter_lines lines.
Proof.
  rewrite (filter_lines_block_filter (filter_lines lines)).
  apply block_filter_id. apply no_opener_has_opener.
  rewrite filter_lines_block_filter. apply no_opener_has_opener.
  apply block_filter_no_opener.
Qed.

End FallbackEdge.

(** * Further properties of the alignment *)

Module AlignEdge.
Import NumpyFacts Spec Align AlignSpec AlignFacts.

Local Open Scope Q_scope.

Lemma interp1d_length_error xs ys :
  length xs <> length ys -> exists e, interp1d xs ys = inr e.
Proof.
  intros Hne. unfold interp1d.
  assert ((length xs =? length ys)%nat = false) as -> by (by apply Nat.eqb_neq).
  eexists. reflexivity.
Qed.

Lemma interp1d_empty_error ys : exists e, interp1d [] ys = inr e.
Proof. destruct ys; eexists; reflexivity. Qed.

(** The alignment raises exactly when the source axis and the source
    signal differ in length or the source is empty. *)
Theorem interpolate_fails_iff (x_source : list Q) (y_source_complex : list complex)
    (x_target : list Q) :
  fails (interpolate_to_common_grid x_source y_source_complex x_target) <->
  length x_source <> length y_source_complex \/ x_source = [].
Proof.
  unfold fails, interpolate_to_common_grid. split.
  - intros [e He].
    destruct (decide (length x_source = length y_source_complex)) as [Hlen|Hne];
      [|by left].
    destruct x_source as [|x xs]; [by right|]. exfalso.
    destruct (interp1d_spec (x :: xs) (map fst y_source_complex))
      as (fr & Hfr & _); [by rewrite length_map | simpl; lia |].
    destruct (interp1d_spec (x :: xs) (map snd y_source_complex))
      as (fi & Hfi & _); [by rewrite length_map | simpl; lia |].
    rewrite Hfr, Hfi in He. discriminate.
  - intros [Hne| ->].
    + destruct (interp1d_length_error x_source (map fst y_source_complex))
        as [e He]; [by rewrite length_map|].
      rewrite He. eexists. reflexivity.
    + destruct (interp1d_empty_error (map fst y_source_complex)) as [e He].
      rewrite He. eexists. reflexivity.
Qed.

Lemma call_linear_np_between (s : list (Q * Q)) p a b t :
  StronglySorted lt_x s -> s !! p = Some a -> s !! S p = Some b ->
  fst a < t -> t <= fst b ->
  call_linear_np (map fst s) (map snd s) t
  == snd a + (snd b - snd a) * ((t - fst a) / (fst b - fst a)).
Proof.
  intros Hs Ha Hb Hlt Hle.
  destruct (Qlt_le_dec t (fst b)) as [Hin|Hat].
  - apply (call_linear_np_inner s p a b t); [done | done | done | lra | done].
  - assert (Ht : t == fst b) by lra.
    rewrite (call_linear_np_at_sample s (S p) b t Hs Hb Ht).
    rewrite Ht. field. lra.
Qed.

(** Between two neighbouring source samples [interp1d] returns the value
    on the straight line through them. *)
Lemma interp1d_between xs ys ia ib xa ya xb yb t :
  length xs = length ys -> distinct xs ->
  xs !! ia = Some xa -> ys !! ia = Some ya ->
  xs !! ib = Some xb -> ys !! ib = Some yb ->
  xa < t -> t <= xb ->
  (forall x, x ∈ xs -> x <= xa \/ xb <= x) ->
  exists f, interp1d xs ys = inl f /\
    f t == ya + (yb - ya) * ((t - xa) / (xb - xa)).
Proof.
  intros Hlen Hdist Hxa Hya Hxb Hyb Hlt Hle Hnb. unfold interp1d.
  assert ((length xs =? length ys)%nat = true) as -> by (by apply Nat.eqb_eq).
  apply lookup_lt_Some in Hxa as Hia.
  assert ((length xs =? 0)%nat = false) as -> by (apply Nat.eqb_neq; lia).
  simpl. eexists. split; [reflexivity|]. cbv zeta.
  destruct (sort_samples_facts xs ys Hlen) as (Hsorted & Hperm & Hfst & Hslen).
  set (s := sort_samples xs ys) in *.
  assert (Hstrict : StronglySorted lt_x s).
  { apply strictly_sorted; [done|]. unfold distinct in Hdist. by rewrite Hfst. }
  assert (Ha : (xa, ya) ∈ s).
  { rewrite Hperm. apply list_elem_of_lookup. exists ia. by apply lookup_zip_Some. }
  assert (Hb : (xb, yb) ∈ s).
  { rewrite Hperm. apply list_elem_of_lookup. exists ib. by apply lookup_zip_Some. }
  apply list_elem_of_lookup in Ha as (p & Hp).
  apply list_elem_of_lookup in Hb as (q & Hq).
  assert (Hpq : q = S p).
  { destruct (Nat.lt_trichotomy p q) as [Hlt'|[->|Hgt]].
    - destruct (decide (q = S p)) as [->|Hne]; [done|]. exfalso.
      destruct (lookup_lt_is_Some_2 s (S p)) as [c Hc];
        [apply lookup_lt_Some in Hq; lia|].
      pose proof (strongly_sorted_lookup lt_x s p (S p) _ _ Hstrict Hp Hc) as H1.
      pose proof (strongly_sorted_lookup lt_x s (S p) q _ _ Hstrict Hc Hq) as H2.
      unfold lt_x in H1, H2. simpl in H1, H2.
      assert (Hc_in : fst c ∈ xs).
      { rewrite <- Hfst. apply list_elem_of_fmap_2, list_elem_of_lookup. eauto. }
      destruct (Hnb _ Hc_in); [specialize (H1 ltac:(lia)) | specialize (H2 ltac:(lia))]; lra.
    - rewrite Hp in Hq. injection Hq as <- _. lra.
    - pose proof (strongly_sorted_lookup lt_x s q p _ _ Hstrict Hq Hp Hgt) as H1.
      unfold lt_x in H1. simpl in H1. lra. }
  subst q.
  assert (Hx0 : item (map fst s) 0 <= xa).
  { change 0%Z with (Z.of_nat 0). destruct p as [|p].
    - rewrite (item_fst s 0 _ Hp). apply Qle_refl.
    - destruct (lookup_lt_is_Some_2 s 0%nat) as [c Hc];
        [apply lookup_lt_Some in Hp; lia|].
      rewrite (item_fst s 0 _ Hc).
      pose proof (strongly_sorted_lookup lt_x s 0 (S p) _ _ Hstrict Hc Hp) as H1.
      unfold lt_x in H1. simpl in H1. apply Qlt_le_weak, H1. lia. }
  assert (Hxn : xb <= item (map fst s) (-1)).
  { rewrite item_last, length_map. apply lookup_lt_Some in Hq as Hqlt.
    destruct (lookup_lt_is_Some_2 s (length s - 1)%nat) as [c Hc]; [lia|].
    rewrite (nth_lookup_Some _ _ _ (fst c)) by (by apply lookup_map_Some).
    destruct (decide (S p = length s - 1)%nat) as [Heq|Hne].
    - rewrite <- Heq, Hq in Hc. injection Hc as <-. apply Qle_refl.
    - pose proof (strongly_sorted_lookup lt_x s (S p) (length s - 1) _ _
                    Hstrict Hq Hc) as H1.
      unfold lt_x in H1. simpl in H1. apply Qlt_le_weak, H1. lia. }
  destruct (Qlt_le_dec t (item (map fst s) 0)); [lra|].
  destruct (Qlt_le_dec (item (map fst s) (-1)) t); [lra|].
  apply (call_linear_np_between s p (xa, ya) (xb, yb) t); done.
Qed.

(** Linear interpolation: for pairwise distinct source frequencies, a
    target [t] that lies after one source frequency and at or before the
    next one gets, in the real and in the imaginary part, the value on
    the straight line through these two samples. *)
Theorem interpolate_between_neighbours (x_source : list Q)
    (y_source_complex : list complex) (ia ib : nat) (xa xb t : Q) (ya yb : complex) :
  length x_source = length y_source_complex -> distinct x_source ->
  x_source !! ia = Some xa -> y_source_complex !! ia = Some ya ->
  x_source !! ib = Some xb -> y_source_complex !! ib = Some yb ->
  xa < t -> t <= xb ->
  (forall x, x ∈ x_source -> x <= xa \/ xb <= x) ->
  exists z,
    interpolate_to_common_grid x_source y_source_complex [t] = inl [z] /\
    fst z == fst ya + (fst yb - fst ya) * ((t - xa) / (xb - xa)) /\
    snd z == snd ya + (snd yb - snd ya) * ((t - xa) / (xb - xa)).
Proof.
  intros Hlen Hdist Hxa Hya Hxb Hyb Hlt Hle Hnb.
  destruct (interp1d_between x_source (map fst y_source_complex) ia ib
              xa (fst ya) xb (fst yb) t) as (fr & Hfr & Hr);
    try assumption; try (by apply lookup_map_Some); try (by rewrite length_map).
  destruct (interp1d_between x_source (map snd y_source_complex) ia ib
              xa (snd ya) xb (snd yb) t) as (fi & Hfi & Hi);
    try assumption; try (by apply lookup_map_Some); try (by rewrite length_map).
  unfold interpolate_to_common_grid. rewrite Hfr, Hfi. simpl.
  eexists. split; [reflexivity|]. split; assumption.
Qed.

Lemma interpolate_between_neighbours_witness :
  exists z,
    interpolate_to_common_grid [10; 100; 50] [(1, 2); (3, 4); (5, 6)] [30] = inl [z] /\
    fst z == 1 + (5 - 1) * ((30 - 10) / (50 - 10)) /\
    snd z == 2 + (6 - 2) * ((30 - 10) / (50 - 10)).
Proof.
  apply (interpolate_between_neighbours [10; 100; 50] [(1, 2); (3, 4); (5, 6)]
           0 2 10 50 30 (1, 2) (5, 6));
    [reflexivity | | reflexivity | reflexivity | reflexivity | reflexivity
    | reflexivity | discriminate |].
  - unfold distinct. vm_compute.
    repeat (apply NoDup_cons; split;
            [rewrite ?elem_of_cons; intros H;
             repeat (destruct H as [H|H]; [discriminate|]);
             by apply not_elem_of_nil in H|]).
    apply NoDup_nil_2.
  - intros x Hx. rewrite !elem_of_cons in Hx.
    destruct Hx as [->|[->|[->|Hx]]];
      [left; discriminate | right; discriminate | right; discriminate
      | by apply not_elem_of_nil in Hx].
Defined.

End AlignEdge.

(** * Further properties of the metrics *)

Module MetricsEdge.
Import NumpyFacts Spec Metrics MetricsSpec ReportSpec MetricsFacts.

Local Open Scope Q_scope.

Lemma vdot_self_cons z a :
  fst (vdot (z :: a) (z :: a)) = fst z * fst z + snd z * snd z + fst (vdot a a).
Proof. destruct z as [zr zi]. reflexivity. Qed.

Lemma vdot_self_nonneg a : 0 <= fst (vdot a a).
Proof.
  induction a as [|z a IH]; [apply Qle_refl|].
  rewrite vdot_self_cons. nra.
Qed.

(** The energy [vdot(y, y).real] is positive unless the signal is zero
    everywhere. *)
Lemma vdot_self_zero a : fst (vdot a a) <= 0 <-> all_zero a.
Proof.
  induction a as [|z a IH].
  - split; [|intros _; apply Qle_refl]. intros _ z Hz. by apply not_elem_of_nil in Hz.
  - rewrite vdot_self_cons. pose proof (vdot_self_nonneg a) as Hn. split.
    + intros Hle z' Hz'.
      assert (Hz0 : fst z * fst z + snd z * snd z <= 0) by lra.
      assert (Ha0 : fst (vdot a a) <= 0) by nra.
      apply elem_of_cons in Hz' as [->|Hz']; [|by apply IH].
      split; nra.
    + intros Hall.
      assert (Ha : fst (vdot a a) <= 0).
      { apply IH. intros z' Hz'. apply Hall. by right. }
      destruct (Hall z) as [Hr Hi]; [left|]. rewrite Hr, Hi. lra.
Qed.

Lemma length_omap_all_some {A} (l : list (option A)) :
  Forall is_Some l -> length (omap id l) = length l.
Proof.
  induction 1 as [|o l [a ->] _ IH]; csimpl; [done|]. by rewrite IH.
Qed.

Lemma omap_all_none {A} (l : list (option A)) :
  Forall (fun o => o = None) l -> omap id l = [].
Proof. induction 1 as [|o l -> _ IH]; csimpl; done. Qed.

Lemma elem_of_omap_id {A} (l : list (option A)) a :
  a ∈ omap id l -> Some a ∈ l.
Proof.
  induction l as [|[b|] l IH]; csimpl; intros H.
  - by apply not_elem_of_nil in H.
  - apply elem_of_cons in H as [->|H]; [left | right; auto].
  - right. auto.
Qed.

Section WithLibraries.
Variable sqrt : Q -> Q.
Variable find_peaks : list Q -> Q -> list nat.

Local Abbreviation Cabs := (Cabs sqrt).
Local Abbreviation compute_all_metrics := (compute_all_metrics sqrt find_peaks).

(** The scalar entries of a report. *)
Lemma compute_all_metrics_scalars freq yo yr r :
  compute_all_metrics freq yo yr = inl r ->
  RMSE r = sqrt (mean (map sq (zip_with Qminus (map Cabs yo) (map Cabs yr)))) /\
  MAE r = mean (map Qabs (zip_with Qminus (map Cabs yo) (map Cabs yr))) /\
  FRAC r =
    (if Qlt_le_dec 0 (fst (vdot yo yo)) then
       if Qlt_le_dec 0 (fst (vdot yr yr))
       then Number (sq (Cabs (vdot yo yr)) / (fst (vdot yo yo) * fst (vdot yr yr)))
       else Unavailable
     else Unavailable).
Proof.
  unfold Metrics.compute_all_metrics. intros H.
  apply bind_inl in H as (m & Hm & H).
  apply bind_inl in H as (tol & Htol & H).
  apply bind_inl in H as (found & Hfound & H).
  unfold ret in H. injection H as <-. simpl. done.
Qed.

(** The FRAC entry of a report is unavailable exactly when one of the two
    complex signals is zero at every sample; otherwise it is a number. *)
Theorem frac_unavailable_iff freq y_original y_reconstructed r :
  compute_all_metrics freq y_original y_reconstructed = inl r ->
  (FRAC r = Unavailable <-> all_zero y_original \/ all_zero y_reconstructed) /\
  (FRAC r <> Unavailable -> exists q, FRAC r = Number q).
Proof.
  intros H. apply compute_all_metrics_scalars in H as (_ & _ & ->).
  rewrite <- !vdot_self_zero.
  destruct (Qlt_le_dec 0 (fst (vdot y_original y_original))) as [Ha|Ha];
    [destruct (Qlt_le_dec 0 (fst (vdot y_reconstructed y_reconstructed))) as [Hb|Hb]|].
  - split; [|eauto]. split; [done|]. intros [H|H]; lra.
  - split; [|done]. split; [by right | done].
  - split; [|done]. split; [by left | done].
Qed.

(** The computation raises when the two signals differ in length, when
    they are empty, or when the frequency axis is empty. *)
Theorem compute_all_metrics_rejects freq y_original y_reconstructed :
  length y_original <> length y_reconstructed \/ y_original = [] \/ freq = [] ->
  fails (compute_all_metrics freq y_original y_reconstructed).
Proof.
  intros Hbad. unfold fails, Metrics.compute_all_metrics.
  destruct (r2_score (map Cabs y_original) (map Cabs y_reconstructed))
    as [m|e] eqn:Hm; [|eexists; reflexivity].
  apply r2_score_inl in Hm as (Hlen & Hpos & _). rewrite !length_map in *.
  destruct Hbad as [Hne|[->| ->]]; [done | simpl in Hpos; lia |].
  eexists. reflexivity.
Qed.

(** What a recorded pair holds, read off one turn of the loop. *)
Lemma match_peak_fields freq mag_orig mag_recon peaks_recon tol p c :
  match_peak freq mag_orig mag_recon peaks_recon tol p = inl (Some c) ->
  exists q,
    q ∈ peaks_recon /\
    freq !! p = Some (freq_original c) /\
    mag_orig !! p = Some (mag_original c) /\
    freq !! q = Some (freq_reconstructed c) /\
    mag_recon !! q = Some (mag_reconstructed c) /\
    freq_error c = freq_reconstructed c - freq_original c /\
    mag_error c = mag_reconstructed c - mag_original c /\
    Qabs (freq_error c) < tol.
Proof.
  unfold Metrics.match_peak. intros H.
  apply bind_inl in H as (f & Hf & H). apply index_inl in Hf.
  apply bind_inl in H as (mp & Hmp & H). apply index_inl in Hmp.
  destruct (0 <? length peaks_recon)%nat; [|discriminate].
  apply bind_inl in H as (fs & Hfs & H). apply traverse_inl in Hfs.
  apply bind_inl in H as (d & Hd & H). apply index_inl in Hd.
  destruct (Qlt_le_dec d tol) as [Hlt|Hle]; [|discriminate].
  apply bind_inl in H as (q & Hq & H). apply index_inl in Hq.
  apply bind_inl in H as (fq & Hfq & H). apply index_inl in Hfq.
  apply bind_inl in H as (mq & Hmq & H). apply index_inl in Hmq.
  unfold ret in H. injection H as <-. simpl.
  assert (Hdq : d = Qabs (fq - f)).
  { destruct (Forall2_lookup_l _ _ _ _ _ Hfs Hq) as (fk & Hfk & Hidx).
    apply index_inl in Hidx. rewrite Hfq in Hidx. injection Hidx as <-.
    rewrite (lookup_map_Some _ _ _ _ Hfk) in Hd. by injection Hd. }
  subst d. exists q. split_and!; try done.
  apply list_elem_of_lookup. eauto.
Qed.

Lemma found_pairs freq mag_orig mag_recon peaks_orig peaks_recon tol found c :
  traverse (match_peak freq mag_orig mag_recon peaks_recon tol) peaks_orig = inl found ->
  c ∈ omap id found ->
  exists p, p ∈ peaks_orig /\
    match_peak freq mag_orig mag_recon peaks_recon tol p = inl (Some c).
Proof.
  intros Hfound Hc. apply traverse_inl in Hfound.
  apply elem_of_omap_id, list_elem_of_lookup in Hc as (k & Hk).
  destruct (Forall2_lookup_r _ _ _ _ _ Hfound Hk) as (p & Hp & Hmatch).
  exists p. split; [|done]. apply list_elem_of_lookup. eauto.
Qed.

(** Every pair of the report joins a detected reference peak and a
    detected reconstructed peak: its frequencies and magnitudes are those
    of the two signals at these peaks, its errors are their differences,
    and its frequency error is below the tolerance in absolute value. *)
Theorem report_pairs_are_detected_peaks freq y_original y_reconstructed r :
  compute_all_metrics freq y_original y_reconstructed = inl r ->
  exists tol,
    tolerance_of freq = inl tol /\
    forall c, c ∈ peak_analysis r ->
      exists p q,
        p ∈ find_peaks (map Cabs y_original)
              ((1 # 10) * maximum (map Cabs y_original)) /\
        q ∈ find_peaks (map Cabs y_reconstructed)
              ((1 # 10) * maximum (map Cabs y_original)) /\
        freq !! p = Some (freq_original c) /\
        map Cabs y_original !! p = Some (mag_original c) /\
        freq !! q = Some (freq_reconstructed c) /\
        map Cabs y_reconstructed !! q = Some (mag_reconstructed c) /\
        freq_error c = freq_reconstructed c - freq_original c /\
        mag_error c = mag_reconstructed c - mag_original c /\
        Qabs (freq_error c) < tol.
Proof.
  intros H. apply compute_all_metrics_inl in H
    as (m & tol & found & _ & Htol & Hfound & _ & Hpa & _).
  exists tol. split; [done|]. intros c Hc. rewrite Hpa in Hc.
  destruct (found_pairs _ _ _ _ _ _ _ _ Hfound Hc) as (p & Hp & Hmatch).
  apply match_peak_fields in Hmatch as (q & Hq & H1 & H2 & H3 & H4 & H5 & H6 & H7).
  exists p, q. split_and!; done.
Qed.

(** On an axis whose last frequency is not above its first one (a single
    frequency, a constant or a descending axis) no pair is ever recorded,
    however close the peaks are. *)
Theorem backward_axis_matches_nothing freq y_original y_reconstructed r first_f last_f :
  compute_all_metrics freq y_original y_reconstructed = inl r ->
  freq !! 0%nat = Some first_f ->
  freq !! (length freq - 1)%nat = Some last_f ->
  last_f <= first_f ->
  peak_analysis r = [] /\ n_peaks_matched r = 0%nat.
Proof.
  intros H Hfirst Hlast Hle. apply compute_all_metrics_inl in H
    as (m & tol & found & _ & Htol & Hfound & _ & Hpa & _ & _ & Hnm).
  assert (Htol0 : tol <= 0).
  { unfold tolerance_of, index in Htol. rewrite Hlast, Hfirst in Htol.
    unfold ret in Htol. simpl in Htol. injection Htol as <-. lra. }
  assert (Hnil : peak_analysis r = []).
  { destruct (peak_analysis r) as [|c l] eqn:Hc; [done|]. exfalso.
    assert (Hin : c ∈ omap id found) by (rewrite <- Hpa; left).
    destruct (found_pairs _ _ _ _ _ _ _ _ Hfound Hin) as (p & _ & Hmatch).
    apply match_peak_fields in Hmatch as (q & _ & _ & _ & _ & _ & _ & _ & Hlt).
    pose proof (Qabs_nonneg (freq_error c)). lra. }
  split; [done|]. by rewrite Hnm, Hnil.
Qed.

Lemma sum_sq_diff_self m :
  sum (zip_with (fun t p => sq (t - p)) m m) == 0.
Proof.
  induction m as [|x m IH]; [reflexivity|].
  change (sum (zip_with (fun t p => sq (t - p)) (x :: m) (x :: m)))
    with (sq (x - x) + sum (zip_with (fun t p => sq (t - p)) m m)).
  rewrite IH. unfold sq. ring.
Qed.

Lemma sum_abs_diff_self m : sum (map Qabs (zip_with Qminus m m)) == 0.
Proof.
  induction m as [|x m IH]; [reflexivity|].
  change (sum (map Qabs (zip_with Qminus (x :: m) (x :: m))))
    with (Qabs (x - x) + sum (map Qabs (zip_with Qminus m m))).
  rewrite IH. assert (Hx : x - x == 0) by ring. rewrite Hx. reflexivity.
Qed.

Lemma sum_sq_error_self m : sum (map sq (zip_with Qminus m m)) == 0.
Proof.
  induction m as [|x m IH]; [reflexivity|].
  change (sum (map sq (zip_with Qminus (x :: m) (x :: m))))
    with (sq (x - x) + sum (map sq (zip_with Qminus m m))).
  rewrite IH. unfold sq. ring.
Qed.

(** A signal compared with itself: over at least two samples R2 is the
    number 1, the mean absolute error is 0 and the RMSE is the square
    root of 0; and on an axis whose last frequency is above its first
    every detected peak is matched, with frequency error 0. *)
Theorem identical_signals freq y r :
  compute_all_metrics freq y y = inl r ->
  (2 <= length y)%nat ->
  R2 r = Number 1 /\
  MAE r == 0 /\
  (exists q, RMSE r = sqrt q /\ q == 0) /\
  (forall first_f last_f,
     freq !! 0%nat = Some first_f -> freq !! (length freq - 1)%nat = Some last_f ->
     first_f < last_f ->
     n_peaks_matched r = n_peaks_original r /\
     forall c, c ∈ peak_analysis r -> freq_error c == 0).
Proof.
  intros H Hn. pose proof (compute_all_metrics_scalars _ _ _ _ H) as (Hrmse & Hmae & _).
  apply compute_all_metrics_inl in H
    as (m & tol & found & Hm & Htol & Hfound & HR2 & Hpa & Hno & _ & Hnm).
  set (mag := map Cabs y) in *.
  assert (Hlen : length mag = length y) by apply length_map.
  split_and!.
  - rewrite HR2. unfold r2_score in Hm. rewrite Nat.eqb_refl in Hm. simpl in Hm.
    assert ((length mag =? 0)%nat = false) as Hz by (apply Nat.eqb_neq; lia).
    assert ((length mag <? 2)%nat = false) as Hlt by (apply Nat.ltb_ge; lia).
    rewrite Hz, Hlt in Hm.
    assert (Qeq_bool (sum (zip_with (fun t p => sq (t - p)) mag mag)) 0 = true) as Hq
      by (apply Qeq_bool_iff, sum_sq_diff_self).
    rewrite Hq in Hm. unfold ret in Hm. by injection Hm.
  - rewrite Hmae. unfold mean. rewrite sum_abs_diff_self.
    unfold Qdiv. ring.
  - eexists. split; [exact Hrmse|]. unfold mean. rewrite sum_sq_error_self.
    unfold Qdiv. ring.
  - intros first_f last_f Hfirst Hlast Hlt.
    assert (Htol0 : 0 < tol).
    { unfold tolerance_of, index in Htol. rewrite Hlast, Hfirst in Htol.
      unfold ret in Htol. simpl in Htol. injection Htol as <-. lra. }
    pose proof (traverse_inl _ _ _ Hfound) as Hall.
    set (peaks := find_peaks mag ((1 # 10) * maximum mag)) in *.
    assert (Hsome : Forall is_Some found).
    { apply Forall_forall. intros o Ho.
      apply list_elem_of_lookup in Ho as (k & Hk).
      destruct (Forall2_lookup_r _ _ _ _ _ Hall Hk) as (p & Hp & Hmatch).
      apply match_peak_spec in Hmatch as (f & Hf & Hout).
      destruct o as [c|]; [eauto|]. exfalso.
      apply (Hout p f); [apply list_elem_of_lookup; eauto | done |].
      assert (Hz : f - f == 0) by ring. rewrite Hz. exact Htol0. }
    split.
    + rewrite Hnm, Hno, Hpa, (length_omap_all_some _ Hsome).
      symmetry. apply (Forall2_length _ _ _ Hall).
    + intros c Hc. rewrite Hpa in Hc.
      destruct (found_pairs _ _ _ _ _ _ _ _ Hfound Hc) as (p & Hp & Hmatch).
      apply match_peak_spec in Hmatch as (f & Hf & Hforig & q & fq & Hq & Hfq & Hfrec & Hfe & Hmin & _).
      rewrite Hfe. specialize (Hmin p f Hp Hf).
      assert (Hz : f - f == 0) by ring. rewrite Hz in Hmin.
      change (Qabs 0) with 0 in Hmin.
      apply Qabs_Qle_condition in Hmin. lra.
Qed.

End WithLibraries.

Import Concrete.

Lemma frac_unavailable_iff_witness :
  exists r,
    compute_all_metrics sqrt_q find_peaks [0; 1] [(0, 0); (0, 0)] [(1, 0); (2, 0)]
      = inl r /\
    (FRAC r = Unavailable <->
       all_zero [(0, 0); (0, 0)] \/ all_zero [(1, 0); (2, 0)]) /\
    (FRAC r <> Unavailable -> exists q, FRAC r = Number q).
Proof.
  eexists. split.
  - vm_compute. reflexivity.
  - apply (frac_unavailable_iff sqrt_q find_peaks [0; 1]
             [(0, 0); (0, 0)] [(1, 0); (2, 0)]).
    vm_compute. reflexivity.
Defined.

Lemma compute_all_metrics_rejects_witness :
  (length [(1, 0); (2, 0)] <> length [(1, 0)] \/ [(1, 0); (2, 0)] = []
   \/ [0; 1] = []) /\
  fails (compute_all_metrics sqrt_q find_peaks [0; 1] [(1, 0); (2, 0)] [(1, 0)]).
Proof.
  assert (H : length [(1, 0); (2, 0)] <> length [(1, 0)] \/
              [(1, 0); (2, 0)] = [] \/ [0; 1] = [])
    by (left; simpl; lia).
  split; [exact H|].
  exact (compute_all_metrics_rejects sqrt_q find_peaks [0; 1]
           [(1, 0); (2, 0)] [(1, 0)] H).
Defined.

Lemma report_pairs_are_detected_peaks_witness :
  exists r,
    compute_all_metrics sqrt_q find_peaks [0; 1; 2]
      [(1, 0); (3, 0); (1, 0)] [(1, 0); (4, 0); (1, 0)] = inl r /\
    exists tol,
      tolerance_of [0; 1; 2] = inl tol /\
      forall c, c ∈ peak_analysis r ->
        exists p q,
          p ∈ find_peaks (map (Cabs sqrt_q) [(1, 0); (3, 0); (1, 0)])
                ((1 # 10) * maximum (map (Cabs sqrt_q) [(1, 0); (3, 0); (1, 0)])) /\
          q ∈ find_peaks (map (Cabs sqrt_q) [(1, 0); (4, 0); (1, 0)])
                ((1 # 10) * maximum (map (Cabs sqrt_q) [(1, 0); (3, 0); (1, 0)])) /\
          [0; 1; 2] !! p = Some (freq_original c) /\
          map (Cabs sqrt_q) [(1, 0); (3, 0); (1, 0)] !! p = Some (mag_original c) /\
          [0; 1; 2] !! q = Some (freq_reconstructed c) /\
          map (Cabs sqrt_q) [(1, 0); (4, 0); (1, 0)] !! q = Some (mag_reconstructed c) /\
          freq_error c = freq_reconstructed c - freq_original c /\
          mag_error c = mag_reconstructed c - mag_original c /\
          Qabs (freq_error c) < tol.
Proof.
  eexists. split.
  - vm_compute. reflexivity.
  - apply (report_pairs_are_detected_peaks sqrt_q find_peaks [0; 1; 2]
             [(1, 0); (3, 0); (1, 0)] [(1, 0); (4, 0); (1, 0)]).
    vm_compute. reflexivity.
Defined.

Lemma backward_axis_matches_nothing_witness :
  exists r,
    compute_all_metrics sqrt_q find_peaks [2; 1; 0]
      [(0, 0); (1, 0); (0, 0)] [(0, 0); (1, 0); (0, 0)] = inl r /\
    0 <= 2 /\
    peak_analysis r = [] /\ n_peaks_matched r = 0%nat.
Proof.
  eexists. split; [vm_compute; reflexivity|]. split; [discriminate|].
  apply (backward_axis_matches_nothing sqrt_q find_peaks [2; 1; 0]
           [(0, 0); (1, 0); (0, 0)] [(0, 0); (1, 0); (0, 0)] _ 2 0);
    [vm_compute; reflexivity | reflexivity | reflexivity | discriminate].
Defined.

Lemma identical_signals_witness :
  exists r,
    compute_all_metrics sqrt_q find_peaks [0; 1; 2]
      [(0, 0); (1, 0); (0, 0)] [(0, 0); (1, 0); (0, 0)] = inl r /\
    R2 r = Number 1 /\
    MAE r == 0 /\
    (exists q, RMSE r = sqrt_q q /\ q == 0) /\
    (forall first_f last_f,
       [0; 1; 2] !! 0%nat = Some first_f ->
       [0; 1; 2] !! (length [0; 1; 2] - 1)%nat = Some last_f ->
       first_f < last_f ->
       n_peaks_matched r = n_peaks_original r /\
       forall c, c ∈ peak_analysis r -> freq_error c == 0).
Proof.
  eexists. split.
  - vm_compute. reflexivity.
  - apply (identical_signals sqrt_q find_peaks [0; 1; 2] [(0, 0); (1, 0); (0, 0)]);
      [vm_compute; reflexivity | simpl; lia].
Defined.

End MetricsEdge.

(** * The export and the validation front end on whole records *)

Module ValidationEdge.
Import Metrics.

Section WithLibraries.
Variable sqrt : Q -> Q.
Variable find_peaks : list Q -> Q -> list nat.

Local Abbreviation calculate_validation_metrics :=
  (calculate_validation_metrics sqrt find_peaks).
Local Abbreviation save_selected_record := (save_selected_record sqrt).

(** A key missing from the reconstructed record stops the validation
    with a [KeyError] for that key, once the Testlab response has been
    accepted as complex. *)
Theorem missing_key_stops_validation (x_testlab : list Q) (y_testlab_raw : pyval)
    (v : list complex) (recon_record : gmap string pyval) :
  testlab_complex y_testlab_raw = inl v ->
  recon_record !! "x" = None \/ recon_record !! "data" = None ->
  exists key,
    calculate_validation_metrics x_testlab y_testlab_raw recon_record
      = inr (KeyError key) /\
    recon_record !! key = None.
Proof.
  intros Htest Hmiss. unfold Metrics.calculate_validation_metrics, getitem.
  rewrite Htest. simpl.
  destruct (recon_record !! "x") as [xv|] eqn:Hx.
  - destruct Hmiss as [?|Hd]; [done|]. rewrite Hd. simpl.
    exists "data". by split.
  - simpl. exists "x". by split.
Qed.

(** A type-58 record of a .unv file that has no response makes the export
    report a [KeyError]. *)
Theorem export_without_response (original_record : gmap string pyval) :
  is_type_58 original_record = true ->
  original_record !! "data" = None ->
  save_selected_record "unv" original_record = inr (KeyError "data").
Proof.
  intros Htype Hdata. unfold Metrics.save_selected_record, getitem.
  rewrite Htype, Hdata. reflexivity.
Qed.

End WithLibraries.

Import Examples Concrete.

Lemma missing_key_stops_validation_witness :
  testlab_complex (VCVec [(1, 0); (2, 0)]%Q) = inl [(1, 0); (2, 0)]%Q /\
  record_without_axis !! "x" = None /\
  exists key,
    calculate_validation_metrics sqrt_q find_peaks [0; 1]%Q
      (VCVec [(1, 0); (2, 0)]%Q) record_without_axis = inr (KeyError key) /\
    record_without_axis !! key = None.
Proof.
  split_and!; [reflexivity | reflexivity |].
  apply (missing_key_stops_validation sqrt_q find_peaks [0; 1]%Q
           (VCVec [(1, 0); (2, 0)]%Q) [(1, 0); (2, 0)]%Q record_without_axis);
    [reflexivity | left; reflexivity].
Defined.

Lemma export_without_response_witness :
  is_type_58 record_without_data = true /\
  record_without_data !! "data" = None /\
  save_selected_record sqrt_q "unv" record_without_data = inr (KeyError "data").
Proof.
  split_and!; [reflexivity | reflexivity |].
  apply (export_without_response sqrt_q record_without_data); reflexivity.
Defined.

End ValidationEdge.

(** * The record map of a Testlab file *)

Module RecordMapFacts.
Import Metrics RecordMap.

Lemma iid_of_inj i j : iid_of i = iid_of j -> i = j.
Proof.
  unfold iid_of. intros H. apply (inj pretty).
  by apply (String.app_inj "testlab_") in H.
Qed.

Lemma populate_lookup data : forall i m k d,
  populate i data m !! k = Some d <->
  (exists j, k = iid_of (i + j) /\ data !! j = Some d /\ is_type_58 d = true) \/
  (m !! k = Some d /\
   forall j d', data !! j = Some d' -> is_type_58 d' = true -> k <> iid_of (i + j)).
Proof.
  induction data as [|d0 data IH]; intros i m k d; simpl.
  - split; [intros H; right; split; [done|]; intros j d' Hj; done|].
    intros [(j & _ & Hj & _)|[H _]]; done.
  - rewrite IH. split.
    + intros [(j & -> & Hj & Ht)|[Hm Hfresh]].
      * left. exists (S j). split_and!; [f_equal; lia | done | done].
      * destruct (is_type_58 d0) eqn:Ht0.
        -- destruct (decide (k = iid_of i)) as [->|Hne].
           ++ rewrite lookup_insert_eq in Hm. injection Hm as ->.
              left. exists 0. split_and!; [f_equal; lia | done | done].
           ++ rewrite lookup_insert_ne in Hm by done.
              right. split; [done|]. intros [|j] d' Hj Ht'.
              ** by rewrite Nat.add_0_r.
              ** replace (i + S j) with (S i + j) by lia. by apply (Hfresh j d').
        -- right. split; [done|]. intros [|j] d' Hj Ht'.
           ++ simpl in Hj. injection Hj as <-. congruence.
           ++ replace (i + S j) with (S i + j) by lia. by apply (Hfresh j d').
    + intros [(j & -> & Hj & Ht)|[Hm Hfresh]].
      * destruct j as [|j].
        -- simpl in Hj. injection Hj as ->. rewrite Ht.
           right. split; [rewrite Nat.add_0_r; apply lookup_insert_eq|].
           intros j d' _ _ Heq. apply iid_of_inj in Heq. lia.
        -- left. exists j. split_and!; [f_equal; lia | done | done].
      * right. split.
        -- destruct (is_type_58 d0) eqn:Ht0; [|done].
           rewrite lookup_insert_ne; [done|].
           intros <-. apply (Hfresh 0 d0); [done | done | by rewrite Nat.add_0_r].
        -- intros j d' Hj Ht'. replace (S i + j) with (i + S j) by lia.
           by apply (Hfresh (S j) d').
Qed.

(** After a [.unv] file is loaded the record map holds exactly its
    type-58 data sets, each under the identifier made of its position in
    the whole file: data sets of other types are left out but keep their
    position number. *)
Theorem record_map_holds_type_58_sets testlab_data k d :
  load_testlab_unv testlab_data !! k = Some d <->
  exists i,
    k = iid_of i /\ data_to_process testlab_data !! i = Some d /\
    is_type_58 d = true.
Proof.
  unfold load_testlab_unv, populate_testlab_tree_unv. rewrite populate_lookup.
  split.
  - intros [(j & -> & Hj & Ht)|[Hm _]]; [eauto | by rewrite lookup_empty in Hm].
  - intros (i & -> & Hi & Ht). left. eauto.
Qed.

Section WithLibraries.
Variable sqrt : Q -> Q.

(** For a record selected from a loaded [.unv] file the export ends
    without a write and without an error exactly when the file dialog
    was cancelled; with a path it hands a record to [write_sets] or it
    raises, since the type test of the export cannot fail for such a
    record. *)
Theorem silent_export_iff_cancelled testlab_data k d save_path :
  load_testlab_unv testlab_data !! k = Some d ->
  export_from_dialog sqrt save_path "unv" d = inl None <-> save_path = "".
Proof.
  unfold load_testlab_unv, populate_testlab_tree_unv. rewrite populate_lookup.
  intros [(j & _ & _ & Ht)|[Hm _]]; [|by rewrite lookup_empty in Hm].
  unfold export_from_dialog.
  destruct (String.eqb save_path "") eqn:Hp.
  - apply String.eqb_eq in Hp. done.
  - apply String.eqb_neq in Hp. split; [|done]. intros H. exfalso.
    unfold save_selected_record in H. rewrite Ht in H.
    change (String.eqb "unv" "unv" && true) with true in H. cbv iota in H.
    destruct (getitem d "data") as [y|e]; [|discriminate].
    change (x <- inl y ;; ?k) with (k y) in H.
    destruct y as [z|s|v|v|ncols rows]; try discriminate.
    cbv beta iota delta [bind] in H. destruct (2 <=? ncols); discriminate.
Qed.

End WithLibraries.

Import Examples Concrete.

Lemma silent_export_iff_cancelled_witness :
  exists d,
    load_testlab_unv (ManySets testlab_sets) !! "testlab_2" = Some d /\
    (export_from_dialog sqrt_q "out.unv" "unv" d = inl None <-> "out.unv" = "").
Proof.
  eexists. split; [vm_compute; reflexivity|].
  apply (silent_export_iff_cancelled sqrt_q (ManySets testlab_sets) "testlab_2").
  vm_compute. reflexivity.
Defined.

End RecordMapFacts.
